(** * LangoSpark backend: the AI lesson controllers

    A shallow embedding of [src/controllers/ai-lessons.controllers.ts],
    of the [authenticateToken] middleware and of the router that mounts the
    controllers, with the properties of the content generation pipeline
    proved (or refuted) on it.

    Layout:
    - [JS]: the JavaScript values the controllers handle (results of
      [JSON.parse], property reads and writes, truthiness, exceptions);
    - [Text]: the string operations of [safeJsonParse] ([trim], the three
      fence-stripping [replace] calls, the two greedy [match] calls), and
      [safeJsonParse] itself over any [JSON.parse];
    - [Reader]: a small executable JSON reader, used to run the pipeline on
      concrete model replies;
    - [Prisma], [Gemini]: the tables the controllers read and write, and
      the requests they send to the model;
    - [Eff]: the environment of a handler and the state-and-exception
      monad the handlers run in; a run yields the answer, the database
      after it and the events (persistence calls, model calls, log lines)
      in their order;
    - section [Controllers]: the handlers, one definition per source
      function, the middleware and the router;
    - [Extraction], [Shape], [Runs], [Sample]: the notions the properties
      are stated with, and a sample deployment to run the handlers on;
    - [Logic]: what holds of a handler, put together from what holds of
      its steps; the handlers by route; [Scenario]: more sample requests;
    - the properties: first those of the content generation pipeline,
      then those of the extraction of fenced and embedded replies, of
      every step of a handler (answers, statuses, tables, log lines), of
      the repair of the pronunciation feedback, of the round trips
      between the handlers, and of the middleware. *)

From Stdlib Require Import String Ascii List Bool Arith ZArith QArith Lia.
From Stdlib Require Import DecimalString.
Import ListNotations.
Close Scope Q_scope.
Open Scope string_scope.
Set Warnings "-register-all".

(* ------------------------------------------------------------------ *)
(** ** JavaScript values *)

Module JS.

(** A number as [JSON.parse] can return it: a finite double (every double
    is a rational, and [<] [>] on doubles are the comparisons of the
    rationals) or an infinity (a literal too large for a double, such as
    [1e999]).  [JSON.parse] never returns [NaN]. *)
Inductive number : Type :=
| Finite (q : Q)
| PosInfinity
| NegInfinity.

(** [a < b] of JavaScript on such numbers. *)
Definition num_lt (a b : number) : bool :=
  match a, b with
  | Finite x, Finite y => negb (Qle_bool y x)
  | Finite _, PosInfinity => true
  | NegInfinity, Finite _ => true
  | NegInfinity, PosInfinity => true
  | _, _ => false
  end.

(** A value: what [JSON.parse] returns, and what the handlers build from
    it.  Objects and arrays keep their properties in insertion order.  An
    array is an object too, so a handler can hang a named property on it
    ([extra]); [JSON.parse] returns arrays without any. *)
Inductive value : Type :=
| JNull
| JBool (b : bool)
| JNum (n : number)
| JStr (s : string)
| JArr (items : list value) (extra : list (string * value))
| JObj (props : list (string * value)).

(** The exceptions that occur. *)
Inductive exn : Type :=
| SyntaxError                 (* JSON.parse *)
| TypeError                   (* property access on null/undefined, ... *)
| Error (msg : string)        (* throw new Error(msg) *)
| JsonWebTokenError           (* jwt.verify *)
| GoogleGenerativeAIError     (* the model endpoint *)
| PrismaError.                (* any rejection of a prisma call *)

(** A computation that returns or throws. *)
Inductive outcome (A : Type) : Type :=
| Return (a : A)
| Throw (e : exn).
Arguments Return {A} a.
Arguments Throw {A} e.

(** [try { return c } catch {} ; rest] *)
Definition try_return {A} (c : outcome A) (rest : outcome A) : outcome A :=
  match c with
  | Return a => Return a
  | Throw _ => rest
  end.

Definition num (z : Z) : value := JNum (Finite (inject_Z z)).

(** The literal [0.7]. *)
Definition n0_7 : number := Finite (7 # 10)%Q.

(** [Array.isArray(v)] *)
Definition isArray (v : option value) : bool :=
  match v with
  | Some (JArr _ _) => true
  | _ => false
  end.

(** [!!v]; [None] stands for [undefined]. *)
Definition truthy (v : option value) : bool :=
  match v with
  | None | Some JNull | Some (JBool false) | Some (JStr "") => false
  | Some (JNum (Finite q)) => negb (Qeq_bool q 0%Q)
  | Some _ => true
  end.

(** [!!s] for a string that may be absent. *)
Definition truthy_str (s : option string) : bool :=
  match s with
  | None | Some "" => false
  | Some _ => true
  end.

Fixpoint assoc (k : string) (l : list (string * value)) : option value :=
  match l with
  | [] => None
  | (k', v) :: r => if String.eqb k k' then Some v else assoc k r
  end.

(** An assignment to a property: an existing key keeps its place, a new
    one goes last. *)
Fixpoint assoc_set (k : string) (v : value) (l : list (string * value))
  : list (string * value) :=
  match l with
  | [] => [(k, v)]
  | (k', v') :: r =>
      if String.eqb k k' then (k, v) :: r else (k', v') :: assoc_set k v r
  end.

(** [o.k] for one of the property names the handlers use (none of them is
    a property of a prototype, a string index or [length]): on [null] a
    [TypeError], on another primitive [undefined]. *)
Definition get (o : value) (k : string) : outcome (option value) :=
  match o with
  | JNull => Throw TypeError
  | JObj props => Return (assoc k props)
  | JArr _ extra => Return (assoc k extra)
  | _ => Return None
  end.

(** [o.k = v].  The handlers are modules, hence strict code: assigning a
    property of a primitive throws a [TypeError] there. *)
Definition set (o : value) (k : string) (v : value) : outcome value :=
  match o with
  | JObj props => Return (JObj (assoc_set k v props))
  | JArr items extra => Return (JArr items (assoc_set k v extra))
  | _ => Throw TypeError
  end.

(** The read of a property that cannot throw, for the values the handlers
    have built themselves. *)
Definition field (o : value) (k : string) : option value :=
  match o with
  | JObj props => assoc k props
  | JArr _ extra => assoc k extra
  | _ => None
  end.


End JS.
Import JS.

(* ------------------------------------------------------------------ *)
(** ** The string operations of [safeJsonParse] *)

Module Text.

(** White space of [trim] and of [\s], among the code units below 256:
    tab, line feed, vertical tab, form feed, carriage return, space and
    the no-break space. *)
Definition is_space (c : ascii) : bool :=
  let n := nat_of_ascii c in
  (((9 <=? n) && (n <=? 13)) || (n =? 32) || (n =? 160))%nat.

Fixpoint trimStart (s : string) : string :=
  match s with
  | String c r => if is_space c then trimStart r else s
  | EmptyString => EmptyString
  end.

Fixpoint trimEnd (s : string) : string :=
  match s with
  | String c r =>
      match trimEnd r with
      | EmptyString => if is_space c then EmptyString else String c EmptyString
      | r' => String c r'
      end
  | EmptyString => EmptyString
  end.

Definition trim (s : string) : string := trimEnd (trimStart s).

(** Equality of two code units under the [i] flag. *)
Definition eq_ci (a b : ascii) : bool :=
  let up (c : ascii) :=
    let n := nat_of_ascii c in
    if ((97 <=? n) && (n <=? 122))%nat then n - 32 else n in
  (up a =? up b)%nat.

(** [s] without the prefix [p], compared under the [i] flag. *)
Fixpoint after_prefix_ci (p s : string) : option string :=
  match p, s with
  | EmptyString, _ => Some s
  | String a p', String b s' =>
      if eq_ci a b then after_prefix_ci p' s' else None
  | String _ _, EmptyString => None
  end.

(** [s.replace(/^<p>\s*/i, "")]: the anchored pattern matches at the start
    only, and [\s*] is greedy. *)
Definition strip_open (p s : string) : string :=
  match after_prefix_ci p s with
  | Some r => trimStart r
  | None => s
  end.

(** [s.replace(/```$/i, "")]: without the [m] flag [$] is the end of the
    text. *)
Fixpoint strip_close (s : string) : string :=
  if String.eqb s "```" then EmptyString
  else match s with
       | String c r => String c (strip_close r)
       | EmptyString => EmptyString
       end.

(** The longest prefix of [s] that ends in [close]. *)
Fixpoint upto_last (close : ascii) (s : string) : option string :=
  match s with
  | EmptyString => None
  | String c r =>
      match upto_last close r with
      | Some m => Some (String c m)
      | None => if Ascii.eqb c close then Some (String c EmptyString) else None
      end
  end.

(** [s.match(/<open>[\s\S]*<close>/)]: the leftmost start from which the
    pattern matches, and from there the longest match. *)
Fixpoint match_span (open close : ascii) (s : string) : option string :=
  match s with
  | EmptyString => None
  | String c r =>
      if Ascii.eqb c open then
        match upto_last close r with
        | Some m => Some (String c m)
        | None => match_span open close r
        end
      else match_span open close r
  end.

(** [c] occurs in [s]. *)
Fixpoint occurs (c : ascii) (s : string) : bool :=
  match s with
  | EmptyString => false
  | String d r => Ascii.eqb d c || occurs c r
  end.

End Text.
Import Text.

(* ------------------------------------------------------------------ *)
(** ** safeJsonParse *)

Section SafeJsonParse.

(** [JSON.parse]: [None] when it throws its [SyntaxError]. *)
Variable JSON_parse : string -> option value.

Definition parse (s : string) : outcome value :=
  match JSON_parse s with
  | Some v => Return v
  | None => Throw SyntaxError
  end.

(** [text.replace(/^```json\s*/i, "").replace(/^```\s*/i, "")
        .replace(/```$/i, "").trim()] *)
Definition clean (text : string) : string :=
  trim (strip_close (strip_open "```" (strip_open "```json" text))).

(** [if (m) { try { return JSON.parse(m[0]) } catch {} } ; rest] *)
Definition try_match (m : option string) (rest : outcome value)
  : outcome value :=
  match m with
  | Some span => try_return (parse span) rest
  | None => rest
  end.

Definition no_json : exn := Error "Gemini did not return valid JSON".

Definition safeJsonParse (raw : string) : outcome value :=
  let text := trim raw in
  try_return (parse text) (
  let cleaned := clean text in
  try_return (parse cleaned) (
  let objMatch := match_span "{" "}" cleaned in
  try_match objMatch (
  let arrMatch := match_span "[" "]" cleaned in
  try_match arrMatch (
  Throw no_json)))).

End SafeJsonParse.

(* ------------------------------------------------------------------ *)
(** ** A JSON reader

    [JSON.parse] is a builtin; the handlers are stated over any function
    in its place.  To run them on concrete model replies this module reads
    the JSON grammar (ECMA-404) for texts over code units below 256.  A
    number is kept as the exact rational its literal denotes (the rounding
    to a double is not modelled), and of two members with one key the
    later wins, as in [JSON.parse]. *)

Module Reader.

Definition dquote : ascii := ascii_of_nat 34.

(** A text written with ['] where the JSON text has the double quote. *)
Fixpoint js_text (s : string) : string :=
  match s with
  | EmptyString => EmptyString
  | String c r => String (if Ascii.eqb c "'" then dquote else c) (js_text r)
  end.

(** JSON white space: space, tab, line feed, carriage return. *)
Definition is_ws (c : ascii) : bool :=
  let n := nat_of_ascii c in
  ((n =? 32) || (n =? 9) || (n =? 10) || (n =? 13))%nat.

Fixpoint skip_ws (s : string) : string :=
  match s with
  | String c r => if is_ws c then skip_ws r else s
  | EmptyString => EmptyString
  end.

Definition digit_of (c : ascii) : option Z :=
  let n := nat_of_ascii c in
  if ((48 <=? n) && (n <=? 57))%nat then Some (Z.of_nat (n - 48)) else None.

Definition hex_of (c : ascii) : option nat :=
  let n := nat_of_ascii c in
  if ((48 <=? n) && (n <=? 57))%nat then Some (n - 48)
  else if ((65 <=? n) && (n <=? 70))%nat then Some (n - 55)
  else if ((97 <=? n) && (n <=? 102))%nat then Some (n - 87)
  else None.

(** The longest run of digits at the head of [s]: its digits, most
    significant first, and the rest of the text. *)
Fixpoint digits (s : string) : list Z * string :=
  match s with
  | String c r =>
      match digit_of c with
      | Some d => let (ds, rest) := digits r in (d :: ds, rest)
      | None => ([], s)
      end
  | EmptyString => ([], s)
  end.

Definition decimal (ds : list Z) : Z :=
  fold_left (fun acc d => (10 * acc + d)%Z) ds 0%Z.

(** The characters of a string literal after its opening quote. *)
Fixpoint read_string (s : string) : option (string * string) :=
  match s with
  | EmptyString => None
  | String c r =>
      if Ascii.eqb c dquote then Some (EmptyString, r)
      else if Ascii.eqb c "\" then
        match r with
        | String e r' =>
            let esc (d : ascii) :=
              match read_string r' with
              | Some (t, rest) => Some (String d t, rest)
              | None => None
              end in
            if Ascii.eqb e dquote then esc dquote
            else match e with
                 | "\"%char => esc "\"%char
                 | "/"%char => esc "/"%char
                 | "b"%char => esc (ascii_of_nat 8)
                 | "f"%char => esc (ascii_of_nat 12)
                 | "n"%char => esc (ascii_of_nat 10)
                 | "r"%char => esc (ascii_of_nat 13)
                 | "t"%char => esc (ascii_of_nat 9)
                 | "u"%char =>
                     match r' with
                     | String h1 (String h2 (String h3 (String h4 r''))) =>
                         match hex_of h1, hex_of h2, hex_of h3, hex_of h4 with
                         | Some 0, Some 0, Some a, Some b =>
                             match read_string r'' with
                             | Some (t, rest) =>
                                 Some (String (ascii_of_nat (16 * a + b)) t, rest)
                             | None => None
                             end
                         | _, _, _, _ => None
                         end
                     | _ => None
                     end
                 | _ => None
                 end
        | EmptyString => None
        end
      else if (nat_of_ascii c <? 32)%nat then None
      else match read_string r with
           | Some (t, rest) => Some (String c t, rest)
           | None => None
           end
  end.

(** [-? int frac? exp?] *)
Definition read_number (s : string) : option (value * string) :=
  let (neg, s1) :=
    match s with
    | String "-" r => (true, r)
    | _ => (false, s)
    end in
  let (ip, s2) := digits s1 in
  match ip with
  | [] => None
  | d :: more =>
      if (d =? 0)%Z && negb (length more =? 0)%nat then None else
      let frac :=
        match s2 with
        | String "." r =>
            let (fp, s3) := digits r in
            match fp with [] => None | _ => Some (fp, s3) end
        | _ => Some ([], s2)
        end in
      match frac with
      | None => None
      | Some (fp, s3) =>
          let expo :=
            match s3 with
            | String c r =>
                if Ascii.eqb c "e" || Ascii.eqb c "E" then
                  let (eneg, r1) :=
                    match r with
                    | String "-" r' => (true, r')
                    | String "+" r' => (false, r')
                    | _ => (false, r)
                    end in
                  let (ep, s4) := digits r1 in
                  match ep with
                  | [] => None
                  | _ => Some ((if eneg then - decimal ep else decimal ep)%Z, s4)
                  end
                else Some (0%Z, s3)
            | EmptyString => Some (0%Z, s3)
            end in
          match expo with
          | None => None
          | Some (e, s4) =>
              let m := decimal (ip ++ fp) in
              let m := (if neg then - m else m)%Z in
              let e10 := (e - Z.of_nat (length fp))%Z in
              let q :=
                if (0 <=? e10)%Z then inject_Z (m * 10 ^ e10)
                else Qmake m (Z.to_pos (10 ^ (- e10))) in
              Some (JNum (Finite q), s4)
          end
      end
  end.

Definition literal (word : string) (v : value) (s : string)
  : option (value * string) :=
  if String.prefix word s
  then Some (v, substring (String.length word)
                          (String.length s - String.length word) s)
  else None.

(** A value at the head of [s] (after white space), and the rest. *)
Fixpoint read_value (fuel : nat) (s : string) : option (value * string) :=
  match fuel with
  | O => None
  | S fuel' =>
      match skip_ws s with
      | EmptyString => None
      | String c r as t =>
          if Ascii.eqb c dquote then
            match read_string r with
            | Some (str, rest) => Some (JStr str, rest)
            | None => None
            end
          else match c with
               | "n"%char => literal "null" JNull t
               | "t"%char => literal "true" (JBool true) t
               | "f"%char => literal "false" (JBool false) t
               | "["%char =>
                   match skip_ws r with
                   | String "]" rest => Some (JArr [] [], rest)
                   | _ =>
                       match read_items fuel' r with
                       | Some (vs, rest) => Some (JArr vs [], rest)
                       | None => None
                       end
                   end
               | "{"%char =>
                   match skip_ws r with
                   | String "}" rest => Some (JObj [], rest)
                   | _ =>
                       match read_members fuel' [] r with
                       | Some (ms, rest) => Some (JObj ms, rest)
                       | None => None
                       end
                   end
               | _ => read_number t
               end
      end
  end

with read_items (fuel : nat) (s : string) : option (list value * string) :=
  match fuel with
  | O => None
  | S fuel' =>
      match read_value fuel' s with
      | Some (v, rest) =>
          match skip_ws rest with
          | String "," rest' =>
              match read_items fuel' rest' with
              | Some (vs, rest'') => Some (v :: vs, rest'')
              | None => None
              end
          | String "]" rest' => Some ([v], rest')
          | _ => None
          end
      | None => None
      end
  end

with read_members (fuel : nat) (acc : list (string * value)) (s : string)
  : option (list (string * value) * string) :=
  match fuel with
  | O => None
  | S fuel' =>
      match skip_ws s with
      | String c r =>
          if Ascii.eqb c dquote then
            match read_string r with
            | Some (k, rest) =>
                match skip_ws rest with
                | String ":" rest1 =>
                    match read_value fuel' rest1 with
                    | Some (v, rest2) =>
                        let acc' := assoc_set k v acc in
                        match skip_ws rest2 with
                        | String "," rest3 => read_members fuel' acc' rest3
                        | String "}" rest3 => Some (acc', rest3)
                        | _ => None
                        end
                    | None => None
                    end
                | _ => None
                end
            | None => None
            end
          else None
      | EmptyString => None
      end
  end.

(** The whole text is one value, white space around it allowed. *)
Definition read (s : string) : option value :=
  match read_value (2 * String.length s + 2) s with
  | Some (v, rest) =>
      match skip_ws rest with
      | EmptyString => Some v
      | _ => None
      end
  | None => None
  end.

End Reader.

(* ------------------------------------------------------------------ *)
(** ** The tables *)

Module Prisma.

Inductive Level : Type := BEGINNER | INTERMEDIATE | ADVANCED.

Definition level_name (l : Level) : string :=
  match l with
  | BEGINNER => "BEGINNER"
  | INTERMEDIATE => "INTERMEDIATE"
  | ADVANCED => "ADVANCED"
  end.

Record User := { user_id : string; email : string; fullName : string }.

Record Language := {
  language_id : string;
  language_name : string;
  language_code : string }.

(** [content] and [questions] are JSON columns; [JNull] is a column that
    holds no document. *)
Record Lesson := {
  lesson_id : string;
  title : string;
  description : string;
  lesson_languageId : string;
  level : Level;
  content : value }.

Record Quiz := {
  quiz_id : string;
  quiz_lessonId : string;
  questions : value }.

Record LearningProgress := {
  progress_id : string;
  progress_userId : string;
  progress_lessonId : string;
  score : Z;
  completed : bool }.

Record ConversationPractice := {
  practice_id : string;
  practice_userId : string;
  transcript : value }.

Record ConversationExchange := {
  exchange_id : string;
  exchange_userId : string;
  exchange_languageId : string;
  userMessage : string;
  aiResponse : string }.

(** [feedback_document] is the value whose [JSON.stringify] text the
    [feedback] column holds. *)
Record PronunciationFeedback := {
  feedback_id : string;
  feedback_userId : string;
  sentence : string;
  accuracy : number;
  feedback_document : value }.

Record database := {
  users : list User;
  languages : list Language;
  lessons : list Lesson;
  quizzes : list Quiz;
  progress : list LearningProgress;
  practices : list ConversationPractice;
  exchanges : list ConversationExchange;
  pronunciations : list PronunciationFeedback }.

Definition with_lessons (d : database) (l : list Lesson) : database :=
  {| users := users d; languages := languages d; lessons := l;
     quizzes := quizzes d; progress := progress d; practices := practices d;
     exchanges := exchanges d; pronunciations := pronunciations d |}.

Definition with_quizzes (d : database) (l : list Quiz) : database :=
  {| users := users d; languages := languages d; lessons := lessons d;
     quizzes := l; progress := progress d; practices := practices d;
     exchanges := exchanges d; pronunciations := pronunciations d |}.

Definition with_progress (d : database) (l : list LearningProgress)
  : database :=
  {| users := users d; languages := languages d; lessons := lessons d;
     quizzes := quizzes d; progress := l; practices := practices d;
     exchanges := exchanges d; pronunciations := pronunciations d |}.

Definition with_practices (d : database) (l : list ConversationPractice)
  : database :=
  {| users := users d; languages := languages d; lessons := lessons d;
     quizzes := quizzes d; progress := progress d; practices := l;
     exchanges := exchanges d; pronunciations := pronunciations d |}.

Definition with_exchanges (d : database) (l : list ConversationExchange)
  : database :=
  {| users := users d; languages := languages d; lessons := lessons d;
     quizzes := quizzes d; progress := progress d; practices := practices d;
     exchanges := l; pronunciations := pronunciations d |}.

Definition with_pronunciations (d : database)
  (l : list PronunciationFeedback) : database :=
  {| users := users d; languages := languages d; lessons := lessons d;
     quizzes := quizzes d; progress := progress d; practices := practices d;
     exchanges := exchanges d; pronunciations := l |}.

(** The tables the handlers insert into. *)
Inductive table : Type :=
| TLesson | TQuiz | TLearningProgress | TConversationPractice
| TConversationExchange | TPronunciationFeedback.

(** The calls on the client, by call site. *)
Inductive call : Type :=
| user_findUnique (id : string)
| language_findUnique (id : string)
| lesson_findUnique (id : string) (includeQuiz : bool)
| lesson_create (languageId : string) (title : string)
| quiz_create (lessonId : string)
| learningProgress_create (userId lessonId : string)
| conversationPractice_create (userId : string)
| conversationExchange_create (userId languageId : string)
| pronunciationFeedback_create (userId : string).

End Prisma.
Import Prisma.

(* ------------------------------------------------------------------ *)
(** ** The model endpoint *)

Module Gemini.

(** What a prompt interpolates into its fixed template.  A document that
    the template carries as [JSON.stringify] text is kept as the value. *)
Inductive prompt : Type :=
| LessonPrompt (level : Level) (languageName : string)
               (topic : option string)
| QuizPrompt (numberOfQuestions : number) (level : Level)
             (languageName : string) (CONTENT : option value)
| ConversationPrompt (languageName : string) (level : Level)
                     (scenario : option string) (languageCode : string)
| AssistantPrompt (languageName : string) (message : string)
| CoachPrompt (languageName : string) (level : Level) (targetText : string).

(** [model.generateContent]: [jsonOnly] is the call of [callGeminiJSON]
    (the JSON-only preamble, temperature 0.4, the JSON mime type); without
    it the call of [callGeminiText] (temperature 0.7). *)
Record generation := {
  contents : prompt;
  maxOutputTokens : nat;
  jsonOnly : bool }.

End Gemini.
Import Gemini.

(* ------------------------------------------------------------------ *)
(** ** Effects *)

Module Eff.

(** What a handler does to the outside, in the order it does it.  A
    persistence call is recorded with whether it was carried out. *)
Inductive event : Type :=
| Db (c : call) (done : bool)
| Model (g : generation)
| ConsoleError (label : string) (e : exn).

(** The outside of a handler: the process environment, the model
    endpoint, [JSON.parse], [jwt.verify], the identifiers the database
    gives to new rows, and which persistence calls are rejected. *)
Record env := {
  GEMINI_API_KEY : bool;
  generateContent : generation -> option string;
  JSON_parse : string -> option value;
  jwt_verify : string -> outcome string;
  new_id : table -> nat -> string;
  rejects : call -> bool;
  engine_message : exn -> string }.

(** [error.message]: the text given to [new Error], or the text the
    engine or the library gave to an error of its own. *)
Definition message_of (E : env) (e : exn) : string :=
  match e with
  | Error msg => msg
  | _ => engine_message E e
  end.

(** A handler step: from the database to a result or an exception, the
    database after it and the events of the step. *)
Definition M (A : Type) : Type :=
  database -> outcome A * database * list event.

Definition ret {A} (a : A) : M A := fun d => (Return a, d, []).

Definition throw {A} (e : exn) : M A := fun d => (Throw e, d, []).

Definition lift {A} (o : outcome A) : M A := fun d => (o, d, []).

Definition bind {A B} (m : M A) (k : A -> M B) : M B :=
  fun d =>
    match m d with
    | (Return a, d1, t1) => let '(o, d2, t2) := k a d1 in (o, d2, (t1 ++ t2)%list)
    | (Throw e, d1, t1) => (Throw e, d1, t1)
    end.

(** [try { m } catch (e) { h e }] *)
Definition try_catch {A} (m : M A) (h : exn -> M A) : M A :=
  fun d =>
    match m d with
    | (Return a, d1, t1) => (Return a, d1, t1)
    | (Throw e, d1, t1) => let '(o, d2, t2) := h e d1 in (o, d2, (t1 ++ t2)%list)
    end.

Definition emit (e : event) : M unit := fun d => (Return tt, d, [e]).

Definition console_error (label : string) (e : exn) : M unit :=
  emit (ConsoleError label e).

Definition result_of {A} (r : outcome A * database * list event)
  : outcome A := fst (fst r).
Definition database_of {A} (r : outcome A * database * list event)
  : database := snd (fst r).
Definition events_of {A} (r : outcome A * database * list event)
  : list event := snd r.

End Eff.
Import Eff.

Declare Scope eff_scope.
Delimit Scope eff_scope with eff.
Notation "x <- c ;; k" := (bind c (fun x => k))
  (at level 61, c at next level, right associativity) : eff_scope.
Notation "c ;;; k" := (bind c (fun _ => k))
  (at level 61, right associativity) : eff_scope.

(* ------------------------------------------------------------------ *)
(** ** Requests and responses *)

Module LessonRequest.
Record t := {
  languageId : option string;
  level : option Level;
  topic : option string }.
End LessonRequest.

Module QuizRequest.
Record t := {
  lessonId : option string;
  numberOfQuestions : option number }.
End QuizRequest.

Module ConversationRequest.
Record t := {
  languageId : option string;
  level : option Level;
  scenario : option string }.
End ConversationRequest.

Module MessageRequest.
Record t := {
  languageId : option string;
  message : option string }.
End MessageRequest.

Module PronunciationFeedbackRequest.
Record t := {
  languageId : option string;
  audioData : option string;
  targetText : option string;
  level : option Level }.
End PronunciationFeedbackRequest.

(** [res.status(s).json(b)]; [res.json(b)] has status 200.  [json] is the
    value handed to [res.json]. *)
Record response := { status : nat; json : value }.

(** The status of the answer of a handler, when it answers. *)
Definition status_of (r : outcome response * database * list event)
  : option nat :=
  match result_of r with
  | Return resp => Some (status resp)
  | Throw _ => None
  end.

Definition JArray (items : list value) : value := JArr items [].

Definition failure (s : nat) (key msg : string) : response :=
  {| status := s; json := JObj [("success", JBool false); (key, JStr msg)] |}.

Definition success (payload : list (string * value)) : response :=
  {| status := 200; json := JObj (("success", JBool true) :: payload) |}.

Definition language_json (l : Language) : value :=
  JObj [("id", JStr (language_id l)); ("name", JStr (language_name l));
        ("code", JStr (language_code l))].

(** [{ ...lesson, content }]: the columns of the row, [content] last
    assigned. *)
Definition lesson_json (l : Lesson) (c : value) : value :=
  JObj [("id", JStr (lesson_id l)); ("title", JStr (title l));
        ("description", JStr (description l));
        ("languageId", JStr (lesson_languageId l));
        ("level", JStr (level_name (Prisma.level l)));
        ("content", c)].

Definition quiz_json (id lessonId : string) (qs : value) : value :=
  JObj [("id", JStr id); ("lessonId", JStr lessonId); ("questions", qs)].

(** [s.split(" ")[i]] *)
Fixpoint split_space (s : string) : list string :=
  match s with
  | EmptyString => [EmptyString]
  | String c r =>
      if Ascii.eqb c " " then EmptyString :: split_space r
      else match split_space r with
           | w :: ws => String c w :: ws
           | [] => [String c EmptyString]
           end
  end.

(** [a || b] on strings. *)
Definition or_str (a : option string) (b : string) : string :=
  match a with
  | Some (String c r) => String c r
  | _ => b
  end.

(* ------------------------------------------------------------------ *)
(** ** The handlers *)

Section Controllers.

Variable E : env.

Local Open Scope eff_scope.

(** *** The persistence calls *)

(** A call on the client: rejected by the environment, or run on the
    database, where it can still violate a key ([None]). *)
Definition prisma {A} (c : call) (run : database -> option (A * database))
  : M A :=
  fun d =>
    if rejects E c then (Throw PrismaError, d, [Db c false])
    else match run d with
         | Some (a, d') => (Return a, d', [Db c true])
         | None => (Throw PrismaError, d, [Db c false])
         end.

Definition by_id {R} (key : R -> string) (id : string) (rows : list R)
  : option R :=
  find (fun r => String.eqb (key r) id) rows.

(** The identifier of the next row of a table, refused when taken. *)
Definition fresh {R} (t : table) (key : R -> string) (rows : list R)
  : option string :=
  let id := new_id E t (length rows) in
  match by_id key id rows with
  | Some _ => None
  | None => Some id
  end.

Definition user_find (id : string) : M (option User) :=
  prisma (user_findUnique id) (fun d => Some (by_id user_id id (users d), d)).

Definition language_find (id : string) : M (option Language) :=
  prisma (language_findUnique id)
         (fun d => Some (by_id language_id id (languages d), d)).

(** [prisma.lesson.findUnique({ where: { id }, include: { language: true } })] *)
Definition lesson_find (id : string) : M (option (Lesson * option Language)) :=
  prisma (lesson_findUnique id false)
    (fun d =>
       Some (match by_id lesson_id id (lessons d) with
             | Some l =>
                 Some (l, by_id language_id (lesson_languageId l) (languages d))
             | None => None
             end, d)).

(** The same with [Quiz: true] among the relations included. *)
Definition lesson_find_quiz (id : string)
  : M (option (Lesson * option Language * list Quiz)) :=
  prisma (lesson_findUnique id true)
    (fun d =>
       Some (match by_id lesson_id id (lessons d) with
             | Some l =>
                 Some (l,
                       by_id language_id (lesson_languageId l) (languages d),
                       filter (fun q => String.eqb (quiz_lessonId q) id)
                              (quizzes d))
             | None => None
             end, d)).

Definition lesson_insert (ttl desc languageId : string) (lv : Level)
  (c : value) : M Lesson :=
  prisma (lesson_create languageId ttl)
    (fun d =>
       match fresh TLesson lesson_id (lessons d) with
       | Some id =>
           let l := {| lesson_id := id; title := ttl; description := desc;
                       lesson_languageId := languageId; Prisma.level := lv;
                       content := c |} in
           Some (l, with_lessons d (lessons d ++ [l])%list)
       | None => None
       end).

Definition quiz_insert (lessonId : string) (qs : value) : M Quiz :=
  prisma (quiz_create lessonId)
    (fun d =>
       match fresh TQuiz quiz_id (quizzes d) with
       | Some id =>
           let q := {| quiz_id := id; quiz_lessonId := lessonId;
                       questions := qs |} in
           Some (q, with_quizzes d (quizzes d ++ [q])%list)
       | None => None
       end).

Definition progress_insert (userId lessonId : string) : M LearningProgress :=
  prisma (learningProgress_create userId lessonId)
    (fun d =>
       match fresh TLearningProgress progress_id (progress d) with
       | Some id =>
           let p := {| progress_id := id; progress_userId := userId;
                       progress_lessonId := lessonId; score := 0;
                       completed := false |} in
           Some (p, with_progress d (progress d ++ [p])%list)
       | None => None
       end).

Definition practice_insert (userId : string) (t : value)
  : M ConversationPractice :=
  prisma (conversationPractice_create userId)
    (fun d =>
       match fresh TConversationPractice practice_id (practices d) with
       | Some id =>
           let p := {| practice_id := id; practice_userId := userId;
                       transcript := t |} in
           Some (p, with_practices d (practices d ++ [p])%list)
       | None => None
       end).

Definition exchange_insert (userId languageId msg reply : string)
  : M ConversationExchange :=
  prisma (conversationExchange_create userId languageId)
    (fun d =>
       match fresh TConversationExchange exchange_id (exchanges d) with
       | Some id =>
           let x := {| exchange_id := id; exchange_userId := userId;
                       exchange_languageId := languageId;
                       userMessage := msg; aiResponse := reply |} in
           Some (x, with_exchanges d (exchanges d ++ [x])%list)
       | None => None
       end).

Definition pronunciation_insert (userId text : string) (acc : number)
  (doc : value) : M PronunciationFeedback :=
  prisma (pronunciationFeedback_create userId)
    (fun d =>
       match fresh TPronunciationFeedback feedback_id (pronunciations d) with
       | Some id =>
           let f := {| feedback_id := id; feedback_userId := userId;
                       sentence := text; accuracy := acc;
                       feedback_document := doc |} in
           Some (f, with_pronunciations d (pronunciations d ++ [f])%list)
       | None => None
       end).

(** *** The model calls *)

Definition missing_key : exn :=
  Error "Missing GEMINI_API_KEY in environment variables".

(** [await model.generateContent(...)] and [result.response.text()]:
    the raw text, or the rejection of the endpoint. *)
Definition generate (g : generation) : M string :=
  emit (Model g) ;;;
  match generateContent E g with
  | Some raw => ret raw
  | None => throw GoogleGenerativeAIError
  end.

Definition callGeminiText (p : prompt) (maxOutputTokens : nat) : M string :=
  if negb (GEMINI_API_KEY E) then throw missing_key
  else generate {| contents := p; maxOutputTokens := maxOutputTokens;
                   jsonOnly := false |}.

Definition callGeminiJSON (p : prompt) (maxOutputTokens : nat) : M value :=
  if negb (GEMINI_API_KEY E) then throw missing_key
  else
    raw <- generate {| contents := p; maxOutputTokens := maxOutputTokens;
                       jsonOnly := true |} ;;
    lift (safeJsonParse (JSON_parse E) raw).

(** *** generateQuizInternal *)

Definition generateQuizInternal (lessonId : string) (lessonContent : value)
  (numberOfQuestions : number) : M Quiz :=
  lesson <- lesson_find lessonId ;;
  match lesson with
  | None => throw (Error "Lesson not found")
  | Some (lesson, language) =>
      quizContent <-
        try_catch
          (name <- lift (match language with
                         | Some l => Return (language_name l)
                         | None => Throw TypeError
                         end) ;;
           callGeminiJSON
             (QuizPrompt numberOfQuestions (Prisma.level lesson) name
                (if truthy (Some lessonContent) then Some lessonContent
                 else None))
             2400)
          (fun e =>
             console_error "Quiz JSON generation failed:" e ;;;
             ret (JArray [])) ;;
      quiz_insert lessonId quizContent
  end.

(** *** generateLesson *)

Definition lesson_fallback : value :=
  JObj [("vocabulary", JArray []);
        ("grammar",
         JStr "Lesson generated but JSON formatting failed. Please retry.");
        ("examples", JArray []);
        ("exercises", JArray []);
        ("culturalNotes", JStr "")].

(** [s ? s : undefined] *)
Definition nonempty (s : option string) : option string :=
  if truthy_str s then s else None.

(** The value of [lessonContent] after the inner [try]/[catch]. *)
Definition lesson_document (level : Level) (language : Language)
  (topic : option string) : M value :=
  try_catch
    (callGeminiJSON
       (LessonPrompt level (language_name language) (nonempty topic))
       2400)
    (fun e =>
       console_error "Lesson JSON generation failed:" e ;;;
       ret lesson_fallback).

(** The cascade step:
    [try { await generateQuizInternal(lesson.id, lessonContent, 5) }
     catch (e) { console.error(...) }] *)
Definition auto_quiz (lessonId : string) (lessonContent : value) : M unit :=
  try_catch
    (generateQuizInternal lessonId lessonContent (Finite 5) ;;; ret tt)
    (fun e => console_error "Auto quiz generation failed:" e).

Definition lesson_title (level : Level) (language : Language)
  (topic : option string) : string :=
  or_str topic
    (level_name level ++ " " ++ language_name language ++ " Lesson").

Definition lesson_response (lesson : Lesson) (lessonContent : value)
  (progress : LearningProgress) : response :=
  success
    [("lesson", lesson_json lesson lessonContent);
     ("progress",
      JObj [("id", JStr (progress_id progress));
            ("completed", JBool (completed progress));
            ("score", num (score progress))])].

Definition generateLesson (req : LessonRequest.t) (user : option User)
  : M response :=
  try_catch
    (let topic := LessonRequest.topic req in
     let userId := option_map user_id user in
     match LessonRequest.languageId req, LessonRequest.level req with
     | Some (String _ _ as languageId), Some level =>
         match userId with
         | Some (String _ _ as userId) =>
             language <- language_find languageId ;;
             match language with
             | None => ret (failure 404 "message" "Language not found")
             | Some language =>
                 lessonContent <- lesson_document level language topic ;;
                 lesson <-
                   lesson_insert (lesson_title level language topic)
                     "AI-generated lesson" languageId level lessonContent ;;
                 auto_quiz (lesson_id lesson) lessonContent ;;;
                 progress <- progress_insert userId (lesson_id lesson) ;;
                 ret (lesson_response lesson lessonContent progress)
             end
         | _ => ret (failure 401 "message" "Unauthorized")
         end
     | _, _ => ret (failure 400 "message" "languageId and level are required")
     end)
    (fun error =>
       console_error "Error generating lesson:" error ;;;
       ret (failure 500 "message" "Error generating lesson")).

(** [generateLesson] with the cascade step left out: what the handler
    would answer if it never tried to generate a quiz. *)
Definition generateLesson_without_cascade (req : LessonRequest.t)
  (user : option User) : M response :=
  try_catch
    (let topic := LessonRequest.topic req in
     let userId := option_map user_id user in
     match LessonRequest.languageId req, LessonRequest.level req with
     | Some (String _ _ as languageId), Some level =>
         match userId with
         | Some (String _ _ as userId) =>
             language <- language_find languageId ;;
             match language with
             | None => ret (failure 404 "message" "Language not found")
             | Some language =>
                 lessonContent <- lesson_document level language topic ;;
                 lesson <-
                   lesson_insert (lesson_title level language topic)
                     "AI-generated lesson" languageId level lessonContent ;;
                 progress <- progress_insert userId (lesson_id lesson) ;;
                 ret (lesson_response lesson lessonContent progress)
             end
         | _ => ret (failure 401 "message" "Unauthorized")
         end
     | _, _ => ret (failure 400 "message" "languageId and level are required")
     end)
    (fun error =>
       console_error "Error generating lesson:" error ;;;
       ret (failure 500 "message" "Error generating lesson")).

(** *** generateQuiz *)

(** [Array.isArray(q) ? q : []] *)
Definition questions_or_empty (q : value) : value :=
  if isArray (Some q) then q else JArray [].

Definition generateQuiz (req : QuizRequest.t) : M response :=
  try_catch
    (let numberOfQuestions :=
       match QuizRequest.numberOfQuestions req with
       | Some n => n
       | None => Finite 5
       end in
     match QuizRequest.lessonId req with
     | Some (String _ _ as lessonId) =>
         lesson <- lesson_find_quiz lessonId ;;
         match lesson with
         | None => ret (failure 404 "message" "Lesson not found")
         | Some (lesson, _, existing :: _) =>
             ret (success
                    [("quiz",
                      quiz_json (quiz_id existing) (quiz_lessonId existing)
                        (questions_or_empty (questions existing)))])
         | Some (lesson, _, []) =>
             quiz <- generateQuizInternal lessonId (content lesson)
                       numberOfQuestions ;;
             ret (success
                    [("quiz",
                      quiz_json (quiz_id quiz) (quiz_lessonId quiz)
                        (questions_or_empty (questions quiz)))])
         end
     | _ => ret (failure 400 "message" "lessonId is required")
     end)
    (fun error =>
       console_error "Error generating quiz:" error ;;;
       ret (failure 500 "message" "Error generating quiz")).

(** *** generateConversationPrompt *)

Definition conversation_fallback (code : string) : value :=
  let line (a b : string) :=
    JObj (assoc_set "english" (JStr b) [(code, JStr a)]) in
  JObj [("context", JStr "Practice conversation");
        ("vocabulary", JArray []);
        ("script", JArray [line "Hola" "Hello";
                           line "¿Cómo estás?" "How are you?"]);
        ("culturalNotes", JStr "")].

Definition generateConversationPrompt (req : ConversationRequest.t)
  (user : option User) : M response :=
  try_catch
    (let scenario := ConversationRequest.scenario req in
     let userId := option_map user_id user in
     match ConversationRequest.languageId req,
           ConversationRequest.level req with
     | Some (String _ _ as languageId), Some level =>
         match userId with
         | Some (String _ _ as userId) =>
             language <- language_find languageId ;;
             match language with
             | None => ret (failure 404 "message" "Language not found")
             | Some language =>
                 conversationContent <-
                   try_catch
                     (callGeminiJSON
                        (ConversationPrompt (language_name language) level
                           (nonempty scenario) (language_code language))
                        2400)
                     (fun e =>
                        console_error "Conversation JSON generation failed:" e ;;;
                        ret (conversation_fallback (language_code language))) ;;
                 let scenario' := or_str scenario "General conversation" in
                 conversation <-
                   practice_insert userId
                     (JObj [("languageId", JStr languageId);
                            ("level", JStr (level_name level));
                            ("scenario", JStr scenario');
                            ("content", conversationContent)]) ;;
                 ret (success
                        [("conversation",
                          JObj [("id", JStr (practice_id conversation));
                                ("languageId", JStr languageId);
                                ("level", JStr (level_name level));
                                ("scenario", JStr scenario');
                                ("content", conversationContent)])])
             end
         | _ => ret (failure 401 "message" "Unauthorized")
         end
     | _, _ => ret (failure 400 "message" "languageId and level are required")
     end)
    (fun error =>
       console_error "Error generating conversation prompt:" error ;;;
       ret (failure 500 "message" "Error generating conversation prompt")).

(** *** getConversationResponse *)

Definition getConversationResponse (req : MessageRequest.t)
  (user : option User) : M response :=
  try_catch
    (let userId := option_map user_id user in
     match MessageRequest.languageId req with
     | Some (String _ _ as languageId) =>
         match MessageRequest.message req with
         | Some (String _ _ as message) =>
             match userId with
             | Some (String _ _ as userId) =>
                 language <- language_find languageId ;;
                 match language with
                 | None => ret (failure 404 "message" "Language not found")
                 | Some language =>
                     responseText <-
                       callGeminiText
                         (AssistantPrompt (language_name language) message)
                         700 ;;
                     try_catch
                       (exchange_insert userId languageId message
                          responseText ;;;
                        ret tt)
                       (fun dbError =>
                          console_error "Error saving conversation:" dbError) ;;;
                     ret (success
                            [("data",
                              JObj [("response", JStr responseText)])])
                 end
             | _ => ret (failure 401 "message" "Unauthorized")
             end
         | _ => ret (failure 400 "message" "Missing or invalid message")
         end
     | _ => ret (failure 400 "message" "Missing languageId")
     end)
    (fun error =>
       console_error "Error generating conversation response:" error ;;;
       ret (failure 500 "message" "Error generating conversation response")).

(** *** getPronunciationFeedback *)

(** [typeof v === "number"] *)
Definition is_number (v : option value) : bool :=
  match v with
  | Some (JNum _) => true
  | _ => false
  end.

(** [typeof v === "string"] *)
Definition is_string (v : option value) : bool :=
  match v with
  | Some (JStr _) => true
  | _ => false
  end.

(** [typeof a !== "number" || a < 0 || a > 1] *)
Definition bad_accuracy (a : option value) : bool :=
  match a with
  | Some (JNum n) => num_lt n (Finite 0) || num_lt (Finite 1) n
  | _ => true
  end.

(** [if (bad(doc.key)) doc.key = dflt] *)
Definition default_property (key : string) (bad : option value -> bool)
  (dflt : value) (doc : value) : outcome value :=
  match get doc key with
  | Throw e => Throw e
  | Return v => if bad v then set doc key dflt else Return doc
  end.

Definition and_then {A B} (o : outcome A) (k : A -> outcome B) : outcome B :=
  match o with
  | Return a => k a
  | Throw e => Throw e
  end.

(** The four repairs made to the document of the model, in the order of
    the source. *)
Definition repair (feedback : value) : outcome value :=
  and_then (default_property "accuracy" bad_accuracy (JNum n0_7) feedback)
    (fun feedback =>
  and_then (default_property "feedback" (fun v => negb (is_string v))
              (JStr "Good attempt—keep practicing!") feedback)
    (fun feedback =>
  and_then (default_property "suggestions" (fun v => negb (isArray v))
              (JArray []) feedback)
    (fun feedback =>
  default_property "phonemes" (fun v => negb (isArray v)) (JArray [])
    feedback))).

(** [targetText.split(" ")[0] || targetText] *)
Definition first_word (targetText : string) : string :=
  or_str (nth_error (split_space targetText) 0) targetText.

Definition pronunciation_fallback (targetText : string) : value :=
  let q := String Reader.dquote EmptyString in
  JObj [("accuracy", JNum n0_7);
        ("feedback",
         JStr ("We received your pronunciation attempt for " ++ q
                 ++ targetText ++ q
                 ++ ". Here are general tips to improve."));
        ("suggestions",
         JArray [JStr "Speak slowly and clearly, then speed up gradually";
                 JStr "Repeat the phrase 3 times focusing on vowel sounds";
                 JStr "Record again in a quiet room with mic close to you"]);
        ("phonemes",
         JArray [JObj [("sound", JStr (first_word targetText));
                       ("accuracy", JNum n0_7);
                       ("feedback", JStr "Focus on clear articulation.")]])].

(** The value of [feedback] after the inner [try]/[catch]. *)
Definition pronunciation_document (language : Language) (level : Level)
  (targetText : string) : M value :=
  try_catch
    (feedback <- callGeminiJSON
                   (CoachPrompt (language_name language) level targetText)
                   1800 ;;
     lift (repair feedback))
    (fun e =>
       console_error "Pronunciation JSON generation failed:" e ;;;
       ret (pronunciation_fallback targetText)).

Definition getPronunciationFeedback (req : PronunciationFeedbackRequest.t)
  (user : option User) : M response :=
  try_catch
    (match PronunciationFeedbackRequest.languageId req,
           PronunciationFeedbackRequest.audioData req,
           PronunciationFeedbackRequest.targetText req,
           PronunciationFeedbackRequest.level req with
     | Some (String _ _ as languageId), Some (String _ _),
       Some (String _ _ as targetText), Some level =>
         language <- language_find languageId ;;
         match language with
         | None => ret (failure 404 "error" "Language not found")
         | Some language =>
             feedback <- pronunciation_document language level targetText ;;
             (* the argument of [create] is built first: [req.user.id],
                then [feedback.accuracy] *)
             userId <- lift (match user with
                             | Some u => Return (user_id u)
                             | None => Throw TypeError
                             end) ;;
             match field feedback "accuracy" with
             | Some (JNum acc) =>
                 pronunciation_insert userId targetText acc feedback
             | _ =>
                 (* not a value of the column: the client refuses it *)
                 prisma (pronunciationFeedback_create userId)
                        (fun _ => None)
             end ;;;
             ret (success [("feedback", feedback)])
         end
     | _, _, _, _ =>
         ret (failure 400 "error"
                "Missing required parameters: languageId, audioData, targetText, level")
     end)
    (fun error =>
       console_error "Error in getPronunciationFeedback:" error ;;;
       ret (failure 500 "error"
              (or_str (Some (message_of E error))
                 "Failed to generate pronunciation feedback"))).

(** *** getLessonContent *)

Definition empty_content : value :=
  JObj [("vocabulary", JArray []);
        ("grammar", JStr "");
        ("examples", JArray []);
        ("exercises", JArray []);
        ("culturalNotes", JStr "")].

Definition getLessonContent (lessonId : string) : M response :=
  try_catch
    (lesson <- lesson_find_quiz lessonId ;;
     match lesson with
     | None => ret (failure 404 "message" "Lesson not found")
     | Some (lesson, language, Quiz) =>
         let quiz := nth_error Quiz 0 in
         let quizQuestions :=
           match quiz with
           | Some q => questions_or_empty (questions q)
           | None => JArray []
           end in
         ret (success
                [("lesson",
                  JObj [("id", JStr (lesson_id lesson));
                        ("title", JStr (title lesson));
                        ("description", JStr (description lesson));
                        ("level", JStr (level_name (Prisma.level lesson)));
                        ("languageId", JStr (lesson_languageId lesson));
                        ("language",
                         match language with
                         | Some l => language_json l
                         | None => JNull
                         end);
                        ("content",
                         if truthy (Some (content lesson))
                         then content lesson else empty_content);
                        ("quiz",
                         quiz_json (or_str (option_map quiz_id quiz) "")
                           (lesson_id lesson) quizQuestions)])])
     end)
    (fun error =>
       console_error "Error fetching lesson:" error ;;;
       ret (failure 500 "message" "Error fetching lesson")).

(** *** authenticateToken and the router *)

(** The middleware either answers itself or attaches the user and calls
    [next()]. *)
Definition authenticateToken (authorization : option string)
  : M (response + User) :=
  try_catch
    (let token :=
       match authorization with
       | Some (String _ _ as authHeader) =>
           nth_error (split_space authHeader) 1
       | _ => None
       end in
     match token with
     | Some (String _ _ as token) =>
         userId <- lift (jwt_verify E token) ;;
         user <- user_find userId ;;
         match user with
         | None => ret (inl (failure 401 "message" "User not found"))
         | Some user => ret (inr user)
         end
     | _ => ret (inl (failure 401 "message" "Access token is required"))
     end)
    (fun error =>
       match error with
       | JsonWebTokenError =>
           ret (inl (failure 403 "message" "Invalid or expired token"))
       | _ =>
           console_error "Authentication error:" error ;;;
           ret (inl (failure 500 "message"
                       "Internal server error during authentication"))
       end).

(** The routes under [/api/ai-lessons], each with its request. *)
Inductive route : Type :=
| generate_lesson (body : LessonRequest.t)
| generate_quiz (body : QuizRequest.t)
| lesson_by_id (lessonId : string)
| conversation_prompt (body : ConversationRequest.t)
| conversation_response (body : MessageRequest.t)
| pronunciation_feedback (body : PronunciationFeedbackRequest.t).

(** [router.<method>(path, authenticateToken, handler)] *)
Definition router (authorization : option string) (r : route) : M response :=
  auth <- authenticateToken authorization ;;
  match auth with
  | inl answer => ret answer
  | inr user =>
      match r with
      | generate_lesson body => generateLesson body (Some user)
      | generate_quiz body => generateQuiz body
      | lesson_by_id lessonId => getLessonContent lessonId
      | conversation_prompt body => generateConversationPrompt body (Some user)
      | conversation_response body => getConversationResponse body (Some user)
      | pronunciation_feedback body => getPronunciationFeedback body (Some user)
      end
  end.

End Controllers.

(* ------------------------------------------------------------------ *)
(** ** Extraction: the ordered strategies *)

Module Extraction.

(** The position of the first [c] in [s]. *)
Fixpoint index_of (c : ascii) (s : string) : option nat :=
  match s with
  | EmptyString => None
  | String a r =>
      if Ascii.eqb a c then Some 0
      else option_map S (index_of c r)
  end.

(** The position of the last [c] in [s]. *)
Fixpoint last_index_of (c : ascii) (s : string) : option nat :=
  match s with
  | EmptyString => None
  | String a r =>
      match last_index_of c r with
      | Some j => Some (S j)
      | None => if Ascii.eqb a c then Some 0 else None
      end
  end.

(** The span of [s] from its first [open] to its last [close], when the
    one comes before the other. *)
Definition span (open close : ascii) (s : string) : option string :=
  match index_of open s, last_index_of close s with
  | Some i, Some j =>
      if (i <? j)%nat then Some (substring i (j - i + 1) s) else None
  | _, _ => None
  end.

Definition attempt (parse : string -> option value) (s : option string)
  : option value :=
  match s with
  | Some t => parse t
  | None => None
  end.



End Extraction.
Import Extraction.

(* ------------------------------------------------------------------ *)
(** ** A sample deployment

    One user, one language, the reader above for [JSON.parse], a database
    that rejects nothing; the model endpoint is the parameter. *)

Module Sample.

Definition ana : User :=
  {| user_id := "u1"; email := "ana@example.com"; fullName := "Ana" |}.

Definition spanish : Language :=
  {| language_id := "es"; language_name := "Spanish"; language_code := "es" |}.

Definition greetings : Lesson :=
  {| lesson_id := "l1"; title := "Greetings"; description := "AI-generated lesson";
     lesson_languageId := "es"; Prisma.level := BEGINNER; content := JNull |}.

Definition empty : database :=
  {| users := [ana]; languages := [spanish]; lessons := []; quizzes := [];
     progress := []; practices := []; exchanges := []; pronunciations := [] |}.

(** The database with one lesson and the quizzes [qs]. *)
Definition with_lesson (qs : list Quiz) : database :=
  with_quizzes (with_lessons empty [greetings]) qs.

Definition table_name (t : table) : string :=
  match t with
  | TLesson => "lesson"
  | TQuiz => "quiz"
  | TLearningProgress => "progress"
  | TConversationPractice => "practice"
  | TConversationExchange => "exchange"
  | TPronunciationFeedback => "feedback"
  end.

Definition ids (t : table) (n : nat) : string :=
  table_name t ++ "-" ++ NilEmpty.string_of_uint (Nat.to_uint n).

Definition verify (token : string) : outcome string :=
  if String.eqb token "token-of-ana" then Return "u1"
  else Throw JsonWebTokenError.

Definition messages (e : exn) : string :=
  match e with
  | SyntaxError => "Unexpected token in JSON"
  | TypeError => "Cannot read properties of undefined"
  | JsonWebTokenError => "jwt malformed"
  | GoogleGenerativeAIError => "fetch failed"
  | PrismaError => "Invalid invocation"
  | Error msg => msg
  end.

(** The deployment whose model endpoint answers by [reply] and whose
    database rejects the calls [down]. *)
Definition deployment_rejecting (down : call -> bool) (key : bool)
  (reply : generation -> option string) : env :=
  {| GEMINI_API_KEY := key;
     generateContent := reply;
     JSON_parse := Reader.read;
     jwt_verify := verify;
     new_id := ids;
     rejects := down;
     engine_message := messages |}.

Definition deployment (key : bool) (reply : generation -> option string)
  : env :=
  deployment_rejecting (fun _ => false) key reply.

(** No quiz can be stored. *)
Definition quiz_table_down (c : call) : bool :=
  match c with
  | quiz_create _ => true
  | _ => false
  end.

(** An endpoint that is out of reach, and one that answers every prompt
    with the same text. *)
Definition unreachable : generation -> option string := fun _ => None.
Definition always (raw : string) : generation -> option string :=
  fun _ => Some raw.

(** A reply that wraps the questions in an object instead of giving the
    array asked for. *)
Definition wrapped_questions : string :=
  Reader.js_text "{'questions':[{'question':'Hola means?','options':['Hello','Bye','Please','Thanks'],'correctAnswer':0}]}".

Definition quiz_request : QuizRequest.t :=
  {| QuizRequest.lessonId := Some "l1";
     QuizRequest.numberOfQuestions := None |}.

(** A pronunciation request for the phrase [Hola amigo]. *)
Definition hola_request : PronunciationFeedbackRequest.t :=
  {| PronunciationFeedbackRequest.languageId := Some "es";
     PronunciationFeedbackRequest.audioData := Some "UklGRiQA";
     PronunciationFeedbackRequest.targetText := Some "Hola amigo";
     PronunciationFeedbackRequest.level := Some BEGINNER |}.

(** A reply without any JSON in it. *)
Definition refusal : string := "I am sorry, I cannot rate this recording.".

(** A reply whose accuracy is off the scale. *)
Definition off_scale : string :=
  Reader.js_text "{'accuracy': 1.5, 'feedback': 'Nice', 'suggestions': [], 'phonemes': []}".


(** A lesson request about greetings. *)
Definition lesson_request : LessonRequest.t :=
  {| LessonRequest.languageId := Some "es";
     LessonRequest.level := Some BEGINNER;
     LessonRequest.topic := Some "Greetings" |}.

(** The reply of the scenario: a fenced object with the one key
    [grammar]. *)
Definition fenced_grammar : string :=
  Reader.js_text "```json
{'grammar':'ok'}
```".

(** A quiz whose only question has three options and the answer 7. *)
Definition malformed_quiz : string :=
  Reader.js_text "[{'question':'Hola means?','options':['Hello','Bye','Please'],'correctAnswer':7}]".

End Sample.

(* ------------------------------------------------------------------ *)
(** ** The shape contracts the properties speak of *)

Module Shape.

(** [n] lies in the interval from 0.0 to 1.0. *)
Definition in_unit (n : number) : Prop :=
  match n with
  | Finite q => (0 <= q /\ q <= 1)%Q
  | _ => False
  end.

(** The value read for [accuracy] is absent, not a number, or a number
    outside the interval. *)
Definition absent_or_out_of_range (v : option value) : Prop :=
  match v with
  | Some (JNum n) => ~ in_unit n
  | _ => True
  end.

(** [n] is one of the indices 0, 1, 2, 3 (any number from 0 to 3 is
    admitted here: the weaker reading of the range). *)
Definition is_index_0_3 (n : number) : bool :=
  match n with
  | Finite q => Qle_bool 0 q && Qle_bool q 3
  | _ => false
  end.

(** A question with exactly four options and a numeric [correctAnswer]
    from 0 to 3. *)
Definition valid_question (q : value) : bool :=
  match field q "options", field q "correctAnswer" with
  | Some (JArr options _), Some (JNum n) =>
      (length options =? 4)%nat && is_index_0_3 n
  | _, _ => false
  end.

(** The five keys of a lesson content. *)
Definition lesson_keys : list string :=
  ["vocabulary"; "grammar"; "examples"; "exercises"; "culturalNotes"].

Definition has_key (doc : value) (k : string) : bool :=
  match field doc k with
  | Some _ => true
  | None => false
  end.

(** The events of the cascade: the lookup of the lesson for the quiz, the
    model call with the quiz prompt, the creation of the quiz, and the two
    log lines of the quiz generation. *)
Definition cascade_event (e : event) : bool :=
  match e with
  | Db (lesson_findUnique _ false) _ => true
  | Db (quiz_create _) _ => true
  | Model g =>
      match contents g with
      | QuizPrompt _ _ _ _ => true
      | _ => false
      end
  | ConsoleError label _ =>
      String.eqb label "Quiz JSON generation failed:"
      || String.eqb label "Auto quiz generation failed:"
  | _ => false
  end.

(** The lesson row has been stored. *)
Definition lesson_persisted (e : event) : bool :=
  match e with
  | Db (lesson_create _ _) true => true
  | _ => false
  end.

(** No event of the cascade comes before the lesson is stored. *)
Fixpoint cascade_after_lesson (l : list event) : bool :=
  match l with
  | [] => true
  | e :: r =>
      lesson_persisted e || (negb (cascade_event e) && cascade_after_lesson r)
  end.

End Shape.
Import Shape.

(* ------------------------------------------------------------------ *)
(** ** Runs of the lesson and quiz handlers *)

Module Runs.

(** Two databases that differ at most in their quizzes. *)
Definition same_but_quizzes (d d' : database) : Prop :=
  users d' = users d /\ languages d' = languages d /\ lessons d' = lessons d
  /\ progress d' = progress d /\ practices d' = practices d
  /\ exchanges d' = exchanges d /\ pronunciations d' = pronunciations d.

(** An event that neither belongs to the cascade nor stores the lesson. *)
Definition quiet (e : event) : Prop :=
  cascade_event e = false /\ lesson_persisted e = false.

(** The row [generateLesson] creates for a request. *)
Definition lesson_row (lid : string) (req : LessonRequest.t)
  (languageId : string) (lv : Level) (language : Language) (c : value)
  : Lesson :=
  {| lesson_id := lid;
     title := lesson_title lv language (LessonRequest.topic req);
     description := "AI-generated lesson";
     lesson_languageId := languageId;
     Prisma.level := lv;
     content := c |}.

Definition progress_row (pid userId lid : string) : LearningProgress :=
  {| progress_id := pid; progress_userId := userId; progress_lessonId := lid;
     score := 0; completed := false |}.

(** The lesson request reaches the end of the handler: it names a known
    language and a level, a user is attached, and the three persistence
    calls of the handler itself go through, the lesson getting the id
    [lid] and the progress row the id [pid]. *)
Record lesson_request_served (E : env) (req : LessonRequest.t) (user : User)
  (d : database) (languageId userId : string) (lv : Level)
  (language : Language) (lid pid : string) : Prop := {
  served_languageId : LessonRequest.languageId req = Some languageId;
  served_languageId_given : languageId <> "";
  served_level : LessonRequest.level req = Some lv;
  served_user : user_id user = userId;
  served_user_given : userId <> "";
  served_language_lookup : rejects E (language_findUnique languageId) = false;
  served_language : by_id language_id languageId (languages d) = Some language;
  served_lesson_create :
    rejects E (lesson_create languageId
                 (lesson_title lv language (LessonRequest.topic req))) = false;
  served_lesson_id : fresh E TLesson lesson_id (lessons d) = Some lid;
  served_progress_create :
    rejects E (learningProgress_create userId lid) = false;
  served_progress_id :
    fresh E TLearningProgress progress_id (progress d) = Some pid }.

(** The prompt of the lesson request. *)
Definition lesson_prompt (req : LessonRequest.t) (lv : Level)
  (language : Language) : prompt :=
  LessonPrompt lv (language_name language)
    (nonempty (LessonRequest.topic req)).

(** The quiz request reaches the generation: it names a lesson that
    exists, with its language and without a stored quiz, and the
    persistence calls go through, the quiz getting the id [qid]. *)
Record quiz_request_served (E : env) (req : QuizRequest.t) (d : database)
  (lessonId : string) (lesson : Lesson) (language : Language)
  (qid : string) : Prop := {
  quiz_lessonId_given : QuizRequest.lessonId req = Some lessonId;
  quiz_lessonId_nonempty : lessonId <> "";
  quiz_lookup : rejects E (lesson_findUnique lessonId true) = false;
  quiz_lookup_internal : rejects E (lesson_findUnique lessonId false) = false;
  quiz_lesson : by_id lesson_id lessonId (lessons d) = Some lesson;
  quiz_language :
    by_id language_id (lesson_languageId lesson) (languages d) = Some language;
  quiz_none_stored :
    filter (fun q => String.eqb (quiz_lessonId q) lessonId) (quizzes d) = [];
  quiz_create_ok : rejects E (quiz_create lessonId) = false;
  quiz_id_fresh : fresh E TQuiz quiz_id (quizzes d) = Some qid }.

(** The prompt of the quiz request. *)
Definition quiz_prompt (req : QuizRequest.t) (lesson : Lesson)
  (language : Language) : prompt :=
  QuizPrompt
    match QuizRequest.numberOfQuestions req with
    | Some n => n
    | None => Finite 5
    end
    (Prisma.level lesson) (language_name language)
    (if truthy (Some (content lesson)) then Some (content lesson) else None).

End Runs.
Import Runs.

(* ------------------------------------------------------------------ *)
(** ** What the specification says of some runs

    Each of these is what the specification states of a run; each is
    refuted below at a run of the sample deployment. *)

Module Claimed.

Definition run : Type := outcome response * database * list event.

(** The failure of the model invocation is surfaced: a server error, no
    lesson stored, no event of the cascade. *)
Definition invocation_failure_surfaced (before : database) (r : run)
  : Prop :=
  status_of r = Some 500
  /\ lessons (database_of r) = lessons before
  /\ existsb cascade_event (events_of r) = false.

(** Every question that a quiz answer carries is a valid question. *)
Definition questions_validated (r : run) : Prop :=
  forall resp quiz items extra,
    result_of r = Return resp ->
    field (json resp) "quiz" = Some quiz ->
    field quiz "questions" = Some (JArr items extra) ->
    forallb valid_question items = true.

(** Every lesson stored by the run has the five keys in its content. *)
Definition content_has_all_keys (before : database) (r : run) : Prop :=
  forall row,
    In row (lessons (database_of r)) ->
    In row (lessons before)
    \/ forallb (has_key (content row)) lesson_keys = true.


(** The answer carries the questions of the stored quiz [q]. *)
Definition stored_questions_returned (q : Quiz) (r : run) : Prop :=
  exists resp quiz,
    result_of r = Return resp
    /\ field (json resp) "quiz" = Some quiz
    /\ field quiz "questions" = Some (questions q).

End Claimed.

(* ------------------------------------------------------------------ *)
(** ** Replies in a fence or in prose *)

(** Every code unit of [s] is white space. *)
Fixpoint all_space (s : string) : bool :=
  match s with
  | EmptyString => true
  | String c r => is_space c && all_space r
  end.

(** The first code unit of [s] satisfies [p]. *)
Definition starts_with (p : ascii -> bool) (s : string) : bool :=
  match s with
  | String c _ => p c
  | EmptyString => false
  end.

(** A reply inside a code fence: three backticks, the tag, white space,
    the body, white space, three backticks. *)
Definition fenced (tag ws1 body ws2 : string) : string :=
  "```" ++ tag ++ ws1 ++ body ++ ws2 ++ "```".

(** The tag is [json] in any case. *)
Definition json_tag (tag : string) : bool :=
  match after_prefix_ci "json" tag with
  | Some EmptyString => true
  | _ => false
  end.

(** A code unit that is neither white space nor a backtick. *)
Definition solid (c : ascii) : bool :=
  negb (is_space c) && negb (Ascii.eqb c "`").

(** The fences the cleaning undoes: a [json] tag, or no tag and white
    space after the backticks; white space only around the body, which
    starts with a solid code unit. *)
Definition well_fenced (tag ws1 body ws2 : string) : bool :=
  (json_tag tag || (String.eqb tag "" && negb (String.eqb ws1 "")))
  && all_space ws1 && all_space ws2 && starts_with solid body.

(** [s] is a contiguous part of [raw]. *)
Definition part_of (s raw : string) : Prop :=
  exists pre post, raw = pre ++ s ++ post.

(* ------------------------------------------------------------------ *)
(** ** Steps of a handler

    What holds of a handler is put together from what holds of its
    steps: of the value it returns, of the database it leaves, of the
    events of the run. *)

Module Logic.

(** Every value that [m] returns satisfies [Q]. *)
Definition yields {A} (m : M A) (Q : A -> Prop) : Prop :=
  forall d a, result_of (m d) = Return a -> Q a.

(** [m] returns, whatever the database. *)
Definition returns {A} (m : M A) : Prop :=
  forall d, exists a, result_of (m d) = Return a.

(** [l'] is [l] with rows added at its end. *)
Definition extends {R} (l l' : list R) : Prop :=
  exists added, l' = (l ++ added)%list.

(** The database [d'] is [d] with rows added: users and languages are
    the same, every other table keeps its rows, in their order, before
    the new ones. *)
Record grows (d d' : database) : Prop := {
  grows_users : users d' = users d;
  grows_languages : languages d' = languages d;
  grows_lessons : extends (lessons d) (lessons d');
  grows_quizzes : extends (quizzes d) (quizzes d');
  grows_progress : extends (progress d) (progress d');
  grows_practices : extends (practices d) (practices d');
  grows_exchanges : extends (exchanges d) (exchanges d');
  grows_pronunciations : extends (pronunciations d) (pronunciations d') }.

(** A call of the model. *)
Definition is_model (e : event) : bool :=
  match e with
  | Model _ => true
  | _ => false
  end.

(** What every step keeps: the database only grows, and without a key
    the model is not called. *)
Definition steady {A} (E : env) (m : M A) : Prop :=
  forall d,
    grows d (database_of (m d))
    /\ (GEMINI_API_KEY E = false ->
        forallb (fun e => negb (is_model e)) (events_of (m d)) = true).

(** The run did nothing but one persistence call, which was carried out
    and changed nothing: nothing written, no call of the model, no log
    line. *)
Definition one_lookup (d : database)
  (r : outcome response * database * list event) : Prop :=
  database_of r = d /\ exists c, events_of r = [Db c true].

(** The run did nothing at all. *)
Definition no_effect (d : database)
  (r : outcome response * database * list event) : Prop :=
  database_of r = d /\ events_of r = [].

(** Whenever [m] returns, the run satisfies [P] or the value [Q]. *)
Definition run_or (P : database ->
                       outcome response * database * list event -> Prop)
  (m : M response) (Q : response -> Prop) : Prop :=
  forall d a, result_of (m d) = Return a -> P d (m d) \/ Q a.

End Logic.
Import Logic.

(* ------------------------------------------------------------------ *)
(** ** The handlers by route, and what they ask of a request *)

(** The statuses a handler answers with. *)
Definition statuses : list nat := [200; 400; 401; 404; 500].

(** An answer other than 400 and 401. *)
Definition not_4xx (r : response) : Prop := ~ In (status r) [400; 401].

(** An answer other than 404. *)
Definition not_404 (r : response) : Prop := status r <> 404.

(** The handlers, by route, with the user the request carries. *)
Definition handler (E : env) (r : route) (user : option User) : M response :=
  match r with
  | generate_lesson body => generateLesson E body user
  | generate_quiz body => generateQuiz E body
  | lesson_by_id lessonId => getLessonContent E lessonId
  | conversation_prompt body => generateConversationPrompt E body user
  | conversation_response body => getConversationResponse E body user
  | pronunciation_feedback body => getPronunciationFeedback E body user
  end.

(** The label under which a handler logs what it answers with 500. *)
Definition log_label (r : route) : string :=
  match r with
  | generate_lesson _ => "Error generating lesson:"
  | generate_quiz _ => "Error generating quiz:"
  | lesson_by_id _ => "Error fetching lesson:"
  | conversation_prompt _ => "Error generating conversation prompt:"
  | conversation_response _ => "Error generating conversation response:"
  | pronunciation_feedback _ => "Error in getPronunciationFeedback:"
  end.






(** The token of [Authorization: Bearer <token>]: the second of the
    pieces of the header between single spaces, when there is one and it
    is not empty. *)
Definition bearer_token (authorization : option string) : option string :=
  match authorization with
  | Some (String _ _ as authHeader) =>
      match nth_error (split_space authHeader) 1 with
      | Some (String c t) => Some (String c t)
      | _ => None
      end
  | _ => None
  end.

(* ------------------------------------------------------------------ *)
(** ** Runs of the conversation and pronunciation handlers *)

(** An object or an array: a value that can carry properties. *)
Definition object_like (v : value) : bool :=
  match v with
  | JObj _ | JArr _ _ => true
  | _ => false
  end.

(** The four checks of the repair, each on the property it reads. *)
Definition well_shaped (doc : value) : bool :=
  negb (bad_accuracy (field doc "accuracy"))
  && is_string (field doc "feedback")
  && isArray (field doc "suggestions")
  && isArray (field doc "phonemes").

(** The message request gets past the checks: a language id, a message
    and a user are there, and the language is found. *)
Record message_request_admitted (E : env) (req : MessageRequest.t)
  (user : User) (d : database) (languageId message userId : string)
  (language : Language) : Prop := {
  admitted_languageId : MessageRequest.languageId req = Some languageId;
  admitted_languageId_given : languageId <> "";
  admitted_message : MessageRequest.message req = Some message;
  admitted_message_given : message <> "";
  admitted_user : user_id user = userId;
  admitted_user_given : userId <> "";
  admitted_lookup : rejects E (language_findUnique languageId) = false;
  admitted_language :
    by_id language_id languageId (languages d) = Some language }.

(** The generation request of [getConversationResponse]. *)
Definition assistant_generation (language : Language) (message : string)
  : generation :=
  {| contents := AssistantPrompt (language_name language) message;
     maxOutputTokens := 700; jsonOnly := false |}.

(** The row stored for an exchange. *)
Definition exchange_row (id userId languageId message reply : string)
  : ConversationExchange :=
  {| exchange_id := id; exchange_userId := userId;
     exchange_languageId := languageId;
     userMessage := message; aiResponse := reply |}.

(** The conversation request reaches the end of the handler. *)
Record conversation_request_served (E : env) (req : ConversationRequest.t)
  (user : User) (d : database) (languageId userId : string) (lv : Level)
  (language : Language) (pid : string) : Prop := {
  conversation_languageId : ConversationRequest.languageId req = Some languageId;
  conversation_languageId_given : languageId <> "";
  conversation_level : ConversationRequest.level req = Some lv;
  conversation_user : user_id user = userId;
  conversation_user_given : userId <> "";
  conversation_lookup : rejects E (language_findUnique languageId) = false;
  conversation_language :
    by_id language_id languageId (languages d) = Some language;
  conversation_create : rejects E (conversationPractice_create userId) = false;
  conversation_id :
    fresh E TConversationPractice practice_id (practices d) = Some pid }.

(** The prompt of the conversation request. *)
Definition conversation_prompt_of (req : ConversationRequest.t) (lv : Level)
  (language : Language) : prompt :=
  ConversationPrompt (language_name language) lv
    (nonempty (ConversationRequest.scenario req)) (language_code language).

(** What is stored, and what is returned beside the id. *)
Definition conversation_record (req : ConversationRequest.t)
  (languageId : string) (lv : Level) (c : value) : list (string * value) :=
  [("languageId", JStr languageId);
   ("level", JStr (level_name lv));
   ("scenario",
    JStr (or_str (ConversationRequest.scenario req) "General conversation"));
   ("content", c)].

(** The content [generateLesson] works with. *)
Definition lesson_content_of (E : env) (req : LessonRequest.t) (lv : Level)
  (language : Language) (d : database) : value :=
  match result_of (callGeminiJSON E (lesson_prompt req lv language) 2400 d) with
  | Return doc => doc
  | Throw _ => lesson_fallback
  end.

(** The generation request of the cascade for a lesson with content [c]. *)
Definition cascade_generation (lv : Level) (language : Language) (c : value)
  : generation :=
  {| contents := QuizPrompt (Finite 5) lv (language_name language)
                   (if truthy (Some c) then Some c else None);
     maxOutputTokens := 2400; jsonOnly := true |}.

(** The pronunciation request of a caller whose token verifies reaches
    the end of the handler. *)
Record pronunciation_request_served (E : env)
  (authorization : option string) (req : PronunciationFeedbackRequest.t)
  (d : database) (token : string) (u : User)
  (languageId targetText : string) (lv : Level) (language : Language)
  (fid : string) : Prop := {
  caller_token : bearer_token authorization = Some token;
  caller_verified : jwt_verify E token = Return (user_id u);
  caller_lookup : rejects E (user_findUnique (user_id u)) = false;
  caller_stored : by_id user_id (user_id u) (users d) = Some u;
  spoken_languageId :
    PronunciationFeedbackRequest.languageId req = Some languageId;
  spoken_languageId_given : languageId <> "";
  spoken_audio :
    truthy_str (PronunciationFeedbackRequest.audioData req) = true;
  spoken_text : PronunciationFeedbackRequest.targetText req = Some targetText;
  spoken_text_given : targetText <> "";
  spoken_level : PronunciationFeedbackRequest.level req = Some lv;
  spoken_lookup : rejects E (language_findUnique languageId) = false;
  spoken_language : by_id language_id languageId (languages d) = Some language;
  spoken_create :
    rejects E (pronunciationFeedback_create (user_id u)) = false;
  spoken_id :
    fresh E TPronunciationFeedback feedback_id (pronunciations d) = Some fid }.

(* ------------------------------------------------------------------ *)
(** ** More requests and deployments of the sample *)

Module Scenario.
Import Sample.

(** A line feed. *)
Definition nl : string := String (ascii_of_nat 10) EmptyString.

(** The object of the lesson scenario, bare. *)
Definition grammar_body : string := Reader.js_text "{'grammar':'ok'}".

(** Replies that talk around their JSON. *)
Definition prose_quiz : string :=
  Reader.js_text "Sure! Here is the quiz: [{'question':'a'}] Enjoy.".

(** Scores inside a sentence. *)
Definition prose_scores : string := "The scores are [1, 2] today.".

(** The header of a request of Ana. *)
Definition bearer : option string := Some "Bearer token-of-ana".

(** A message of Ana, and a conversation she asks for. *)
Definition message_request : MessageRequest.t :=
  {| MessageRequest.languageId := Some "es";
     MessageRequest.message := Some "Hola" |}.

Definition conversation_request : ConversationRequest.t :=
  {| ConversationRequest.languageId := Some "es";
     ConversationRequest.level := Some BEGINNER;
     ConversationRequest.scenario := Some "At the market" |}.

(** A quiz request that names no lesson. *)
Definition no_lesson_named : QuizRequest.t :=
  {| QuizRequest.lessonId := None;
     QuizRequest.numberOfQuestions := None |}.

(** No lesson can be stored. *)
Definition lesson_table_down (c : call) : bool :=
  match c with
  | lesson_create _ _ => true
  | _ => false
  end.

(** No progress row can be stored. *)
Definition progress_table_down (c : call) : bool :=
  match c with
  | learningProgress_create _ _ => true
  | _ => false
  end.

(** A quiz of the lesson of the sample whose stored questions are an
    object around the questions, not an array. *)
Definition wrapped_quiz : Quiz :=
  {| quiz_id := "q1"; quiz_lessonId := "l1";
     questions := JObj [("questions", JArray [])] |}.

End Scenario.

(** A handler that has answered with a failure: [Hstop] tells what
    follows from such an answer, [Hr] is the run so far. *)
Ltac answered Hstop Hr :=
  try (refine (Hstop _ _ _ _ _ Hr); discriminate).

(* ------------------------------------------------------------------ *)
(** ** Properties of the extraction *)







(* ------------------------------------------------------------------ *)
(** ** Properties of the handlers *)

(** C10.  For an existing lesson without a stored quiz, the fetch answers
    with success and a quiz object whose id is the empty string and whose
    questions are the empty sequence; a lesson whose content is null gets
    the empty content of the lesson shape. *)
Theorem lesson_without_quiz (E : env) (lessonId : string) (d : database)
  (lesson : Lesson) :
  rejects E (lesson_findUnique lessonId true) = false ->
  by_id lesson_id lessonId (lessons d) = Some lesson ->
  filter (fun q => String.eqb (quiz_lessonId q) lessonId) (quizzes d) = [] ->
  exists body doc,
    result_of (getLessonContent E lessonId d)
      = Return {| status := 200; json := body |}
    /\ field body "success" = Some (JBool true)
    /\ field body "lesson" = Some doc
    /\ field doc "quiz" = Some (quiz_json "" (lesson_id lesson) (JArray []))
    /\ (content lesson = JNull -> field doc "content" = Some empty_content).
Proof.
  intros Hrej Hfind Hq.
  unfold getLessonContent, try_catch, bind, lesson_find_quiz, prisma, result_of.
  rewrite Hrej, Hfind, Hq. simpl.
  eexists _, _. repeat split.
  intros ->. reflexivity.
Qed.

Lemma lesson_without_quiz_witness :
  exists body doc,
    result_of (getLessonContent (Sample.deployment true Sample.unreachable)
                 "l1" (Sample.with_lesson []))
      = Return {| status := 200; json := body |}
    /\ field body "success" = Some (JBool true)
    /\ field body "lesson" = Some doc
    /\ field doc "quiz" = Some (quiz_json "" "l1" (JArray []))
    /\ (JNull = JNull -> field doc "content" = Some empty_content).
Proof.
  apply (lesson_without_quiz (Sample.deployment true Sample.unreachable)
           "l1" (Sample.with_lesson []) Sample.greetings); reflexivity.
Defined.

(** C7, as the handler has it.  A quiz request for a lesson that has a
    stored quiz is answered with the first stored quiz: its id, its
    lessonId, and its questions when they are a sequence, the empty
    sequence otherwise.  The only effect is the lookup: no call of the
    model, no row created, the database as it was. *)
Theorem existing_quiz_returned (E : env) (req : QuizRequest.t)
  (d : database) (c : ascii) (id' : string) (lesson : Lesson)
  (existing : Quiz) (others : list Quiz) :
  QuizRequest.lessonId req = Some (String c id') ->
  rejects E (lesson_findUnique (String c id') true) = false ->
  by_id lesson_id (String c id') (lessons d) = Some lesson ->
  filter (fun q => String.eqb (quiz_lessonId q) (String c id')) (quizzes d)
    = existing :: others ->
  generateQuiz E req d =
    (Return (success
               [("quiz",
                 quiz_json (quiz_id existing) (quiz_lessonId existing)
                   (questions_or_empty (questions existing)))]),
     d,
     [Db (lesson_findUnique (String c id') true) true]).
Proof.
  intros Hreq Hrej Hfind Hq.
  unfold generateQuiz, try_catch, bind, lesson_find_quiz, prisma.
  rewrite Hreq, Hrej, Hfind, Hq. reflexivity.
Qed.

Lemma existing_quiz_returned_witness :
  generateQuiz (Sample.deployment true Sample.unreachable)
    Sample.quiz_request
    (Sample.with_lesson
       [{| quiz_id := "q1"; quiz_lessonId := "l1"; questions := JArray [] |}])
  = (Return (success [("quiz", quiz_json "q1" "l1" (JArray []))]),
     Sample.with_lesson
       [{| quiz_id := "q1"; quiz_lessonId := "l1"; questions := JArray [] |}],
     [Db (lesson_findUnique "l1" true) true]).
Proof.
  exact (existing_quiz_returned
           (Sample.deployment true Sample.unreachable) Sample.quiz_request
           (Sample.with_lesson
              [{| quiz_id := "q1"; quiz_lessonId := "l1";
                  questions := JArray [] |}])
           "l" "1" Sample.greetings
           {| quiz_id := "q1"; quiz_lessonId := "l1"; questions := JArray [] |}
           [] eq_refl eq_refl eq_refl eq_refl).
Defined.

(** C7 as stated fails on the questions.  The model wraps its questions
    in an object; the first request stores that object as the questions of
    the new quiz; the second request finds the quiz and answers with the
    empty sequence, not with the questions stored. *)
Lemma existing_quiz_questions_replaced :
  let E := Sample.deployment true (Sample.always Sample.wrapped_questions) in
  let stored := database_of (generateQuiz E Sample.quiz_request
                               (Sample.with_lesson [])) in
  exists q,
    quizzes stored = [q]
    /\ quiz_lessonId q = "l1"
    /\ isArray (Some (questions q)) = false
    /\ result_of (generateQuiz E Sample.quiz_request stored)
       = Return (success [("quiz", quiz_json (quiz_id q) "l1" (JArray []))])
    /\ ~ Claimed.stored_questions_returned q
          (generateQuiz E Sample.quiz_request stored).
Proof.
  intros E stored. eexists. split; [vm_compute; reflexivity|].
  repeat split; try (vm_compute; reflexivity).
  intros (resp & quiz & Hr & Hq & Hqs).
  vm_compute in Hr. injection Hr as <-.
  vm_compute in Hq. injection Hq as <-.
  vm_compute in Hqs. discriminate.
Qed.

(* ------------------------------------------------------------------ *)
(** ** Pronunciation feedback *)

Lemma assoc_set_same k v l : assoc k (assoc_set k v l) = Some v.
Proof.
  induction l as [|[k' v'] r IH]; simpl.
  - rewrite String.eqb_refl. reflexivity.
  - destruct (String.eqb k k') eqn:Hk; simpl.
    + rewrite String.eqb_refl. reflexivity.
    + rewrite Hk. exact IH.
Qed.

Lemma assoc_set_other k k' v l :
  String.eqb k k' = false -> assoc k (assoc_set k' v l) = assoc k l.
Proof.
  intros H. induction l as [|[k'' v''] r IH]; simpl.
  - rewrite H. reflexivity.
  - destruct (String.eqb k' k'') eqn:Hk; simpl.
    + apply String.eqb_eq in Hk. subst k''. rewrite H. reflexivity.
    + rewrite IH. reflexivity.
Qed.

Lemma bad_accuracy_spec v :
  bad_accuracy v = true <-> absent_or_out_of_range v.
Proof.
  destruct v as [[| | n | | |]|]; simpl; try tauto.
  destruct n as [q| |]; simpl.
  - rewrite orb_true_iff, !negb_true_iff.
    split.
    + intros [H|H] [H0 H1].
      * apply Qle_bool_iff in H0. congruence.
      * apply Qle_bool_iff in H1. congruence.
    + intros H. destruct (Qle_bool 0 q) eqn:H0; [|now left].
      destruct (Qle_bool q 1) eqn:H1; [|now right].
      exfalso. apply H. split; now apply Qle_bool_iff.
  - tauto.
  - tauto.
Qed.

Lemma good_accuracy_spec v :
  bad_accuracy v = false -> exists n, v = Some (JNum n) /\ in_unit n.
Proof.
  destruct v as [[| | n | | |]|]; simpl; try discriminate.
  intros H. exists n. split; [reflexivity|].
  destruct n as [q| |]; simpl in *; try discriminate.
  apply orb_false_iff in H. destruct H as [H0 H1].
  apply negb_false_iff in H0, H1. split; now apply Qle_bool_iff.
Qed.

Lemma in_unit_0_7 : in_unit n0_7.
Proof. simpl. split; discriminate. Qed.

Lemma field_set_same o k v o' : set o k v = Return o' -> field o' k = Some v.
Proof.
  destruct o; simpl; try discriminate; intros H; injection H as <-; simpl;
    apply assoc_set_same.
Qed.

Lemma field_set_other o k k' v o' :
  String.eqb k k' = false -> set o k' v = Return o' -> field o' k = field o k.
Proof.
  intros Hk. destruct o; simpl; try discriminate; intros H; injection H as <-; simpl;
    now apply assoc_set_other.
Qed.

Lemma get_field o k v : get o k = Return v -> v = field o k.
Proof. destruct o; simpl; intros H; try discriminate; now injection H as <-. Qed.

Lemma default_property_other k k' bad dflt doc doc' :
  String.eqb k k' = false ->
  default_property k' bad dflt doc = Return doc' ->
  field doc' k = field doc k.
Proof.
  intros Hk. unfold default_property.
  destruct (get doc k') as [v|]; [|discriminate].
  destruct (bad v).
  - now apply field_set_other.
  - now intros [= <-].
Qed.

Lemma default_accuracy doc doc' :
  default_property "accuracy" bad_accuracy (JNum n0_7) doc = Return doc' ->
  exists a, field doc' "accuracy" = Some (JNum a) /\ in_unit a
    /\ (absent_or_out_of_range (field doc "accuracy") -> a = n0_7).
Proof.
  unfold default_property.
  destruct (get doc "accuracy") as [v|] eqn:G; [|discriminate].
  apply get_field in G. subst v.
  destruct (bad_accuracy (field doc "accuracy")) eqn:B.
  - intros H. exists n0_7. split; [now apply (field_set_same _ _ _ _ H)|].
    split; [apply in_unit_0_7|reflexivity].
  - intros [= <-]. destruct (good_accuracy_spec _ B) as (n & Hn & Hu).
    exists n. repeat split; try assumption; try apply Hu.
    intros Habs. apply bad_accuracy_spec in Habs. congruence.
Qed.

Lemma repair_accuracy doc fb :
  repair doc = Return fb ->
  exists a, field fb "accuracy" = Some (JNum a) /\ in_unit a
    /\ (absent_or_out_of_range (field doc "accuracy") -> a = n0_7).
Proof.
  unfold repair, and_then.
  destruct (default_property "accuracy" _ _ doc) as [d1|] eqn:S1; [|discriminate].
  destruct (default_property "feedback" _ _ d1) as [d2|] eqn:S2; [|discriminate].
  destruct (default_property "suggestions" _ _ d2) as [d3|] eqn:S3; [|discriminate].
  intros S4.
  destruct (default_accuracy _ _ S1) as (a & Ha & Hu & Hd).
  exists a. split; [|split; assumption].
  rewrite (default_property_other "accuracy" "phonemes" _ _ _ _ eq_refl S4).
  rewrite (default_property_other "accuracy" "suggestions" _ _ _ _ eq_refl S3).
  rewrite (default_property_other "accuracy" "feedback" _ _ _ _ eq_refl S2).
  exact Ha.
Qed.

Lemma pronunciation_document_cases E language level targetText d :
  let call := callGeminiJSON E (CoachPrompt (language_name language) level targetText) 1800 d in
  (exists doc fb, result_of call = Return doc /\ repair doc = Return fb
      /\ result_of (pronunciation_document E language level targetText d) = Return fb)
  \/ ((forall doc, result_of call = Return doc -> exists e, repair doc = Throw e)
      /\ result_of (pronunciation_document E language level targetText d)
         = Return (pronunciation_fallback targetText)).
Proof.
  unfold pronunciation_document, try_catch, bind, lift, result_of.
  destruct (callGeminiJSON E _ 1800 d) as [[[doc|e] d1] t1]; simpl.
  - destruct (repair doc) as [fb|e] eqn:R; simpl.
    + left. eexists _, _. repeat split; eassumption.
    + right. split; [|reflexivity]. intros doc' [= <-]. eauto.
  - right. split; [|reflexivity]. intros doc' [=].
Qed.

Lemma pronunciation_document_accuracy E language level targetText d :
  exists fb a,
    result_of (pronunciation_document E language level targetText d) = Return fb
    /\ field fb "accuracy" = Some (JNum a)
    /\ in_unit a
    /\ (forall doc,
          result_of (callGeminiJSON E
                       (CoachPrompt (language_name language) level targetText)
                       1800 d) = Return doc ->
          absent_or_out_of_range (field doc "accuracy") -> a = n0_7)
    /\ (forall e,
          result_of (callGeminiJSON E
                       (CoachPrompt (language_name language) level targetText)
                       1800 d) = Throw e -> a = n0_7).
Proof.
  destruct (pronunciation_document_cases E language level targetText d)
    as [(doc & fb & Hc & Hr & Hp)|(Hc & Hp)].
  - destruct (repair_accuracy _ _ Hr) as (a & Ha & Hu & Hd).
    exists fb, a. repeat split; try assumption.
    + intros doc' Hc'. rewrite Hc in Hc'. injection Hc' as <-. exact Hd.
    + intros e He. rewrite Hc in He. discriminate.
  - exists (pronunciation_fallback targetText), n0_7.
    repeat split; try assumption; try discriminate.
Qed.

Lemma callGeminiJSON_database E p n d :
  database_of (callGeminiJSON E p n d) = d.
Proof.
  unfold callGeminiJSON, generate, bind, emit, throw, ret, lift, database_of.
  destruct (GEMINI_API_KEY E); simpl; [|reflexivity].
  destruct (generateContent E _) as [raw|]; simpl; [|reflexivity].
  destruct (safeJsonParse (JSON_parse E) raw); reflexivity.
Qed.

Lemma pronunciation_document_database E language level targetText d :
  database_of (pronunciation_document E language level targetText d) = d.
Proof.
  unfold pronunciation_document, try_catch, bind, lift, console_error, emit, ret.
  pose proof (callGeminiJSON_database E
                (CoachPrompt (language_name language) level targetText) 1800 d) as H.
  unfold database_of in *.
  destruct (callGeminiJSON E _ 1800 d) as [[[doc|e] d1] t1]; simpl in *; subst d1.
  - destruct (repair doc); reflexivity.
  - reflexivity.
Qed.

Lemma getPronunciationFeedback_accuracy E req user d :
  (forall resp,
     result_of (getPronunciationFeedback E req user d) = Return resp ->
     status resp = 200 ->
     exists fb a, field (json resp) "feedback" = Some fb
       /\ field fb "accuracy" = Some (JNum a) /\ in_unit a)
  /\ (forall row,
        In row (pronunciations
                  (database_of (getPronunciationFeedback E req user d))) ->
        In row (pronunciations d) \/ in_unit (accuracy row)).
Proof.
  set (r := getPronunciationFeedback E req user d).
  assert (Hr : r = getPronunciationFeedback E req user d) by reflexivity.
  clearbody r.
  assert (Hstop : forall s k m t,
            s <> 200 -> r = (Return (failure s k m), d, t) ->
            (forall resp, result_of r = Return resp -> status resp = 200 ->
               exists fb a, field (json resp) "feedback" = Some fb
                 /\ field fb "accuracy" = Some (JNum a) /\ in_unit a)
            /\ (forall row, In row (pronunciations (database_of r)) ->
                  In row (pronunciations d) \/ in_unit (accuracy row))).
  { intros s k m t Hs H; rewrite H; unfold result_of, database_of; simpl;
      (split; [intros resp [= <-] Hst; simpl in Hst; congruence
              | intros row Hrow; now left]). }
  unfold getPronunciationFeedback, try_catch, bind, language_find, prisma,
    ret, lift, console_error, emit in Hr.
  destruct req as [[[|c0 l0]|] [[|c1 l1]|] [[|c2 l2]|] [lv|]]; simpl in Hr;
    answered Hstop Hr.
  destruct (rejects E (language_findUnique (String c0 l0))); simpl in Hr;
    answered Hstop Hr.
  destruct (by_id language_id (String c0 l0) (languages d)) as [language|];
    simpl in Hr;
    answered Hstop Hr.
  destruct (pronunciation_document_accuracy E language lv (String c2 l2) d)
    as (fb & a & Hp & Ha & Hu & _).
  pose proof (pronunciation_document_database E language lv (String c2 l2) d)
    as Hd.
  unfold result_of, database_of in Hp, Hd.
  destruct (pronunciation_document E language lv (String c2 l2) d)
    as [[o d1] t1].
  simpl in Hp, Hd. subst o d1.
  destruct user as [u|]; simpl in Hr;
    answered Hstop Hr.
  rewrite Ha in Hr. unfold pronunciation_insert, prisma in Hr.
  destruct (rejects E (pronunciationFeedback_create (user_id u))); simpl in Hr;
    answered Hstop Hr.
  destruct (fresh E TPronunciationFeedback feedback_id (pronunciations d));
    simpl in Hr;
    answered Hstop Hr.
  rewrite Hr. unfold result_of, database_of. simpl. split.
  - intros resp [= <-] _. exists fb, a. simpl. auto.
  - intros row H. apply in_app_or in H.
    destruct H as [H|[<-|[]]]; [now left|now right].
Qed.

(** C4.  Whatever the model returns, the feedback document that leaves
    the inner [try]/[catch] has a numeric accuracy in the interval from
    0.0 to 1.0, and that accuracy is 0.7 whenever the accuracy read from
    the extracted document is absent, not a number or outside the interval
    (and whenever nothing was extracted).  The same holds of the feedback
    in every success response and of every row the handler stores. *)
Theorem pronunciation_accuracy_in_unit (E : env) (d : database) :
  (forall language level targetText,
     exists fb a,
       result_of (pronunciation_document E language level targetText d)
         = Return fb
       /\ field fb "accuracy" = Some (JNum a)
       /\ in_unit a
       /\ (forall doc,
             result_of (callGeminiJSON E
                          (CoachPrompt (language_name language) level
                             targetText) 1800 d) = Return doc ->
             absent_or_out_of_range (field doc "accuracy") -> a = n0_7)
       /\ (forall e,
             result_of (callGeminiJSON E
                          (CoachPrompt (language_name language) level
                             targetText) 1800 d) = Throw e -> a = n0_7))
  /\ (forall req user,
        (forall resp,
           result_of (getPronunciationFeedback E req user d) = Return resp ->
           status resp = 200 ->
           exists fb a, field (json resp) "feedback" = Some fb
             /\ field fb "accuracy" = Some (JNum a) /\ in_unit a)
        /\ (forall row,
              In row (pronunciations
                        (database_of (getPronunciationFeedback E req user d))) ->
              In row (pronunciations d) \/ in_unit (accuracy row))).
Proof.
  split.
  - intros language level targetText.
    apply pronunciation_document_accuracy.
  - intros req user. apply getPronunciationFeedback_accuracy.
Qed.

(** A reply with accuracy 1.5 is answered with accuracy 0.7. *)
Lemma pronunciation_accuracy_in_unit_witness :
  exists fb,
    result_of (pronunciation_document
                 (Sample.deployment true (Sample.always Sample.off_scale))
                 Sample.spanish BEGINNER "Hola amigo" Sample.empty)
      = Return fb
    /\ field fb "accuracy" = Some (JNum n0_7).
Proof.
  destruct (proj1 (pronunciation_accuracy_in_unit
                     (Sample.deployment true (Sample.always Sample.off_scale))
                     Sample.empty)
              Sample.spanish BEGINNER "Hola amigo")
    as (fb & a & Hr & Ha & _ & Hbad & _).
  exists fb. split; [exact Hr|].
  rewrite Ha.
  rewrite (Hbad (JObj [("accuracy", JNum (Finite (15 # 10)%Q));
                       ("feedback", JStr "Nice");
                       ("suggestions", JArray []);
                       ("phonemes", JArray [])])).
  - reflexivity.
  - vm_compute. reflexivity.
  - simpl. intros [_ H]. apply H. reflexivity.
Defined.






(* ------------------------------------------------------------------ *)
(** ** Caller identity *)

(** Behind the router a request without a bearer token is answered 401 by
    [authenticateToken], on every route and before any handler runs. *)
Lemma router_requires_token (E : env) (authorization : option string)
  (r : route) (d : database) :
  match authorization with
  | Some (String _ _ as authHeader) =>
      match nth_error (split_space authHeader) 1 with
      | Some (String _ _) => False
      | _ => True
      end
  | _ => True
  end ->
  router E authorization r d
    = (Return (failure 401 "message" "Access token is required"), d, []).
Proof.
  unfold router, authenticateToken, bind, try_catch, ret.
  destruct authorization as [[|c h]|]; try reflexivity.
  destruct (nth_error (split_space (String c h)) 1) as [[|c' t]|];
    try reflexivity.
  intros [].
Qed.

(** The handlers that read the caller identity guard it themselves, after
    the check of the required fields: [generateLesson] ... *)
Lemma generateLesson_unauthorized (E : env) (req : LessonRequest.t)
  (c : ascii) (id' : string) (level : Level) (d : database) :
  LessonRequest.languageId req = Some (String c id') ->
  LessonRequest.level req = Some level ->
  generateLesson E req None d
    = (Return (failure 401 "message" "Unauthorized"), d, []).
Proof.
  intros H1 H2. unfold generateLesson, try_catch, ret. rewrite H1, H2.
  reflexivity.
Qed.

(** ... [generateConversationPrompt] ... *)
Lemma generateConversationPrompt_unauthorized (E : env)
  (req : ConversationRequest.t) (c : ascii) (id' : string) (level : Level)
  (d : database) :
  ConversationRequest.languageId req = Some (String c id') ->
  ConversationRequest.level req = Some level ->
  generateConversationPrompt E req None d
    = (Return (failure 401 "message" "Unauthorized"), d, []).
Proof.
  intros H1 H2. unfold generateConversationPrompt, try_catch, ret.
  rewrite H1, H2. reflexivity.
Qed.

(** ... and [getConversationResponse]. *)
Lemma getConversationResponse_unauthorized (E : env)
  (req : MessageRequest.t) (c c' : ascii) (id' msg : string) (d : database) :
  MessageRequest.languageId req = Some (String c id') ->
  MessageRequest.message req = Some (String c' msg) ->
  getConversationResponse E req None d
    = (Return (failure 401 "message" "Unauthorized"), d, []).
Proof.
  intros H1 H2. unfold getConversationResponse, try_catch, ret.
  rewrite H1, H2. reflexivity.
Qed.



(* ------------------------------------------------------------------ *)
(** ** Lesson generation and its cascade *)

Lemma same_but_quizzes_refl d : same_but_quizzes d d.
Proof. repeat split. Qed.

Lemma callGeminiJSON_run E p n d :
  exists o t, callGeminiJSON E p n d = (o, d, t)
    /\ Forall (fun e => e = Model {| contents := p; maxOutputTokens := n;
                                     jsonOnly := true |}) t.
Proof.
  unfold callGeminiJSON, generate, bind, emit, throw, ret, lift.
  destruct (GEMINI_API_KEY E); simpl.
  - destruct (generateContent E _) as [raw|]; simpl;
      eexists _, _; split; try reflexivity; repeat constructor.
  - eexists _, _; split; try reflexivity; constructor.
Qed.

Lemma lesson_document_run E level language topic d :
  exists c t,
    lesson_document E level language topic d = (Return c, d, t)
    /\ c = match result_of (callGeminiJSON E
                              (LessonPrompt level (language_name language)
                                 (nonempty topic)) 2400 d) with
           | Return doc => doc
           | Throw _ => lesson_fallback
           end
    /\ Forall quiet t.
Proof.
  unfold lesson_document, try_catch, bind, console_error, emit, ret, result_of.
  destruct (callGeminiJSON_run E
              (LessonPrompt level (language_name language) (nonempty topic))
              2400 d) as (o & t & -> & Ht).
  assert (Hq : Forall quiet t).
  { eapply Forall_impl; [|exact Ht]. intros e ->. split; reflexivity. }
  destruct o as [doc|e]; simpl.
  - eexists _, _. repeat split. exact Hq.
  - eexists _, _. repeat split.
    apply Forall_app. split; [exact Hq|].
    repeat constructor.
Qed.

Lemma generateQuizInternal_run E id c n d :
  exists o d' t,
    generateQuizInternal E id c n d = (o, d', t) /\ same_but_quizzes d d'.
Proof.
  unfold generateQuizInternal.
  set (content := if truthy (Some c) then Some c else None).
  unfold bind, lesson_find, quiz_insert, prisma, throw, try_catch,
    lift, console_error, emit, ret.
  destruct (rejects E (lesson_findUnique id false)); simpl;
    [eexists _, _, _; split; [reflexivity|apply same_but_quizzes_refl]|].
  destruct (by_id lesson_id id (lessons d)) as [l|]; simpl;
    [|eexists _, _, _; split; [reflexivity|apply same_but_quizzes_refl]].
  destruct (by_id language_id (lesson_languageId l) (languages d)) as [lang|];
    simpl.
  - destruct (callGeminiJSON_run E
                (QuizPrompt n (level l) (language_name lang) content) 2400 d)
      as (o & t & -> & _).
    destruct o as [doc|e]; simpl;
      (destruct (rejects E (quiz_create id)); simpl;
       [eexists _, _, _; split; [reflexivity|apply same_but_quizzes_refl]|]);
      (destruct (fresh E TQuiz quiz_id (quizzes d)); simpl;
       eexists _, _, _; (split; [reflexivity|repeat split])).
  - destruct (rejects E (quiz_create id)); simpl;
      [eexists _, _, _; split; [reflexivity|apply same_but_quizzes_refl]|].
    destruct (fresh E TQuiz quiz_id (quizzes d)); simpl;
      eexists _, _, _; (split; [reflexivity|repeat split]).
Qed.

Lemma auto_quiz_run E id c d :
  exists d' t,
    auto_quiz E id c d = (Return tt, d', t)
    /\ same_but_quizzes d d'
    /\ (forall e,
          result_of (generateQuizInternal E id c (Finite 5) d) = Throw e ->
          In (ConsoleError "Auto quiz generation failed:" e) t).
Proof.
  unfold auto_quiz, try_catch, bind, ret, console_error, emit, result_of.
  destruct (generateQuizInternal_run E id c (Finite 5) d)
    as (o & d' & t & -> & Hs).
  destruct o as [q|e]; simpl.
  - eexists _, _. repeat split; try apply Hs. intros e [=].
  - eexists _, _. repeat split; try apply Hs.
    intros e' [= <-]. apply in_or_app. right. now left.
Qed.

Lemma progress_insert_same E userId lessonId d d' :
  progress d' = progress d ->
  result_of (progress_insert E userId lessonId d')
    = result_of (progress_insert E userId lessonId d).
Proof.
  intros H. unfold progress_insert, prisma, result_of.
  destruct (rejects E _); [reflexivity|]. rewrite H.
  destruct (fresh E TLearningProgress progress_id (progress d)); reflexivity.
Qed.

Lemma cascade_does_not_change_response E req user d :
  result_of (generateLesson E req user d)
    = result_of (generateLesson_without_cascade E req user d).
Proof.
  unfold generateLesson, generateLesson_without_cascade, try_catch, bind.
  destruct (LessonRequest.languageId req) as [[|c0 l0]|]; try reflexivity.
  destruct (LessonRequest.level req) as [lv|]; try reflexivity.
  destruct (option_map user_id user) as [[|c1 l1]|]; try reflexivity.
  destruct (language_find E (String c0 l0) d) as [[[[language|]|e] d0] t0];
    try reflexivity.
  destruct (lesson_document_run E lv language (LessonRequest.topic req) d0)
    as (c & t & -> & _ & _).
  destruct (lesson_insert E _ _ _ _ _ d0) as [[[lesson|e] d1] t1];
    try reflexivity.
  destruct (auto_quiz_run E (lesson_id lesson) c d1) as (d2 & t2 & -> & Hs & _).
  pose proof (progress_insert_same E (String c1 l1) (lesson_id lesson) d1 d2) as Hp.
  unfold result_of in Hp.
  destruct Hs as (_ & _ & _ & Hprog & _). specialize (Hp Hprog).
  destruct (progress_insert E _ _ d2) as [[o2 d3] t3].
  destruct (progress_insert E _ _ d1) as [[o1 d3'] t3'].
  simpl in Hp. subst o2.
  destruct o1; reflexivity.
Qed.

Lemma cascade_after_lesson_app (l1 l2 : list event) :
  Forall quiet l1 ->
  cascade_after_lesson (l1 ++ l2) = cascade_after_lesson l2.
Proof.
  induction 1 as [|e l [Hc Hp] _ IH]; simpl; [reflexivity|].
  rewrite Hc, Hp, IH. reflexivity.
Qed.

Lemma cascade_after_lesson_spec (l : list event) :
  cascade_after_lesson l = true ->
  forall pre e post,
    l = (pre ++ e :: post)%list -> cascade_event e = true ->
    exists p, In p pre /\ lesson_persisted p = true.
Proof.
  induction l as [|x r IH]; intros H pre e post Hl He.
  - destruct pre; discriminate.
  - destruct pre as [|y pre']; simpl in Hl; injection Hl as <- ->.
    + simpl in H. rewrite He in H. simpl in H.
      rewrite orb_false_r in H.
      destruct x as [[] []| |]; simpl in *; discriminate.
    + simpl in H. apply orb_true_iff in H. destruct H as [H|H].
      * exists x. split; [now left|exact H].
      * apply andb_true_iff in H. destruct H as [_ H].
        destruct (IH H pre' e post eq_refl He) as (p & Hin & Hp).
        exists p. split; [now right|exact Hp].
Qed.

Lemma generateLesson_events_ordered E req user d :
  cascade_after_lesson (events_of (generateLesson E req user d)) = true.
Proof.
  unfold generateLesson, try_catch, bind, events_of, ret, console_error, emit.
  destruct (LessonRequest.languageId req) as [[|c0 l0]|]; try reflexivity.
  destruct (LessonRequest.level req) as [lv|]; try reflexivity.
  destruct (option_map user_id user) as [[|c1 l1]|]; try reflexivity.
  unfold language_find, prisma at 1.
  destruct (rejects E (language_findUnique (String c0 l0))); try reflexivity.
  destruct (by_id language_id (String c0 l0) (languages d)) as [language|];
    try reflexivity.
  destruct (lesson_document_run E lv language (LessonRequest.topic req) d)
    as (c & t & -> & _ & Ht).
  unfold lesson_insert, prisma at 1.
  destruct (rejects E (lesson_create _ _)).
  { simpl. rewrite <- app_assoc. rewrite cascade_after_lesson_app; auto. }
  destruct (fresh E TLesson lesson_id (lessons d)) as [lid|].
  2:{ simpl. rewrite <- app_assoc. rewrite cascade_after_lesson_app; auto. }
  match goal with
  | |- context [auto_quiz E ?i ?c ?d1] =>
      destruct (auto_quiz E i c d1) as [[[[]|e2] d2] t2]
  end;
  match goal with
  | |- context [progress_insert E ?u ?i ?d2] =>
      destruct (progress_insert E u i d2) as [[[p|e3] d3] t3]
  | _ => idtac
  end; simpl;
  rewrite ?app_nil_r, <- ?app_assoc;
  rewrite cascade_after_lesson_app by auto; simpl; reflexivity.
Qed.

Lemma generateLesson_run E req user d c0 l0 lv c1 l1 language lid pid :
  LessonRequest.languageId req = Some (String c0 l0) ->
  LessonRequest.level req = Some lv ->
  user_id user = String c1 l1 ->
  rejects E (language_findUnique (String c0 l0)) = false ->
  by_id language_id (String c0 l0) (languages d) = Some language ->
  rejects E (lesson_create (String c0 l0)
               (lesson_title lv language (LessonRequest.topic req))) = false ->
  fresh E TLesson lesson_id (lessons d) = Some lid ->
  rejects E (learningProgress_create (String c1 l1) lid) = false ->
  fresh E TLearningProgress progress_id (progress d) = Some pid ->
  exists c d' t0 t1 t2,
    generateLesson E req (Some user) d
      = (Return (lesson_response
                   (lesson_row lid req (String c0 l0) lv language c) c
                   (progress_row pid (String c1 l1) lid)),
         d',
         (t0 ++ Db (lesson_create (String c0 l0)
                      (lesson_title lv language (LessonRequest.topic req)))
                  true :: t1 ++ t2)%list)
    /\ c = match result_of (callGeminiJSON E
                              (LessonPrompt lv (language_name language)
                                 (nonempty (LessonRequest.topic req)))
                              2400 d) with
           | Return doc => doc
           | Throw _ => lesson_fallback
           end
    /\ lessons d'
       = (lessons d ++ [lesson_row lid req (String c0 l0) lv language c])%list
    /\ progress d'
       = (progress d ++ [progress_row pid (String c1 l1) lid])%list
    /\ t0 = Db (language_findUnique (String c0 l0)) true
              :: events_of (lesson_document E lv language
                              (LessonRequest.topic req) d)
    /\ t1 = events_of (auto_quiz E lid c
                         (with_lessons d
                            (lessons d ++
                               [lesson_row lid req (String c0 l0) lv language c])))
    /\ t2 = [Db (learningProgress_create (String c1 l1) lid) true].
Proof.
  intros H0 H1 H2 Hr0 Hf0 Hr1 Hf1 Hr2 Hf2.
  unfold generateLesson, try_catch, bind, ret.
  rewrite H0, H1. simpl. rewrite H2.
  unfold language_find, prisma at 1. rewrite Hr0, Hf0.
  unfold events_of.
  destruct (lesson_document_run E lv language (LessonRequest.topic req) d)
    as (c & t & -> & Hc & Ht).
  unfold lesson_insert, prisma at 1. rewrite Hr1, Hf1.
  cbn [lesson_id].
  fold (lesson_row lid req (String c0 l0) lv language c).
  set (d1 := with_lessons d _).
  destruct (auto_quiz_run E lid c d1) as (d2 & t2 & Ha & Hs & _).
  rewrite Ha.
  destruct Hs as (_ & _ & Hl & Hp & _).
  unfold progress_insert, prisma. rewrite Hr2, Hp. cbn [progress d1 with_lessons].
  rewrite Hf2.
  exists c. eexists. exists (Db (language_findUnique (String c0 l0)) true :: t), t2.
  eexists. split; [|repeat split].
  - cbn [app]. rewrite ?app_nil_r. reflexivity.
  - exact Hc.
  - cbn. rewrite ?Hl. reflexivity.
  - cbn. rewrite ?Hp. reflexivity.
  - fold d1. rewrite Ha. reflexivity.
Qed.

Lemma generateQuizInternal_attempts (E : env) (id : string) (c : value)
  (n : number) (d : database) :
  exists b rest,
    events_of (generateQuizInternal E id c n d)
      = Db (lesson_findUnique id false) b :: rest.
Proof.
  unfold generateQuizInternal, events_of.
  unfold bind at 1. unfold lesson_find, prisma.
  destruct (rejects E (lesson_findUnique id false)).
  - eexists _, _. reflexivity.
  - destruct (by_id lesson_id id (lessons d)) as [l|]; cbn beta iota.
    + match goal with
      | |- context [bind ?m ?k d] => destruct (bind m k d) as [[o d2] t2]
      end.
      eexists _, _. reflexivity.
    + eexists _, _. reflexivity.
Qed.

Lemma auto_quiz_attempts (E : env) (id : string) (c : value) (d : database) :
  exists b rest,
    events_of (auto_quiz E id c d) = Db (lesson_findUnique id false) b :: rest.
Proof.
  destruct (generateQuizInternal_attempts E id c (Finite 5) d)
    as (b & rest & H).
  unfold auto_quiz, try_catch, bind, ret, console_error, emit, events_of in *.
  destruct (generateQuizInternal E id c (Finite 5) d) as [[[q|e] d'] t];
    simpl in *; subst t; eexists _, _; reflexivity.
Qed.

Lemma cascade_touches_only_quizzes (E : env) (req : LessonRequest.t)
  (user : option User) (d : database) :
  same_but_quizzes
    (database_of (generateLesson_without_cascade E req user d))
    (database_of (generateLesson E req user d)).
Proof.
  unfold generateLesson, generateLesson_without_cascade, try_catch, bind,
    database_of.
  destruct (LessonRequest.languageId req) as [[|c0 l0]|];
    try apply same_but_quizzes_refl.
  destruct (LessonRequest.level req) as [lv|];
    try apply same_but_quizzes_refl.
  destruct (option_map user_id user) as [[|c1 l1]|];
    try apply same_but_quizzes_refl.
  destruct (language_find E (String c0 l0) d) as [[[[language|]|e] d0] t0];
    try apply same_but_quizzes_refl.
  destruct (lesson_document_run E lv language (LessonRequest.topic req) d0)
    as (c & t & -> & _ & _).
  destruct (lesson_insert E _ _ _ _ _ d0) as [[[lesson|e] d1] t1];
    try apply same_but_quizzes_refl.
  destruct (auto_quiz_run E (lesson_id lesson) c d1)
    as (d2 & t2 & -> & Hs & _).
  unfold progress_insert, prisma.
  destruct Hs as (H1 & H2 & H3 & H4 & H5 & H6 & H7).
  destruct (rejects E _); simpl; [repeat split; assumption|].
  rewrite H4.
  destruct (fresh E TLearningProgress progress_id (progress d1)); simpl;
    repeat split; assumption.
Qed.

(** C8.  In every run of [generateLesson], an event of the cascade (the
    lookup for the quiz, the model call with the quiz prompt, the creation
    of the quiz, its log lines) comes only after the event that stored the
    lesson.  The cascade step never throws: a failure of the quiz
    generation is logged and the step ends normally, having touched
    nothing but the quizzes.  So the answer of the handler is the answer
    it gives without the cascade step, and so are the tables other than
    the quizzes. *)
Theorem cascade_after_persistence_and_swallowed (E : env)
  (req : LessonRequest.t) (user : option User) (d : database) :
  (forall pre e post,
     events_of (generateLesson E req user d) = (pre ++ e :: post)%list ->
     cascade_event e = true ->
     exists p, In p pre /\ lesson_persisted p = true)
  /\ (forall lessonId lessonContent d1,
        exists d2 t,
          auto_quiz E lessonId lessonContent d1 = (Return tt, d2, t)
          /\ same_but_quizzes d1 d2
          /\ (forall e,
                result_of (generateQuizInternal E lessonId lessonContent
                             (Finite 5) d1) = Throw e ->
                In (ConsoleError "Auto quiz generation failed:" e) t))
  /\ result_of (generateLesson E req user d)
     = result_of (generateLesson_without_cascade E req user d)
  /\ same_but_quizzes
       (database_of (generateLesson_without_cascade E req user d))
       (database_of (generateLesson E req user d)).
Proof.
  split; [|split; [|split]].
  - apply cascade_after_lesson_spec, generateLesson_events_ordered.
  - intros. apply auto_quiz_run.
  - apply cascade_does_not_change_response.
  - apply cascade_touches_only_quizzes.
Qed.

(** A run in which no quiz can be stored: the cascade fails after the
    lesson was stored, the failure is logged, the answer is the success it
    would have been. *)
Lemma cascade_after_persistence_and_swallowed_witness :
  let E := Sample.deployment_rejecting Sample.quiz_table_down true
             Sample.unreachable in
  (exists p,
     In p [Db (language_findUnique "es") true;
           Model {| contents := LessonPrompt BEGINNER "Spanish"
                                  (Some "Greetings");
                    maxOutputTokens := 2400; jsonOnly := true |};
           ConsoleError "Lesson JSON generation failed:"
             GoogleGenerativeAIError;
           Db (lesson_create "es" "Greetings") true]
     /\ lesson_persisted p = true)
  /\ result_of (generateLesson E Sample.lesson_request (Some Sample.ana)
                  Sample.empty)
     = result_of (generateLesson_without_cascade E Sample.lesson_request
                    (Some Sample.ana) Sample.empty)
  /\ In (ConsoleError "Auto quiz generation failed:" PrismaError)
        (events_of (generateLesson E Sample.lesson_request (Some Sample.ana)
                      Sample.empty))
  /\ status_of (generateLesson E Sample.lesson_request (Some Sample.ana)
                  Sample.empty) = Some 200.
Proof.
  intros E.
  destruct (cascade_after_persistence_and_swallowed E Sample.lesson_request
              (Some Sample.ana) Sample.empty) as (Hord & _ & Hres & _).
  split; [|split; [exact Hres | split; vm_compute; auto 10]].
  eapply Hord; [vm_compute; reflexivity | reflexivity].
Defined.

Lemma nonempty_string (s : string) :
  s <> "" -> exists c r, s = String c r.
Proof. destruct s as [|c r]; [congruence | eauto]. Qed.

(** The run of a served lesson request, from the record of what makes it
    served. *)
Lemma generateLesson_served (E : env) (req : LessonRequest.t) (user : User)
  (d : database) (languageId userId : string) (lv : Level)
  (language : Language) (lid pid : string) :
  lesson_request_served E req user d languageId userId lv language lid pid ->
  exists c d' t,
    generateLesson E req (Some user) d
      = (Return (lesson_response
                   (lesson_row lid req languageId lv language c) c
                   (progress_row pid userId lid)),
         d', t)
    /\ c = match result_of (callGeminiJSON E (lesson_prompt req lv language)
                              2400 d) with
           | Return doc => doc
           | Throw _ => lesson_fallback
           end
    /\ lessons d'
       = (lessons d ++ [lesson_row lid req languageId lv language c])%list
    /\ progress d' = (progress d ++ [progress_row pid userId lid])%list
    /\ (forall e,
          In e (events_of (lesson_document E lv language
                             (LessonRequest.topic req) d)) -> In e t)
    /\ (exists b, In (Db (lesson_findUnique lid false) b) t).
Proof.
  intros [H0 N0 H1 H2 N2 Hr0 Hf0 Hr1 Hf1 Hr2 Hf2].
  destruct (nonempty_string _ N0) as (c0 & l0 & ->).
  destruct (nonempty_string _ N2) as (c1 & l1 & ->).
  destruct (generateLesson_run E req user d c0 l0 lv c1 l1 language lid pid
              H0 H1 H2 Hr0 Hf0 Hr1 Hf1 Hr2 Hf2)
    as (c & d' & t0 & t1 & t2 & Hrun & Hc & Hl & Hp & Ht0 & Ht1 & Ht2).
  exists c, d'. eexists. split; [exact Hrun|].
  repeat split; try assumption.
  - intros e He. apply in_or_app. left. rewrite Ht0. now right.
  - destruct (auto_quiz_attempts E lid c
                (with_lessons d
                   (lessons d ++
                      [lesson_row lid req (String c0 l0) lv language c])))
      as (b & rest & Hev).
    exists b. apply in_or_app. right. right. apply in_or_app. left.
    rewrite Ht1, Hev. now left.
Qed.

Lemma callGeminiJSON_invocation_failure (E : env) (p : prompt) (n : nat)
  (d : database) :
  GEMINI_API_KEY E = false
  \/ generateContent E {| contents := p; maxOutputTokens := n;
                          jsonOnly := true |} = None ->
  exists e, result_of (callGeminiJSON E p n d) = Throw e
            /\ (e = missing_key \/ e = GoogleGenerativeAIError).
Proof.
  unfold callGeminiJSON, generate, bind, emit, throw, result_of.
  intros [H|H].
  - rewrite H. simpl. eauto.
  - destruct (GEMINI_API_KEY E); simpl; [|eauto].
    rewrite H. simpl. eauto.
Qed.

Lemma callGeminiJSON_extraction_success (E : env) (p : prompt) (n : nat)
  (d : database) (raw : string) (doc : value) :
  GEMINI_API_KEY E = true ->
  generateContent E {| contents := p; maxOutputTokens := n; jsonOnly := true |}
    = Some raw ->
  safeJsonParse (JSON_parse E) raw = Return doc ->
  callGeminiJSON E p n d
    = (Return doc, d,
       [Model {| contents := p; maxOutputTokens := n; jsonOnly := true |}]).
Proof.
  intros Hk Hg Hp. unfold callGeminiJSON, generate, bind, emit, ret, lift.
  rewrite Hk, Hg, Hp. reflexivity.
Qed.

Lemma lesson_document_logs_failure (E : env) (lv : Level)
  (language : Language) (topic : option string) (d : database) (e : exn) :
  result_of (callGeminiJSON E
               (LessonPrompt lv (language_name language) (nonempty topic))
               2400 d) = Throw e ->
  In (ConsoleError "Lesson JSON generation failed:" e)
     (events_of (lesson_document E lv language topic d)).
Proof.
  unfold lesson_document, try_catch, bind, console_error, emit, ret,
    result_of, events_of.
  destruct (callGeminiJSON E _ 2400 d) as [[[doc|e'] d1] t1]; simpl;
    intros [= <-].
  apply in_or_app. right. now left.
Qed.

(** C2, as the handler has it.  When the invocation of the model fails
    for a lesson request (no key configured, or the endpoint rejects the
    call), the handler logs the failure and goes on as it does after an
    extraction failure: the lesson is stored with the fallback content,
    the cascade step is entered, and the caller receives the success
    answer carrying the fallback content. *)
Theorem invocation_failure_falls_back (E : env) (req : LessonRequest.t)
  (user : User) (d : database) (languageId userId : string) (lv : Level)
  (language : Language) (lid pid : string) :
  lesson_request_served E req user d languageId userId lv language lid pid ->
  GEMINI_API_KEY E = false
  \/ generateContent E {| contents := lesson_prompt req lv language;
                          maxOutputTokens := 2400; jsonOnly := true |}
     = None ->
  exists d' t,
    generateLesson E req (Some user) d
      = (Return (lesson_response
                   (lesson_row lid req languageId lv language lesson_fallback)
                   lesson_fallback (progress_row pid userId lid)),
         d', t)
    /\ lessons d'
       = (lessons d
            ++ [lesson_row lid req languageId lv language lesson_fallback])%list
    /\ (exists e,
          In (ConsoleError "Lesson JSON generation failed:" e) t
          /\ (e = missing_key \/ e = GoogleGenerativeAIError))
    /\ (exists b, In (Db (lesson_findUnique lid false) b) t).
Proof.
  intros Hs Hfail.
  destruct (generateLesson_served E req user d languageId userId lv language
              lid pid Hs) as (c & d' & t & Hrun & Hc & Hl & _ & Hlog & Hq).
  destruct (callGeminiJSON_invocation_failure E (lesson_prompt req lv language)
              2400 d Hfail) as (e & He & Hkind).
  rewrite He in Hc. subst c.
  exists d', t. repeat split; try assumption.
  exists e. split; [|exact Hkind].
  apply Hlog. apply lesson_document_logs_failure. exact He.
Qed.

Lemma sample_lesson_request_served (E : env) :
  rejects E = (fun _ => false) ->
  new_id E = Sample.ids ->
  lesson_request_served E Sample.lesson_request Sample.ana Sample.empty
    "es" "u1" BEGINNER Sample.spanish "lesson-0" "progress-0".
Proof.
  intros Hr Hi.
  constructor; try reflexivity; try discriminate;
    try (rewrite Hr; reflexivity);
    unfold fresh; rewrite Hi; reflexivity.
Qed.

(** The sample request with no key configured. *)
Lemma invocation_failure_falls_back_witness :
  exists d' t,
    generateLesson (Sample.deployment false Sample.unreachable)
      Sample.lesson_request (Some Sample.ana) Sample.empty
      = (Return (lesson_response
                   (lesson_row "lesson-0" Sample.lesson_request "es" BEGINNER
                      Sample.spanish lesson_fallback)
                   lesson_fallback (progress_row "progress-0" "u1" "lesson-0")),
         d', t)
    /\ lessons d'
       = (lessons Sample.empty
            ++ [lesson_row "lesson-0" Sample.lesson_request "es" BEGINNER
                  Sample.spanish lesson_fallback])%list
    /\ (exists e,
          In (ConsoleError "Lesson JSON generation failed:" e) t
          /\ (e = missing_key \/ e = GoogleGenerativeAIError))
    /\ (exists b, In (Db (lesson_findUnique "lesson-0" false) b) t).
Proof.
  exact (invocation_failure_falls_back
           (Sample.deployment false Sample.unreachable)
           Sample.lesson_request Sample.ana Sample.empty
           "es" "u1" BEGINNER Sample.spanish "lesson-0" "progress-0"
           (sample_lesson_request_served
              (Sample.deployment false Sample.unreachable) eq_refl eq_refl)
           (or_introl eq_refl)).
Defined.

(** C2 as stated fails.  With no key configured, and with a key but an
    endpoint out of reach, the caller of the sample request receives
    status 200, a lesson row is stored, and the events of the cascade
    occur. *)
Lemma invocation_failure_not_surfaced :
  (status_of (generateLesson (Sample.deployment false Sample.unreachable)
                Sample.lesson_request (Some Sample.ana) Sample.empty)
     = Some 200
   /\ ~ Claimed.invocation_failure_surfaced Sample.empty
         (generateLesson (Sample.deployment false Sample.unreachable)
            Sample.lesson_request (Some Sample.ana) Sample.empty))
  /\ (status_of (generateLesson (Sample.deployment true Sample.unreachable)
                   Sample.lesson_request (Some Sample.ana) Sample.empty)
        = Some 200
      /\ ~ Claimed.invocation_failure_surfaced Sample.empty
            (generateLesson (Sample.deployment true Sample.unreachable)
               Sample.lesson_request (Some Sample.ana) Sample.empty)).
Proof.
  repeat split; try (vm_compute; reflexivity);
    intros (Hstatus & _); vm_compute in Hstatus; discriminate.
Qed.

(** C5, as the handler has it.  A lesson document that was extracted is
    stored and returned as it is: no key is added to it.  The content with
    all five keys is the fallback, used when nothing was extracted. *)
Theorem lesson_document_stored_as_extracted (E : env)
  (req : LessonRequest.t) (user : User) (d : database)
  (languageId userId : string) (lv : Level) (language : Language)
  (lid pid : string) (raw : string) (doc : value) :
  lesson_request_served E req user d languageId userId lv language lid pid ->
  GEMINI_API_KEY E = true ->
  generateContent E {| contents := lesson_prompt req lv language;
                       maxOutputTokens := 2400; jsonOnly := true |}
    = Some raw ->
  safeJsonParse (JSON_parse E) raw = Return doc ->
  (exists d' t,
     generateLesson E req (Some user) d
       = (Return (lesson_response
                    (lesson_row lid req languageId lv language doc) doc
                    (progress_row pid userId lid)),
          d', t)
     /\ lessons d'
        = (lessons d ++ [lesson_row lid req languageId lv language doc])%list)
  /\ field (lesson_json (lesson_row lid req languageId lv language doc) doc)
       "content" = Some doc
  /\ forallb (has_key lesson_fallback) lesson_keys = true.
Proof.
  intros Hs Hk Hg Hp.
  destruct (generateLesson_served E req user d languageId userId lv language
              lid pid Hs) as (c & d' & t & Hrun & Hc & Hl & _).
  pose proof (callGeminiJSON_extraction_success E
                (lesson_prompt req lv language) 2400 d raw doc Hk Hg Hp) as Hx.
  rewrite Hx in Hc. simpl in Hc. subst c.
  split; [|split; reflexivity].
  exists d', t. split; assumption.
Qed.

Lemma fenced_grammar_extracted :
  safeJsonParse Reader.read Sample.fenced_grammar
  = Return (JObj [("grammar", JStr "ok")]).
Proof. vm_compute. reflexivity. Qed.

(** The reply of the scenario: the content is the object with the one
    key. *)
Lemma lesson_document_stored_as_extracted_witness :
  exists d' t,
    generateLesson (Sample.deployment true (Sample.always Sample.fenced_grammar))
      Sample.lesson_request (Some Sample.ana) Sample.empty
      = (Return (lesson_response
                   (lesson_row "lesson-0" Sample.lesson_request "es" BEGINNER
                      Sample.spanish (JObj [("grammar", JStr "ok")]))
                   (JObj [("grammar", JStr "ok")])
                   (progress_row "progress-0" "u1" "lesson-0")),
         d', t)
    /\ lessons d'
       = (lessons Sample.empty
            ++ [lesson_row "lesson-0" Sample.lesson_request "es" BEGINNER
                  Sample.spanish (JObj [("grammar", JStr "ok")])])%list.
Proof.
  exact (proj1 (lesson_document_stored_as_extracted
                  (Sample.deployment true (Sample.always Sample.fenced_grammar))
                  Sample.lesson_request Sample.ana Sample.empty
                  "es" "u1" BEGINNER Sample.spanish "lesson-0" "progress-0"
                  Sample.fenced_grammar (JObj [("grammar", JStr "ok")])
                  (sample_lesson_request_served
                     (Sample.deployment true
                        (Sample.always Sample.fenced_grammar))
                     eq_refl eq_refl)
                  eq_refl eq_refl fenced_grammar_extracted)).
Defined.

(** C5 as stated fails.  For the reply of the scenario the content
    returned and stored is the object with the one key [grammar]: it has
    none of the keys [vocabulary], [examples], [exercises] and
    [culturalNotes]. *)
Lemma extracted_lesson_keys_not_filled :
  result_of (generateLesson
               (Sample.deployment true (Sample.always Sample.fenced_grammar))
               Sample.lesson_request (Some Sample.ana) Sample.empty)
    = Return (lesson_response
                (lesson_row "lesson-0" Sample.lesson_request "es" BEGINNER
                   Sample.spanish (JObj [("grammar", JStr "ok")]))
                (JObj [("grammar", JStr "ok")])
                (progress_row "progress-0" "u1" "lesson-0"))
  /\ map content
       (lessons
          (database_of
             (generateLesson
                (Sample.deployment true (Sample.always Sample.fenced_grammar))
                Sample.lesson_request (Some Sample.ana) Sample.empty)))
     = [JObj [("grammar", JStr "ok")]]
  /\ map (has_key (JObj [("grammar", JStr "ok")])) lesson_keys
     = [false; true; false; false; false]
  /\ ~ Claimed.content_has_all_keys Sample.empty
        (generateLesson
           (Sample.deployment true (Sample.always Sample.fenced_grammar))
           Sample.lesson_request (Some Sample.ana) Sample.empty).
Proof.
  repeat split; try (vm_compute; reflexivity).
  intros H.
  destruct (H (lesson_row "lesson-0" Sample.lesson_request "es" BEGINNER
                 Sample.spanish (JObj [("grammar", JStr "ok")])))
    as [[]|Hkeys].
  - vm_compute. left. reflexivity.
  - vm_compute in Hkeys. discriminate.
Qed.

(* ------------------------------------------------------------------ *)
(** ** Quiz generation *)

(** The run of a served quiz request. *)
Lemma generateQuiz_served (E : env) (req : QuizRequest.t) (d : database)
  (lessonId : string) (lesson : Lesson) (language : Language) (qid : string) :
  quiz_request_served E req d lessonId lesson language qid ->
  exists qs t,
    generateQuiz E req d
      = (Return (success
                   [("quiz", quiz_json qid lessonId (questions_or_empty qs))]),
         with_quizzes d
           (quizzes d ++ [{| quiz_id := qid; quiz_lessonId := lessonId;
                             questions := qs |}])%list,
         t)
    /\ qs = match result_of (callGeminiJSON E (quiz_prompt req lesson language)
                               2400 d) with
            | Return doc => doc
            | Throw _ => JArray []
            end.
Proof.
  intros [H0 N0 Hr0 Hr1 Hl Hlang Hq Hr2 Hf].
  destruct (nonempty_string _ N0) as (c0 & l0 & ->).
  unfold generateQuiz, try_catch. unfold bind at 1.
  unfold lesson_find_quiz, prisma at 1.
  rewrite H0, Hr0, Hl, Hq. cbn beta iota.
  unfold generateQuizInternal, bind, lesson_find.
  unfold prisma at 1. rewrite Hr1, Hl, Hlang. cbn beta iota.
  unfold try_catch, lift, console_error, emit, ret.
  fold (quiz_prompt req lesson language).
  unfold result_of.
  destruct (callGeminiJSON_run E (quiz_prompt req lesson language) 2400 d)
    as (o & t & -> & _).
  unfold quiz_insert, prisma.
  destruct o as [doc|e]; cbn beta iota; rewrite Hr2, Hf;
    eexists _, _; split; reflexivity.
Qed.

(** C3, as the handler has it.  The questions of a generated quiz are the
    extracted document as it is: stored unchanged, and returned unchanged
    when it is a sequence, whatever its questions look like; the empty
    sequence is returned for a document that is not a sequence, and stored
    and returned when nothing was extracted. *)
Theorem quiz_questions_unchecked (E : env) (req : QuizRequest.t)
  (d : database) (lessonId : string) (lesson : Lesson) (language : Language)
  (qid : string) :
  quiz_request_served E req d lessonId lesson language qid ->
  exists qs t,
    generateQuiz E req d
      = (Return (success
                   [("quiz", quiz_json qid lessonId (questions_or_empty qs))]),
         with_quizzes d
           (quizzes d ++ [{| quiz_id := qid; quiz_lessonId := lessonId;
                             questions := qs |}])%list,
         t)
    /\ (forall doc,
          result_of (callGeminiJSON E (quiz_prompt req lesson language)
                       2400 d) = Return doc -> qs = doc)
    /\ (forall e,
          result_of (callGeminiJSON E (quiz_prompt req lesson language)
                       2400 d) = Throw e -> qs = JArray [])
    /\ (forall items extra,
          qs = JArr items extra -> questions_or_empty qs = JArr items extra)
    /\ (isArray (Some qs) = false -> questions_or_empty qs = JArray []).
Proof.
  intros Hs.
  destruct (generateQuiz_served E req d lessonId lesson language qid Hs)
    as (qs & t & Hrun & Hqs).
  exists qs, t. split; [exact Hrun|]. repeat split.
  - intros doc H. rewrite H in Hqs. exact Hqs.
  - intros e H. rewrite H in Hqs. exact Hqs.
  - intros items extra ->. reflexivity.
  - intros H. unfold questions_or_empty. rewrite H. reflexivity.
Qed.

Lemma sample_quiz_request_served (E : env) :
  rejects E = (fun _ => false) ->
  new_id E = Sample.ids ->
  quiz_request_served E Sample.quiz_request (Sample.with_lesson [])
    "l1" Sample.greetings Sample.spanish "quiz-0".
Proof.
  intros Hr Hi.
  constructor; try reflexivity; try discriminate;
    try (rewrite Hr; reflexivity);
    unfold fresh; rewrite Hi; reflexivity.
Qed.

(** The sample quiz request with a model that returns a question of three
    options: the question is among the questions returned. *)
Lemma quiz_questions_unchecked_witness :
  exists qs t,
    generateQuiz (Sample.deployment true (Sample.always Sample.malformed_quiz))
      Sample.quiz_request (Sample.with_lesson [])
      = (Return (success
                   [("quiz", quiz_json "quiz-0" "l1" (questions_or_empty qs))]),
         with_quizzes (Sample.with_lesson [])
           (quizzes (Sample.with_lesson [])
              ++ [{| quiz_id := "quiz-0"; quiz_lessonId := "l1";
                     questions := qs |}])%list,
         t)
    /\ qs = JArray [JObj [("question", JStr "Hola means?");
                          ("options", JArray [JStr "Hello"; JStr "Bye";
                                              JStr "Please"]);
                          ("correctAnswer", num 7)]].
Proof.
  destruct (quiz_questions_unchecked
              (Sample.deployment true (Sample.always Sample.malformed_quiz))
              Sample.quiz_request (Sample.with_lesson [])
              "l1" Sample.greetings Sample.spanish "quiz-0"
              (sample_quiz_request_served
                 (Sample.deployment true (Sample.always Sample.malformed_quiz))
                 eq_refl eq_refl))
    as (qs & t & Hrun & Hdoc & _).
  exists qs, t. split; [exact Hrun|].
  apply Hdoc. vm_compute. reflexivity.
Defined.

(** C3 as stated fails.  The model returns one question with three
    options and the answer 7; the quiz endpoint returns that question. *)
Lemma malformed_question_emitted :
  result_of (generateQuiz
               (Sample.deployment true (Sample.always Sample.malformed_quiz))
               Sample.quiz_request (Sample.with_lesson []))
    = Return (success
                [("quiz",
                  quiz_json "quiz-0" "l1"
                    (JArray [JObj [("question", JStr "Hola means?");
                                   ("options", JArray [JStr "Hello"; JStr "Bye";
                                                       JStr "Please"]);
                                   ("correctAnswer", num 7)]]))])
  /\ valid_question (JObj [("question", JStr "Hola means?");
                           ("options", JArray [JStr "Hello"; JStr "Bye";
                                               JStr "Please"]);
                           ("correctAnswer", num 7)])
     = false
  /\ ~ Claimed.questions_validated
        (generateQuiz
           (Sample.deployment true (Sample.always Sample.malformed_quiz))
           Sample.quiz_request (Sample.with_lesson [])).
Proof.
  repeat split; try (vm_compute; reflexivity).
  intros H.
  specialize (H (success
                   [("quiz",
                     quiz_json "quiz-0" "l1"
                       (JArray [JObj [("question", JStr "Hola means?");
                                      ("options", JArray [JStr "Hello";
                                                          JStr "Bye";
                                                          JStr "Please"]);
                                      ("correctAnswer", num 7)]]))])
                (quiz_json "quiz-0" "l1"
                   (JArray [JObj [("question", JStr "Hola means?");
                                  ("options", JArray [JStr "Hello"; JStr "Bye";
                                                      JStr "Please"]);
                                  ("correctAnswer", num 7)]]))
                [JObj [("question", JStr "Hola means?");
                       ("options", JArray [JStr "Hello"; JStr "Bye";
                                           JStr "Please"]);
                       ("correctAnswer", num 7)]]
                []).
  assert (Hfalse : false = true).
  { apply H; vm_compute; reflexivity. }
  discriminate.
Qed.

(* ------------------------------------------------------------------ *)
(** ** Fenced and embedded replies *)

Lemma trimStart_space ws s :
  all_space ws = true -> trimStart (ws ++ s) = trimStart s.
Proof.
  induction ws as [|c r IH]; simpl; [reflexivity|].
  intros H. apply andb_true_iff in H. destruct H as [Hc Hr].
  rewrite Hc. auto.
Qed.

Lemma trimStart_solid s :
  starts_with (fun c => negb (is_space c)) s = true -> trimStart s = s.
Proof.
  destruct s as [|c r]; simpl; [discriminate|].
  intros H. apply negb_true_iff in H. rewrite H. reflexivity.
Qed.

Lemma trimEnd_all_space ws : all_space ws = true -> trimEnd ws = "".
Proof.
  induction ws as [|c r IH]; simpl; [reflexivity|].
  intros H. apply andb_true_iff in H. destruct H as [Hc Hr].
  rewrite (IH Hr), Hc. reflexivity.
Qed.

Lemma trimEnd_space s ws :
  all_space ws = true -> trimEnd (s ++ ws) = trimEnd s.
Proof.
  intros H. induction s as [|c r IH]; simpl.
  - apply trimEnd_all_space, H.
  - rewrite IH. reflexivity.
Qed.

Lemma trimStart_all_space ws : all_space ws = true -> trimStart ws = "".
Proof.
  induction ws as [|c r IH]; simpl; [reflexivity|].
  intros H. apply andb_true_iff in H. destruct H as [Hc Hr].
  rewrite Hc. auto.
Qed.

Lemma trim_app_space s ws :
  all_space ws = true -> trim (s ++ ws) = trim s.
Proof.
  intros H. unfold trim. induction s as [|c r IH]; simpl.
  - rewrite (trimStart_all_space ws H). reflexivity.
  - destruct (is_space c); [exact IH|].
    change (String c (r ++ ws)) with (String c r ++ ws).
    apply trimEnd_space, H.
Qed.

Lemma trim_space_app ws s :
  all_space ws = true -> trim (ws ++ s) = trim s.
Proof. intros H. unfold trim. rewrite trimStart_space by exact H. reflexivity. Qed.

Lemma trim_surrounded before raw after :
  all_space before = true -> all_space after = true ->
  trim (before ++ raw ++ after) = trim raw.
Proof.
  intros Hb Ha.
  rewrite (trim_space_app before _ Hb). apply trim_app_space, Ha.
Qed.

(** X1.  White space around the reply does not count: for the reply with
    white space before and after it the extraction gives what it gives for
    the reply alone, the value or the error. *)
Theorem safeJsonParse_ignores_surrounding_space
  (JSON_parse : string -> option value) (before raw after : string) :
  all_space before = true -> all_space after = true ->
  safeJsonParse JSON_parse (before ++ raw ++ after)
  = safeJsonParse JSON_parse raw.
Proof.
  intros Hb Ha. unfold safeJsonParse.
  rewrite (trim_surrounded before raw after Hb Ha). reflexivity.
Qed.

(** The bare object of the lesson scenario, with a line feed and a space on
    either side. *)
Lemma safeJsonParse_ignores_surrounding_space_witness :
  safeJsonParse Reader.read
    ((Scenario.nl ++ " ") ++ Scenario.grammar_body ++ " " ++ Scenario.nl)
  = safeJsonParse Reader.read Scenario.grammar_body.
Proof.
  apply (safeJsonParse_ignores_surrounding_space Reader.read
           (Scenario.nl ++ " ") Scenario.grammar_body (" " ++ Scenario.nl));
    reflexivity.
Defined.

Lemma trimEnd_solid s c :
  is_space c = false -> trimEnd (s ++ String c "") = s ++ String c "".
Proof.
  intros Hc. induction s as [|a r IH]; simpl.
  - rewrite Hc. reflexivity.
  - rewrite IH. destruct (r ++ String c "") eqn:E; [|reflexivity].
    destruct r; discriminate.
Qed.

Lemma strip_close_app s : strip_close (s ++ "```") = s.
Proof.
  induction s as [|a r IH]; [reflexivity|].
  cbn [append]. unfold strip_close; fold strip_close.
  destruct (String.eqb (String a (r ++ "```")) "```") eqn:E.
  - apply String.eqb_eq in E. injection E as _ E.
    destruct r as [|b [|b1 [|b2 r1]]]; discriminate.
  - rewrite IH. reflexivity.
Qed.

Lemma after_prefix_ci_app p tag rest :
  after_prefix_ci p tag = Some "" ->
  after_prefix_ci p (tag ++ rest) = Some rest.
Proof.
  revert tag. induction p as [|a p IH]; intros tag; simpl.
  - intros [= ->]. reflexivity.
  - destruct tag as [|b tag]; [discriminate|]. simpl.
    destruct (eq_ci a b); [apply IH|discriminate].
Qed.

Lemma eq_ci_backtick c : eq_ci "`" c = Ascii.eqb c "`".
Proof. destruct c as [[] [] [] [] [] [] [] []]; vm_compute; reflexivity. Qed.

Lemma space_is_not_j c : is_space c = true -> eq_ci "j" c = false.
Proof. destruct c as [[] [] [] [] [] [] [] []]; vm_compute; congruence. Qed.

Lemma starts_with_app p s t :
  starts_with p s = true -> starts_with p (s ++ t) = true.
Proof. destruct s; simpl; [discriminate|auto]. Qed.

Lemma strip_open_solid body :
  starts_with solid body = true -> strip_open "```" body = body.
Proof.
  destruct body as [|c r]; [discriminate|]. simpl. unfold solid, strip_open.
  intros H. apply andb_true_iff in H. destruct H as [_ H].
  apply negb_true_iff in H. simpl. rewrite eq_ci_backtick, H. reflexivity.
Qed.

Lemma solid_not_space body :
  starts_with solid body = true ->
  starts_with (fun c => negb (is_space c)) body = true.
Proof.
  destruct body as [|c r]; simpl; [discriminate|]. unfold solid.
  intros H. apply andb_true_iff in H. tauto.
Qed.

Lemma after_backticks p s :
  after_prefix_ci ("```" ++ p) ("```" ++ s) = after_prefix_ci p s.
Proof. reflexivity. Qed.

Lemma after_prefix_ci_j c s :
  is_space c = true -> after_prefix_ci "json" (String c s) = None.
Proof.
  intros H. cbn [after_prefix_ci]. rewrite (space_is_not_j c H). reflexivity.
Qed.

(** The cleaning undoes the fence. *)
Lemma clean_fenced tag ws1 body ws2 :
  well_fenced tag ws1 body ws2 = true ->
  clean (fenced tag ws1 body ws2) = trimEnd body.
Proof.
  unfold well_fenced, fenced. rewrite !andb_true_iff.
  intros [[[Htag H1] H2] Hb].
  assert (Hsolid : starts_with solid (body ++ ws2 ++ "```") = true)
    by apply starts_with_app, Hb.
  assert (Hopen :
    strip_open "```" (strip_open "```json"
                        ("```" ++ tag ++ ws1 ++ body ++ ws2 ++ "```"))
    = body ++ ws2 ++ "```").
  { apply orb_true_iff in Htag. destruct Htag as [Htag|Htag].
    - unfold json_tag in Htag.
      destruct (after_prefix_ci "json" tag) as [[|]|] eqn:E; try discriminate.
      unfold strip_open at 2.
      change "```json" with ("```" ++ "json"). rewrite after_backticks.
      rewrite (after_prefix_ci_app _ _ _ E).
      rewrite trimStart_space by exact H1.
      rewrite (trimStart_solid _ (solid_not_space _ Hsolid)).
      apply strip_open_solid, Hsolid.
    - apply andb_true_iff in Htag. destruct Htag as [Ht Hw].
      apply String.eqb_eq in Ht. subst tag.
      change ("" ++ ws1 ++ body ++ ws2 ++ "```")
        with (ws1 ++ body ++ ws2 ++ "```").
      destruct ws1 as [|c w]; [discriminate|].
      cbn [all_space] in H1. apply andb_true_iff in H1. destruct H1 as [Hc Hw1].
      unfold strip_open at 2.
      change "```json" with ("```" ++ "json"). rewrite after_backticks.
      change (String c w ++ body ++ ws2 ++ "```")
        with (String c (w ++ body ++ ws2 ++ "```")).
      rewrite (after_prefix_ci_j c _ Hc).
      unfold strip_open.
      change (after_prefix_ci "```" ("```" ++ ?x)) with (Some x).
      replace (after_prefix_ci "```"
                 ("```" ++ String c (w ++ body ++ ws2 ++ "```")))
        with (Some (String c (w ++ body ++ ws2 ++ "```"))) by reflexivity.
      cbn [trimStart]. rewrite Hc.
      rewrite trimStart_space by exact Hw1.
      apply trimStart_solid, solid_not_space, Hsolid. }
  unfold clean. rewrite Hopen.
  replace (body ++ ws2 ++ "```") with ((body ++ ws2) ++ "```").
  2:{ clear. induction body; simpl; congruence. }
  rewrite strip_close_app, trim_app_space by exact H2.
  unfold trim. rewrite trimStart_solid; [reflexivity|].
  apply solid_not_space, Hb.
Qed.

Lemma trim_fenced tag ws1 body ws2 :
  trim (fenced tag ws1 body ws2) = fenced tag ws1 body ws2.
Proof.
  unfold trim, fenced.
  rewrite trimStart_solid by reflexivity.
  replace ("```" ++ tag ++ ws1 ++ body ++ ws2 ++ "```")
    with (("```" ++ tag ++ ws1 ++ body ++ ws2 ++ "``") ++ "`").
  - apply trimEnd_solid. reflexivity.
  - cbn [append]. do 3 f_equal.
    repeat match goal with
           | |- (?x ++ _) ++ _ = ?x ++ _ =>
               let IH := fresh in
               induction x as [|? ? IH]; cbn [append]; [|rewrite IH; reflexivity]
           end.
    reflexivity.
Qed.

(** X2.  A reply in a code fence is read through the fence. The fence is
    three backticks, the tag [json] in any case (or no tag, and then white
    space), white space, the body, white space, three backticks; white space
    may surround it. When the fenced text as a whole is not JSON and the
    body is (its trailing white space left out), cleaning yields exactly
    that body and the extraction returns its value. *)
Theorem fenced_reply_extracted (JSON_parse : string -> option value)
  (before tag ws1 body ws2 after : string) (v : value) :
  well_fenced tag ws1 body ws2 = true ->
  all_space before = true -> all_space after = true ->
  JSON_parse (fenced tag ws1 body ws2) = None ->
  JSON_parse (trimEnd body) = Some v ->
  clean (fenced tag ws1 body ws2) = trimEnd body
  /\ safeJsonParse JSON_parse (before ++ fenced tag ws1 body ws2 ++ after)
     = Return v.
Proof.
  intros Hf Hb Ha Hno Hyes. split; [apply clean_fenced, Hf|].
  unfold safeJsonParse, try_return, parse.
  rewrite (trim_surrounded before _ after Hb Ha), trim_fenced, Hno, (clean_fenced _ _ _ _ Hf), Hyes. reflexivity.
Qed.

(** The object of the lesson scenario in a fence with the tag in capitals, a
    space before the fence and a line feed after it. *)
Lemma fenced_reply_extracted_witness :
  clean (fenced "JSON" Scenario.nl Scenario.grammar_body Scenario.nl)
  = trimEnd Scenario.grammar_body
  /\ safeJsonParse Reader.read
       (" " ++ fenced "JSON" Scenario.nl Scenario.grammar_body Scenario.nl
            ++ Scenario.nl)
     = Return (JObj [("grammar", JStr "ok")]).
Proof.
  apply (fenced_reply_extracted Reader.read " " "JSON" Scenario.nl
           Scenario.grammar_body Scenario.nl Scenario.nl);
    vm_compute; reflexivity.
Defined.

Lemma upto_last_absent c s : occurs c s = false -> upto_last c s = None.
Proof.
  induction s as [|a r IH]; simpl; [reflexivity|].
  intros H. apply orb_false_iff in H. destruct H as [Ha Hr].
  rewrite (IH Hr), Ha. reflexivity.
Qed.

Lemma upto_last_closing c mid post :
  occurs c post = false ->
  upto_last c (mid ++ String c post) = Some (mid ++ String c "").
Proof.
  intros H. induction mid as [|a r IH]; simpl.
  - rewrite (upto_last_absent c post H), Ascii.eqb_refl. reflexivity.
  - rewrite IH. reflexivity.
Qed.

Lemma match_span_embedded o c pre mid post :
  occurs o pre = false -> occurs c post = false ->
  match_span o c (pre ++ String o (mid ++ String c post))
  = Some (String o (mid ++ String c "")).
Proof.
  intros Hpre Hpost. induction pre as [|a r IH]; simpl.
  - rewrite Ascii.eqb_refl, (upto_last_closing c mid post Hpost). reflexivity.
  - simpl in Hpre. apply orb_false_iff in Hpre. destruct Hpre as [Ha Hr].
    rewrite Ha. apply IH, Hr.
Qed.

(** X3.  An object inside prose is found. When neither the trimmed reply nor
    the cleaned one parses, and the cleaned reply is some text without [{],
    then [{], a middle, [}], and some text without [}], and the text from
    that brace to that brace parses, then the extraction returns its value.
    *)
Theorem embedded_object_extracted (JSON_parse : string -> option value)
  (raw pre mid post : string) (v : value) :
  clean (trim raw) = pre ++ String "{" (mid ++ String "}" post) ->
  occurs "{" pre = false -> occurs "}" post = false ->
  JSON_parse (trim raw) = None ->
  JSON_parse (clean (trim raw)) = None ->
  JSON_parse (String "{" (mid ++ "}")) = Some v ->
  safeJsonParse JSON_parse raw = Return v.
Proof.
  intros Hc Hpre Hpost H1 H2 H3.
  unfold safeJsonParse, try_return, try_match, parse.
  rewrite H1, H2, Hc, (match_span_embedded "{" "}" pre mid post Hpre Hpost), H3.
  reflexivity.
Qed.

(** A quiz of one question announced and followed by prose: the span of the
    braces comes before the span of the brackets, so the question itself is
    returned, not the array around it. *)
Lemma embedded_object_extracted_witness :
  safeJsonParse Reader.read Scenario.prose_quiz
  = Return (JObj [("question", JStr "a")]).
Proof.
  apply (embedded_object_extracted Reader.read Scenario.prose_quiz
           "Sure! Here is the quiz: ["
           (Reader.js_text "'question':'a'")
           "] Enjoy.");
    vm_compute; reflexivity.
Defined.

(** X4.  An array inside prose is found, when no object is. When neither the
    trimmed reply nor the cleaned one parses, the span of the braces of the
    cleaned reply is absent or does not parse, and the cleaned reply is some
    text without an opening bracket, then the bracket, a middle, the closing
    bracket, and some text without a closing bracket, and the text from the
    one bracket to the other parses, then the extraction returns its value.
    *)
Theorem embedded_array_extracted (JSON_parse : string -> option value)
  (raw pre mid post : string) (v : value) :
  clean (trim raw) = pre ++ String "[" (mid ++ String "]" post) ->
  occurs "[" pre = false -> occurs "]" post = false ->
  JSON_parse (trim raw) = None ->
  JSON_parse (clean (trim raw)) = None ->
  attempt JSON_parse (match_span "{" "}" (clean (trim raw))) = None ->
  JSON_parse (String "[" (mid ++ "]")) = Some v ->
  safeJsonParse JSON_parse raw = Return v.
Proof.
  intros Hc Hpre Hpost H1 H2 Hobj H3.
  unfold safeJsonParse, try_return, try_match, parse.
  rewrite H1, H2.
  unfold attempt in Hobj.
  destruct (match_span "{" "}" (clean (trim raw))) as [m|];
    [rewrite Hobj|];
    rewrite Hc, (match_span_embedded "[" "]" pre mid post Hpre Hpost), H3;
    reflexivity.
Qed.

(** Two scores inside a sentence. *)
Lemma embedded_array_extracted_witness :
  safeJsonParse Reader.read Scenario.prose_scores
  = Return (JArray [JNum (Finite 1); JNum (Finite 2)]).
Proof.
  apply (embedded_array_extracted Reader.read Scenario.prose_scores
           "The scores are " "1, 2" " today.");
    vm_compute; reflexivity.
Defined.

(* ------------------------------------------------------------------ *)
(** ** The extraction reads the reply *)

Lemma append_nil_r (s : string) : s ++ "" = s.
Proof. induction s as [|c r IH]; simpl; [|rewrite IH]; reflexivity. Qed.

Lemma append_assoc (a b c : string) : (a ++ b) ++ c = a ++ b ++ c.
Proof. induction a as [|x r IH]; simpl; [|rewrite IH]; reflexivity. Qed.

Lemma part_of_refl s : part_of s s.
Proof. exists "", "". simpl. rewrite append_nil_r. reflexivity. Qed.

Lemma part_of_trans a b c : part_of a b -> part_of b c -> part_of a c.
Proof.
  intros (p1 & q1 & ->) (p2 & q2 & ->).
  exists (p2 ++ p1), (q1 ++ q2). rewrite !append_assoc. reflexivity.
Qed.

Lemma part_of_suffix pre s : part_of s (pre ++ s).
Proof. exists pre, "". rewrite append_nil_r. reflexivity. Qed.

Lemma part_of_prefix s post : part_of s (s ++ post).
Proof. exists "", post. reflexivity. Qed.

Lemma part_of_cons c s raw : part_of s raw -> part_of s (String c raw).
Proof. intros (p & q & ->). exists (String c p), q. reflexivity. Qed.

Lemma trimStart_part s : part_of (trimStart s) s.
Proof.
  induction s as [|c r IH]; simpl; [apply part_of_refl|].
  destruct (is_space c); [apply part_of_cons, IH|apply part_of_refl].
Qed.

Lemma trimEnd_prefix s : exists post, s = trimEnd s ++ post.
Proof.
  induction s as [|c r [post IH]]; simpl; [exists ""; reflexivity|].
  destruct (trimEnd r) as [|c' r'] eqn:T.
  - destruct (is_space c).
    + exists (String c r). reflexivity.
    + exists r. reflexivity.
  - exists post. simpl. simpl in IH. rewrite <- IH. reflexivity.
Qed.

Lemma trimEnd_part s : part_of (trimEnd s) s.
Proof.
  destruct (trimEnd_prefix s) as [post H]. rewrite H at 2. apply part_of_prefix.
Qed.

Lemma trim_part s : part_of (trim s) s.
Proof.
  unfold trim. eapply part_of_trans; [apply trimEnd_part|apply trimStart_part].
Qed.

Lemma after_prefix_ci_part p s r :
  after_prefix_ci p s = Some r -> part_of r s.
Proof.
  revert s. induction p as [|a p IH]; intros s; simpl.
  - intros [= <-]. apply part_of_refl.
  - destruct s as [|b s]; [discriminate|].
    destruct (eq_ci a b); [|discriminate].
    intros H. apply part_of_cons, IH, H.
Qed.

Lemma strip_open_part p s : part_of (strip_open p s) s.
Proof.
  unfold strip_open. destruct (after_prefix_ci p s) as [r|] eqn:A.
  - eapply part_of_trans; [apply trimStart_part|].
    apply (after_prefix_ci_part p s r A).
  - apply part_of_refl.
Qed.

Lemma strip_close_prefix s : exists post, s = strip_close s ++ post.
Proof.
  induction s as [|c r [post IH]].
  - exists "". reflexivity.
  - unfold strip_close; fold strip_close.
    destruct (String.eqb (String c r) "```").
    + exists (String c r). reflexivity.
    + exists post. simpl. rewrite <- IH. reflexivity.
Qed.

Lemma strip_close_part s : part_of (strip_close s) s.
Proof.
  destruct (strip_close_prefix s) as [post H]. rewrite H at 2.
  apply part_of_prefix.
Qed.

Lemma clean_part s : part_of (clean s) s.
Proof.
  unfold clean.
  eapply part_of_trans; [apply trim_part|].
  eapply part_of_trans; [apply strip_close_part|].
  eapply part_of_trans; apply strip_open_part.
Qed.

Lemma upto_last_prefix c s m :
  upto_last c s = Some m -> exists post, s = m ++ post.
Proof.
  revert m. induction s as [|a r IH]; simpl; [discriminate|].
  intros m. destruct (upto_last c r) as [m'|].
  - intros [= <-]. destruct (IH m' eq_refl) as [post ->].
    exists post. reflexivity.
  - destruct (Ascii.eqb a c); [|discriminate].
    intros [= <-]. exists r. reflexivity.
Qed.

Lemma match_span_part o c s m : match_span o c s = Some m -> part_of m s.
Proof.
  induction s as [|a r IH]; simpl; [discriminate|].
  destruct (Ascii.eqb a o).
  - destruct (upto_last c r) as [m'|] eqn:U.
    + intros [= <-]. destruct (upto_last_prefix c r m' U) as [post ->].
      apply (part_of_prefix (String a m') post).
    + intros H. apply part_of_cons, IH, H.
  - intros H. apply part_of_cons, IH, H.
Qed.

(** X5.  The extraction invents nothing. A value it returns is what
    JSON.parse makes of a contiguous part of the reply; and when it throws,
    it throws its own error, and neither the trimmed reply nor the cleaned
    one parses. *)
Theorem extraction_reads_the_reply (JSON_parse : string -> option value)
  (raw : string) :
  match safeJsonParse JSON_parse raw with
  | Return v => exists s, part_of s raw /\ JSON_parse s = Some v
  | Throw e =>
      e = no_json
      /\ JSON_parse (trim raw) = None
      /\ JSON_parse (clean (trim raw)) = None
  end.
Proof.
  unfold safeJsonParse, try_return, try_match, parse.
  pose proof (trim_part raw) as P1.
  pose proof (part_of_trans _ _ _ (clean_part (trim raw)) P1) as P2.
  assert (S : forall o c m,
             match_span o c (clean (trim raw)) = Some m -> part_of m raw).
  { intros o c m M. exact (part_of_trans _ _ _ (match_span_part _ _ _ _ M) P2). }
  destruct (JSON_parse (trim raw)) as [v1|] eqn:H1; [simpl; eauto|].
  destruct (JSON_parse (clean (trim raw))) as [v2|] eqn:H2; [simpl; eauto|].
  destruct (match_span "{" "}" (clean (trim raw))) as [m|] eqn:M1;
    [pose proof (S _ _ _ M1); destruct (JSON_parse m) as [v3|] eqn:H3|];
    (destruct (match_span "[" "]" (clean (trim raw))) as [m'|] eqn:M2;
       [pose proof (S _ _ _ M2); destruct (JSON_parse m') as [v4|] eqn:H4|]);
    simpl; eauto.
Qed.

(* ------------------------------------------------------------------ *)
(** ** What every step of a handler keeps *)

Lemma extends_refl {R} (l : list R) : extends l l.
Proof. exists []. symmetry. apply app_nil_r. Qed.

Lemma extends_trans {R} (l1 l2 l3 : list R) :
  extends l1 l2 -> extends l2 l3 -> extends l1 l3.
Proof.
  intros [a ->] [b ->]. exists (a ++ b)%list. symmetry. apply app_assoc.
Qed.

Lemma extends_one {R} (l : list R) (x : R) : extends l (l ++ [x])%list.
Proof. exists [x]. reflexivity. Qed.

Lemma grows_refl d : grows d d.
Proof. constructor; try reflexivity; apply extends_refl. Qed.

Lemma grows_trans d1 d2 d3 : grows d1 d2 -> grows d2 d3 -> grows d1 d3.
Proof.
  intros [u1 l1 a1 b1 c1 e1 f1 g1] [u2 l2 a2 b2 c2 e2 f2 g2].
  constructor; try congruence; eapply extends_trans; eassumption.
Qed.

Lemma yields_ret {A} (a : A) (Q : A -> Prop) : Q a -> yields (ret a) Q.
Proof. intros H d a' [= <-]. exact H. Qed.

Lemma yields_throw {A} (e : exn) (Q : A -> Prop) : yields (throw e) Q.
Proof. intros d a [=]. Qed.

Lemma yields_bind {A B} (m : M A) (k : A -> M B) (Q : B -> Prop) :
  (forall a, yields (k a) Q) -> yields (bind m k) Q.
Proof.
  intros H d b. unfold bind, result_of.
  destruct (m d) as [[[a|e] d1] t1]; simpl; [|discriminate].
  specialize (H a d1 b). unfold result_of in H.
  destruct (k a d1) as [[o d2] t2]. exact H.
Qed.

Lemma yields_try_catch {A} (m : M A) (h : exn -> M A) (Q : A -> Prop) :
  yields m Q -> (forall e, yields (h e) Q) -> yields (try_catch m h) Q.
Proof.
  intros Hm Hh d a. unfold try_catch, result_of.
  specialize (Hm d a). unfold result_of in Hm.
  destruct (m d) as [[[a'|e] d1] t1]; simpl in *; [exact Hm|].
  specialize (Hh e d1 a). unfold result_of in Hh.
  destruct (h e d1) as [[o d2] t2]. exact Hh.
Qed.

Lemma returns_ret {A} (a : A) : returns (ret a).
Proof. intros d. exists a. reflexivity. Qed.

Lemma returns_bind {A B} (m : M A) (k : A -> M B) :
  returns m -> (forall a, returns (k a)) -> returns (bind m k).
Proof.
  intros Hm Hk d. unfold bind, result_of.
  destruct (Hm d) as [a Ha]. unfold result_of in Ha.
  destruct (m d) as [[o d1] t1]. simpl in Ha. subst o.
  destruct (Hk a d1) as [b Hb]. unfold result_of in Hb.
  destruct (k a d1) as [[o d2] t2]. simpl in *. eauto.
Qed.

Lemma returns_try_catch {A} (m : M A) (h : exn -> M A) :
  (forall e, returns (h e)) -> returns (try_catch m h).
Proof.
  intros Hh d. unfold try_catch, result_of.
  destruct (m d) as [[[a|e] d1] t1]; simpl; [eauto|].
  destruct (Hh e d1) as [a Ha]. unfold result_of in Ha.
  destruct (h e d1) as [[o d2] t2]. simpl in *. eauto.
Qed.

Lemma steady_ret {A} (E : env) (a : A) : steady E (ret a).
Proof. intros d. split; [apply grows_refl|reflexivity]. Qed.

Lemma steady_throw {A} (E : env) (e : exn) : steady E (@throw A e).
Proof. intros d. split; [apply grows_refl|reflexivity]. Qed.

Lemma steady_lift {A} (E : env) (o : outcome A) : steady E (lift o).
Proof. intros d. split; [apply grows_refl|reflexivity]. Qed.

Lemma steady_bind {A B} (E : env) (m : M A) (k : A -> M B) :
  steady E m -> (forall a, steady E (k a)) -> steady E (bind m k).
Proof.
  intros Hm Hk d. unfold bind, database_of, events_of.
  destruct (Hm d) as [G1 N1]. unfold database_of, events_of in G1, N1.
  destruct (m d) as [[[a|e] d1] t1]; simpl in *; [|split; assumption].
  destruct (Hk a d1) as [G2 N2]. unfold database_of, events_of in G2, N2.
  destruct (k a d1) as [[o d2] t2]. simpl in *. split.
  - eapply grows_trans; eassumption.
  - intros K. rewrite forallb_app, (N1 K), (N2 K). reflexivity.
Qed.

Lemma steady_try_catch {A} (E : env) (m : M A) (h : exn -> M A) :
  steady E m -> (forall e, steady E (h e)) -> steady E (try_catch m h).
Proof.
  intros Hm Hh d. unfold try_catch, database_of, events_of.
  destruct (Hm d) as [G1 N1]. unfold database_of, events_of in G1, N1.
  destruct (m d) as [[[a|e] d1] t1]; simpl in *; [split; assumption|].
  destruct (Hh e d1) as [G2 N2]. unfold database_of, events_of in G2, N2.
  destruct (h e d1) as [[o d2] t2]. simpl in *. split.
  - eapply grows_trans; eassumption.
  - intros K. rewrite forallb_app, (N1 K), (N2 K). reflexivity.
Qed.

Lemma steady_console_error E label e : steady E (console_error label e).
Proof. intros d. split; [apply grows_refl|reflexivity]. Qed.

Lemma returns_console_error label e : returns (console_error label e).
Proof. intros d. exists tt. reflexivity. Qed.

(** A persistence call is steady when what it does to the database is. *)
Lemma steady_prisma {A} E (c : call) (run : database -> option (A * database)) :
  (forall d a d', run d = Some (a, d') -> grows d d') ->
  steady E (prisma E c run).
Proof.
  intros H d. unfold prisma, database_of, events_of.
  destruct (rejects E c); simpl; [split; [apply grows_refl|reflexivity]|].
  destruct (run d) as [[a d']|] eqn:R; simpl;
    (split; [|reflexivity]); [eapply H; eassumption | apply grows_refl].
Qed.

Lemma steady_callGeminiJSON E p n : steady E (callGeminiJSON E p n).
Proof.
  intros d. unfold callGeminiJSON, generate, bind, emit, throw, ret, lift,
    database_of, events_of.
  destruct (GEMINI_API_KEY E); simpl.
  - destruct (generateContent E _) as [raw|]; simpl;
      (split; [apply grows_refl|discriminate]).
  - split; [apply grows_refl|reflexivity].
Qed.

Lemma steady_callGeminiText E p n : steady E (callGeminiText E p n).
Proof.
  intros d. unfold callGeminiText, generate, bind, emit, throw, ret,
    database_of, events_of.
  destruct (GEMINI_API_KEY E); simpl.
  - destruct (generateContent E _) as [raw|]; simpl;
      (split; [apply grows_refl|discriminate]).
  - split; [apply grows_refl|reflexivity].
Qed.

Lemma grows_with_lessons d l : grows d (with_lessons d (lessons d ++ [l])%list).
Proof. constructor; try reflexivity; try apply extends_refl; apply extends_one. Qed.

Lemma grows_with_quizzes d l : grows d (with_quizzes d (quizzes d ++ [l])%list).
Proof. constructor; try reflexivity; try apply extends_refl; apply extends_one. Qed.

Lemma grows_with_progress d l : grows d (with_progress d (progress d ++ [l])%list).
Proof. constructor; try reflexivity; try apply extends_refl; apply extends_one. Qed.

Lemma grows_with_practices d l : grows d (with_practices d (practices d ++ [l])%list).
Proof. constructor; try reflexivity; try apply extends_refl; apply extends_one. Qed.

Lemma grows_with_exchanges d l : grows d (with_exchanges d (exchanges d ++ [l])%list).
Proof. constructor; try reflexivity; try apply extends_refl; apply extends_one. Qed.

Lemma grows_with_pronunciations d l :
  grows d (with_pronunciations d (pronunciations d ++ [l])%list).
Proof. constructor; try reflexivity; try apply extends_refl; apply extends_one. Qed.

Ltac steady_call :=
  apply steady_prisma; intros ? ? ?;
  repeat match goal with
         | |- context [match ?x with _ => _ end] => destruct x
         end;
  intros [= <- <-] || discriminate || idtac;
  first [ apply grows_refl | apply grows_with_lessons | apply grows_with_quizzes
        | apply grows_with_progress | apply grows_with_practices
        | apply grows_with_exchanges | apply grows_with_pronunciations ].

Lemma steady_user_find E id : steady E (user_find E id).
Proof. unfold user_find. steady_call. Qed.

Lemma steady_language_find E id : steady E (language_find E id).
Proof. unfold language_find. steady_call. Qed.

Lemma steady_lesson_find E id : steady E (lesson_find E id).
Proof. unfold lesson_find. apply steady_prisma. intros d a d' [= <- <-]. apply grows_refl. Qed.

Lemma steady_lesson_find_quiz E id : steady E (lesson_find_quiz E id).
Proof. unfold lesson_find_quiz. apply steady_prisma. intros d a d' [= <- <-]. apply grows_refl. Qed.

Lemma steady_lesson_insert E a b c l v : steady E (lesson_insert E a b c l v).
Proof. unfold lesson_insert. steady_call. Qed.

Lemma steady_quiz_insert E a v : steady E (quiz_insert E a v).
Proof. unfold quiz_insert. steady_call. Qed.

Lemma steady_progress_insert E a b : steady E (progress_insert E a b).
Proof. unfold progress_insert. steady_call. Qed.

Lemma steady_practice_insert E a v : steady E (practice_insert E a v).
Proof. unfold practice_insert. steady_call. Qed.

Lemma steady_exchange_insert E a b c e : steady E (exchange_insert E a b c e).
Proof. unfold exchange_insert. steady_call. Qed.

Lemma steady_pronunciation_insert E a b c v :
  steady E (pronunciation_insert E a b c v).
Proof. unfold pronunciation_insert. steady_call. Qed.

(** The rules, applied until the steps of a handler are used up. *)
Ltac steady_steps :=
  cbv zeta;
  repeat first
    [ apply steady_ret | apply steady_throw | apply steady_lift
    | apply steady_console_error
    | apply steady_callGeminiJSON | apply steady_callGeminiText
    | apply steady_user_find | apply steady_language_find
    | apply steady_lesson_find | apply steady_lesson_find_quiz
    | apply steady_lesson_insert | apply steady_quiz_insert
    | apply steady_progress_insert | apply steady_practice_insert
    | apply steady_exchange_insert | apply steady_pronunciation_insert
    | apply steady_prisma; intros ? ? ?; discriminate
    | apply steady_bind; [|intros ?]
    | apply steady_try_catch; [|intros ?]
    | match goal with
      | |- steady _ (match ?x with _ => _ end) => destruct x
      end ].

Lemma steady_generateQuizInternal E id c n : steady E (generateQuizInternal E id c n).
Proof. unfold generateQuizInternal. steady_steps. Qed.

Lemma steady_generateLesson E req user : steady E (generateLesson E req user).
Proof.
  unfold generateLesson, lesson_document, auto_quiz, generateQuizInternal.
  steady_steps.
Qed.

Lemma steady_generateQuiz E req : steady E (generateQuiz E req).
Proof. unfold generateQuiz, generateQuizInternal. steady_steps. Qed.

Lemma steady_generateConversationPrompt E req user :
  steady E (generateConversationPrompt E req user).
Proof. unfold generateConversationPrompt. steady_steps. Qed.

Lemma steady_getConversationResponse E req user :
  steady E (getConversationResponse E req user).
Proof. unfold getConversationResponse. steady_steps. Qed.

Lemma steady_getPronunciationFeedback E req user :
  steady E (getPronunciationFeedback E req user).
Proof. unfold getPronunciationFeedback, pronunciation_document. steady_steps. Qed.

Lemma steady_getLessonContent E id : steady E (getLessonContent E id).
Proof. unfold getLessonContent. steady_steps. Qed.

Lemma steady_authenticateToken E a : steady E (authenticateToken E a).
Proof. unfold authenticateToken. steady_steps. Qed.

Lemma steady_router E a r : steady E (router E a r).
Proof.
  unfold router. apply steady_bind; [apply steady_authenticateToken|].
  intros [resp|user]; [apply steady_ret|].
  destruct r;
    first [ apply steady_generateLesson | apply steady_generateQuiz
          | apply steady_getLessonContent
          | apply steady_generateConversationPrompt
          | apply steady_getConversationResponse
          | apply steady_getPronunciationFeedback ].
Qed.

Ltac yields_steps :=
  cbv zeta;
  repeat first
    [ apply yields_ret
    | apply yields_throw
    | apply yields_bind; intros ?
    | apply yields_try_catch; [|intros ?]
    | match goal with
      | |- yields (match ?x with _ => _ end) _ => destruct x
      end ].

Ltac returns_handler :=
  apply returns_try_catch; intros ?;
  apply returns_bind; [apply returns_console_error | intros ?; apply returns_ret].

Lemma yields_generateLesson E req user :
  yields (generateLesson E req user) (fun r => In (status r) statuses).
Proof. unfold generateLesson. yields_steps; simpl; tauto. Qed.

Lemma yields_generateQuiz E req :
  yields (generateQuiz E req) (fun r => In (status r) statuses).
Proof. unfold generateQuiz. yields_steps; simpl; tauto. Qed.

Lemma yields_generateConversationPrompt E req user :
  yields (generateConversationPrompt E req user)
    (fun r => In (status r) statuses).
Proof. unfold generateConversationPrompt. yields_steps; simpl; tauto. Qed.

Lemma yields_getConversationResponse E req user :
  yields (getConversationResponse E req user)
    (fun r => In (status r) statuses).
Proof. unfold getConversationResponse. yields_steps; simpl; tauto. Qed.

Lemma yields_getPronunciationFeedback E req user :
  yields (getPronunciationFeedback E req user)
    (fun r => In (status r) statuses).
Proof. unfold getPronunciationFeedback. yields_steps; simpl; tauto. Qed.

Lemma yields_getLessonContent E id :
  yields (getLessonContent E id) (fun r => In (status r) statuses).
Proof. unfold getLessonContent. yields_steps; simpl; tauto. Qed.

Lemma returns_authenticateToken E a : returns (authenticateToken E a).
Proof.
  unfold authenticateToken. apply returns_try_catch. intros e.
  destruct e; try apply returns_ret;
    (apply returns_bind; [apply returns_console_error|intros ?; apply returns_ret]).
Qed.

Lemma returns_router E a r : returns (router E a r).
Proof.
  unfold router. apply returns_bind; [apply returns_authenticateToken|].
  intros [resp|user]; [apply returns_ret|].
  destruct r; [unfold generateLesson | unfold generateQuiz
              | unfold getLessonContent | unfold generateConversationPrompt
              | unfold getConversationResponse
              | unfold getPronunciationFeedback]; returns_handler.
Qed.

Lemma yields_bind_post {A B} (m : M A) (k : A -> M B) (P : A -> Prop)
  (Q : B -> Prop) :
  yields m P -> (forall a, P a -> yields (k a) Q) -> yields (bind m k) Q.
Proof.
  intros Hm H d b. unfold bind, result_of.
  specialize (Hm d). unfold result_of in Hm.
  destruct (m d) as [[[a|e] d1] t1]; simpl in *; [|discriminate].
  specialize (H a (Hm a eq_refl) d1 b). unfold result_of in H.
  destruct (k a d1) as [[o d2] t2]. exact H.
Qed.

Lemma yields_authenticateToken E a :
  yields (authenticateToken E a)
    (fun r => match r with
              | inl resp => In (status resp) [401; 403; 500]
              | inr _ => True
              end).
Proof.
  unfold authenticateToken. yields_steps; simpl; tauto.
Qed.

Lemma yields_router E a r :
  yields (router E a r) (fun resp => In (status resp) (403 :: statuses)).
Proof.
  unfold router.
  eapply yields_bind_post; [apply yields_authenticateToken|].
  intros [resp|user] H.
  - apply yields_ret. simpl in *. tauto.
  - assert (W : forall (m : M response),
              yields m (fun r => In (status r) statuses) ->
              yields m (fun r => In (status r) (403 :: statuses))).
    { intros m Hm d x Hx. right. exact (Hm d x Hx). }
    destruct r; apply W;
      first [ apply yields_generateLesson | apply yields_generateQuiz
            | apply yields_getLessonContent
            | apply yields_generateConversationPrompt
            | apply yields_getConversationResponse
            | apply yields_getPronunciationFeedback ].
Qed.

Lemma run_or_yields
  (P : database -> outcome response * database * list event -> Prop)
  (m : M response) (Q : response -> Prop) :
  yields m Q -> run_or P m Q.
Proof. intros H d a Ha. right. exact (H d a Ha). Qed.

Lemma run_or_try_catch
  (P : database -> outcome response * database * list event -> Prop)
  (m : M response) (h : exn -> M response)
  (Q : response -> Prop) :
  run_or P m Q -> (forall e, yields (h e) Q) -> run_or P (try_catch m h) Q.
Proof.
  intros Hm Hh d a. specialize (Hm d a). unfold try_catch, result_of in *.
  destruct (m d) as [[[a'|e] d1] t1]; simpl in *; [exact Hm|].
  intros Ha. right. specialize (Hh e d1 a). unfold result_of in Hh.
  destruct (h e d1) as [[o d2] t2]. exact (Hh Ha).
Qed.

Lemma run_or_no_effect_ret (a : response) (Q : response -> Prop) :
  run_or no_effect (ret a) Q.
Proof. intros d a' _. left. split; reflexivity. Qed.

(** A lookup, then a step that has no effect or yields [Q]. *)
Lemma run_or_lookup {A} E (c : call) (f : database -> A)
  (k : A -> M response) (Q : response -> Prop) :
  (forall a, run_or no_effect (k a) Q) ->
  run_or one_lookup (bind (prisma E c (fun d => Some (f d, d))) k) Q.
Proof.
  intros H d a. unfold bind, prisma, result_of.
  destruct (rejects E c); simpl; [discriminate|].
  specialize (H (f d) d a). unfold result_of in H.
  unfold one_lookup, no_effect, database_of, events_of in *.
  destruct (k (f d) d) as [[o d2] t2]. simpl in *.
  intros Ho. destruct (H Ho) as [[-> ->]|HQ]; [left|right; exact HQ].
  split; [reflexivity|]. exists c. reflexivity.
Qed.

Ltac solve_status :=
  unfold not_4xx, not_404; simpl; intuition discriminate.

Ltac no_effect_steps :=
  cbv zeta;
  repeat first
    [ apply run_or_no_effect_ret
    | apply run_or_try_catch; [|intros ?; yields_steps; solve_status]
    | match goal with
      | |- run_or _ (match ?x with _ => _ end) _ => destruct x
      end
    | apply run_or_yields; yields_steps; solve_status ].

Ltac lookup_steps :=
  cbv zeta;
  repeat first
    [ apply run_or_try_catch; [|intros ?; yields_steps; solve_status]
    | match goal with
      | |- run_or _ (match ?x with _ => _ end) _ => destruct x
      end
    | apply run_or_lookup; intros ?; no_effect_steps
    | apply run_or_yields; yields_steps; solve_status ].

Lemma generateLesson_4xx E req user :
  run_or no_effect (generateLesson E req user) not_4xx.
Proof. unfold generateLesson. no_effect_steps. Qed.

Lemma generateLesson_404 E req user :
  run_or one_lookup (generateLesson E req user) not_404.
Proof. unfold generateLesson, language_find. lookup_steps. Qed.

Lemma generateQuiz_4xx E req : run_or no_effect (generateQuiz E req) not_4xx.
Proof. unfold generateQuiz. no_effect_steps. Qed.

Lemma generateQuiz_404 E req : run_or one_lookup (generateQuiz E req) not_404.
Proof. unfold generateQuiz, lesson_find_quiz. lookup_steps. Qed.

Lemma generateConversationPrompt_4xx E req user :
  run_or no_effect (generateConversationPrompt E req user) not_4xx.
Proof. unfold generateConversationPrompt. no_effect_steps. Qed.

Lemma generateConversationPrompt_404 E req user :
  run_or one_lookup (generateConversationPrompt E req user) not_404.
Proof. unfold generateConversationPrompt, language_find. lookup_steps. Qed.

Lemma getConversationResponse_4xx E req user :
  run_or no_effect (getConversationResponse E req user) not_4xx.
Proof. unfold getConversationResponse. no_effect_steps. Qed.

Lemma getConversationResponse_404 E req user :
  run_or one_lookup (getConversationResponse E req user) not_404.
Proof. unfold getConversationResponse, language_find. lookup_steps. Qed.

Lemma getPronunciationFeedback_4xx E req user :
  run_or no_effect (getPronunciationFeedback E req user) not_4xx.
Proof. unfold getPronunciationFeedback. no_effect_steps. Qed.

Lemma getPronunciationFeedback_404 E req user :
  run_or one_lookup (getPronunciationFeedback E req user) not_404.
Proof. unfold getPronunciationFeedback, language_find. lookup_steps. Qed.

Lemma getLessonContent_4xx E id :
  run_or no_effect (getLessonContent E id) not_4xx.
Proof. unfold getLessonContent. no_effect_steps. Qed.

Lemma getLessonContent_404 E id :
  run_or one_lookup (getLessonContent E id) not_404.
Proof. unfold getLessonContent, lesson_find_quiz. lookup_steps. Qed.

(** X6.  Client errors leave no trace. Whatever the route: a handler that
    answers 400 or 401 has done nothing at all (the database is as it was,
    no persistence call, no call of the model, no log line); a handler that
    answers 404 has made one persistence call, a lookup that was carried
    out, and nothing else. *)
Theorem client_errors_leave_no_trace (E : env) (r : route)
  (user : option User) (d : database) (resp : response) :
  result_of (handler E r user d) = Return resp ->
  (status resp = 400 \/ status resp = 401 -> no_effect d (handler E r user d))
  /\ (status resp = 404 -> one_lookup d (handler E r user d)).
Proof.
  intros H. split.
  - intros Hs.
    assert (R : run_or no_effect (handler E r user) not_4xx).
    { destruct r; simpl;
        first [ apply generateLesson_4xx | apply generateQuiz_4xx
              | apply getLessonContent_4xx
              | apply generateConversationPrompt_4xx
              | apply getConversationResponse_4xx
              | apply getPronunciationFeedback_4xx ]. }
    destruct (R d resp H) as [Hn|Hq]; [exact Hn|].
    exfalso. apply Hq. destruct Hs as [-> | ->]; simpl; tauto.
  - intros Hs.
    assert (R : run_or one_lookup (handler E r user) not_404).
    { destruct r; simpl;
        first [ apply generateLesson_404 | apply generateQuiz_404
              | apply getLessonContent_404
              | apply generateConversationPrompt_404
              | apply getConversationResponse_404
              | apply getPronunciationFeedback_404 ]. }
    destruct (R d resp H) as [Hn|Hq]; [exact Hn|].
    exfalso. apply Hq, Hs.
Qed.

(** A quiz request without a lessonId (400), and the fetch of a lesson that
    does not exist (404). *)
Lemma client_errors_leave_no_trace_witness :
  no_effect Sample.empty
    (handler (Sample.deployment true Sample.unreachable)
       (generate_quiz Scenario.no_lesson_named) None Sample.empty)
  /\ one_lookup Sample.empty
       (handler (Sample.deployment true Sample.unreachable)
          (lesson_by_id "l9") None Sample.empty).
Proof.
  split.
  - apply (client_errors_leave_no_trace
             (Sample.deployment true Sample.unreachable)
             (generate_quiz Scenario.no_lesson_named) None Sample.empty
             (failure 400 "message" "lessonId is required")).
    + reflexivity.
    + left. reflexivity.
  - apply (client_errors_leave_no_trace
             (Sample.deployment true Sample.unreachable)
             (lesson_by_id "l9") None Sample.empty
             (failure 404 "message" "Lesson not found")).
    + reflexivity.
    + reflexivity.
Defined.

Lemma try_catch_logged (m : M response) (label : string)
  (g : exn -> response) (d : database) (resp : response) :
  yields m (fun r => status r <> 500) ->
  result_of (try_catch m (fun error =>
                            bind (console_error label error)
                                   (fun _ => ret (g error))) d)
    = Return resp ->
  status resp = 500 ->
  exists e t,
    result_of (m d) = Throw e
    /\ events_of (try_catch m (fun error =>
                                 bind (console_error label error)
                                   (fun _ => ret (g error))) d)
       = (t ++ [ConsoleError label e])%list.
Proof.
  intros Hm. specialize (Hm d).
  unfold try_catch, bind, console_error, emit, ret, result_of, events_of in *.
  destruct (m d) as [[[a|e] d1] t1]; simpl in *.
  - intros [= <-] Hs. exfalso. exact (Hm a eq_refl Hs).
  - intros _ _. exists e, t1. split; reflexivity.
Qed.

Ltac not_500 := yields_steps; simpl; discriminate.

(** X7.  Server errors are logged. Whatever the route: when a handler
    answers 500, the last thing it did was to log the error it caught, under
    the label of that handler. *)
Theorem server_errors_are_logged (E : env) (r : route) (user : option User)
  (d : database) (resp : response) :
  result_of (handler E r user d) = Return resp ->
  status resp = 500 ->
  exists e t,
    events_of (handler E r user d) = (t ++ [ConsoleError (log_label r) e])%list.
Proof.
  intros H Hs.
  destruct r; simpl in *;
    [ unfold generateLesson in * | unfold generateQuiz in *
    | unfold getLessonContent in * | unfold generateConversationPrompt in *
    | unfold getConversationResponse in *
    | unfold getPronunciationFeedback in * ];
    (eapply try_catch_logged in H; [| not_500 | exact Hs]);
    destruct H as (e & t & _ & Hev); exists e, t; exact Hev.
Qed.

(** A lesson request on a deployment whose database stores no lesson. *)
Lemma server_errors_are_logged_witness :
  exists e t,
    events_of (handler
                 (Sample.deployment_rejecting Scenario.lesson_table_down true
                    (Sample.always Sample.fenced_grammar))
                 (generate_lesson Sample.lesson_request) (Some Sample.ana)
                 Sample.empty)
    = (t ++ [ConsoleError "Error generating lesson:" e])%list.
Proof.
  apply (server_errors_are_logged
           (Sample.deployment_rejecting Scenario.lesson_table_down true
              (Sample.always Sample.fenced_grammar))
           (generate_lesson Sample.lesson_request) (Some Sample.ana)
           Sample.empty
           (failure 500 "message" "Error generating lesson")).
  - vm_compute. reflexivity.
  - reflexivity.
Defined.

(** X8.  Every request is answered. Whatever the route, the request, the
    user, the database and the deployment, the handler returns a response
    and throws nothing, with one of the statuses 200, 400, 401, 404 and 500;
    so does the router, whose answer can also have the status 403 of the
    middleware. *)
Theorem handlers_always_answer (E : env) (r : route) (d : database) :
  (forall user,
     exists resp,
       result_of (handler E r user d) = Return resp
       /\ In (status resp) [200; 400; 401; 404; 500])
  /\ (forall authorization,
        exists resp,
          result_of (router E authorization r d) = Return resp
          /\ In (status resp) [200; 400; 401; 403; 404; 500]).
Proof.
  split.
  - intros user.
    assert (R : returns (handler E r user)).
    { destruct r; simpl;
        [ unfold generateLesson | unfold generateQuiz
        | unfold getLessonContent | unfold generateConversationPrompt
        | unfold getConversationResponse
        | unfold getPronunciationFeedback ]; returns_handler. }
    destruct (R d) as [resp Hr]. exists resp. split; [exact Hr|].
    revert Hr. destruct r; simpl;
      first [ apply yields_generateLesson | apply yields_generateQuiz
            | apply yields_getLessonContent
            | apply yields_generateConversationPrompt
            | apply yields_getConversationResponse
            | apply yields_getPronunciationFeedback ].
  - intros authorization.
    destruct (returns_router E authorization r d) as [resp Hr].
    exists resp. split; [exact Hr|].
    pose proof (yields_router E authorization r d resp Hr) as H.
    simpl in *. tauto.
Qed.

Lemma steady_handler E r user : steady E (handler E r user).
Proof.
  destruct r; simpl;
    first [ apply steady_generateLesson | apply steady_generateQuiz
          | apply steady_getLessonContent
          | apply steady_generateConversationPrompt
          | apply steady_getConversationResponse
          | apply steady_getPronunciationFeedback ].
Qed.

(** X9.  No row is lost or changed. After any request, through the router or
    at a handler, the users and the languages are the ones before, and each
    of the other tables is the table before with rows added at its end. *)
Theorem tables_only_grow (E : env) (r : route) (d : database) :
  (forall user, grows d (database_of (handler E r user d)))
  /\ (forall authorization,
        grows d (database_of (router E authorization r d))).
Proof.
  split.
  - intros user. apply steady_handler.
  - intros authorization. apply steady_router.
Qed.

(** X10.  Without a key the model is never called. When GEMINI_API_KEY is
    not set, no run of a handler or of the router contains a call of the
    model, whatever the route and the request. *)
Theorem no_key_no_model_call (E : env) (r : route) (d : database) :
  GEMINI_API_KEY E = false ->
  (forall user,
     forallb (fun e => negb (is_model e)) (events_of (handler E r user d))
     = true)
  /\ (forall authorization,
        forallb (fun e => negb (is_model e))
          (events_of (router E authorization r d)) = true).
Proof.
  intros K. split.
  - intros user. apply steady_handler, K.
  - intros authorization. apply steady_router, K.
Qed.

(** A lesson request of Ana on a deployment without a key. *)
Lemma no_key_no_model_call_witness :
  forallb (fun e => negb (is_model e))
    (events_of (router (Sample.deployment false (Sample.always Sample.fenced_grammar))
                  Scenario.bearer (generate_lesson Sample.lesson_request)
                  Sample.empty)) = true.
Proof.
  apply (no_key_no_model_call
           (Sample.deployment false (Sample.always Sample.fenced_grammar))
           (generate_lesson Sample.lesson_request) Sample.empty).
  reflexivity.
Defined.

(* ------------------------------------------------------------------ *)
(** ** What the handlers ask of a request *)

Lemma try_catch_ret {A} (a : A) (h : exn -> M A) (d : database) :
  try_catch (ret a) h d = (Return a, d, []).
Proof. reflexivity. Qed.




(* ------------------------------------------------------------------ *)
(** ** Repair, replies and round trips *)

Lemma default_property_good k bad dflt doc doc' :
  bad (Some dflt) = false ->
  default_property k bad dflt doc = Return doc' ->
  bad (field doc' k) = false.
Proof.
  intros Hd. unfold default_property.
  destruct (get doc k) as [v|] eqn:G; [|discriminate].
  apply get_field in G. subst v.
  destruct (bad (field doc k)) eqn:B.
  - intros H. rewrite (field_set_same _ _ _ _ H). exact Hd.
  - intros [= <-]. exact B.
Qed.

Lemma default_property_keeps k bad dflt doc :
  bad None = true ->
  bad (field doc k) = false ->
  default_property k bad dflt doc = Return doc.
Proof.
  intros Hn Hg. unfold default_property.
  destruct doc; simpl in *; try congruence; rewrite Hg; reflexivity.
Qed.

Lemma default_property_object k bad dflt doc :
  object_like doc = true ->
  exists doc', default_property k bad dflt doc = Return doc'
               /\ object_like doc' = true.
Proof.
  unfold default_property.
  destruct doc; simpl; try discriminate; intros _;
    match goal with |- context [if ?b then _ else _] => destruct b end;
    eexists; split; reflexivity.
Qed.

Lemma default_property_primitive k bad dflt doc :
  bad None = true ->
  object_like doc = false ->
  default_property k bad dflt doc = Throw TypeError.
Proof.
  intros Hn. unfold default_property.
  destruct doc; simpl; try discriminate; intros _; try reflexivity;
    rewrite Hn; reflexivity.
Qed.

Lemma repair_steps doc fb :
  repair doc = Return fb ->
  exists d1 d2 d3,
    default_property "accuracy" bad_accuracy (JNum n0_7) doc = Return d1
    /\ default_property "feedback" (fun v => negb (is_string v))
         (JStr "Good attempt—keep practicing!") d1 = Return d2
    /\ default_property "suggestions" (fun v => negb (isArray v))
         (JArray []) d2 = Return d3
    /\ default_property "phonemes" (fun v => negb (isArray v))
         (JArray []) d3 = Return fb.
Proof.
  unfold repair, and_then.
  destruct (default_property "accuracy" _ _ doc) as [d1|]; [|discriminate].
  destruct (default_property "feedback" _ _ d1) as [d2|] eqn:S2;
    [|discriminate].
  destruct (default_property "suggestions" _ _ d2) as [d3|] eqn:S3;
    [|discriminate].
  intros H. exists d1, d2, d3. auto.
Qed.

Lemma repair_well_shaped doc fb :
  repair doc = Return fb -> well_shaped fb = true.
Proof.
  intros H. destruct (repair_steps doc fb H) as (d1 & d2 & d3 & S1 & S2 & S3 & S4).
  pose proof (default_property_good _ _ _ _ _ eq_refl S1) as G1.
  pose proof (default_property_good _ _ _ _ _ eq_refl S2) as G2.
  pose proof (default_property_good _ _ _ _ _ eq_refl S3) as G3.
  pose proof (default_property_good _ _ _ _ _ eq_refl S4) as G4.
  cbv beta in *.
  unfold well_shaped.
  rewrite (default_property_other "accuracy" "phonemes" _ _ _ _ eq_refl S4).
  rewrite (default_property_other "accuracy" "suggestions" _ _ _ _ eq_refl S3).
  rewrite (default_property_other "accuracy" "feedback" _ _ _ _ eq_refl S2).
  rewrite (default_property_other "feedback" "phonemes" _ _ _ _ eq_refl S4).
  rewrite (default_property_other "feedback" "suggestions" _ _ _ _ eq_refl S3).
  rewrite (default_property_other "suggestions" "phonemes" _ _ _ _ eq_refl S4).
  rewrite G1.
  apply negb_false_iff in G2, G3, G4. rewrite G2, G3, G4. reflexivity.
Qed.

Lemma well_shaped_kept doc : well_shaped doc = true -> repair doc = Return doc.
Proof.
  unfold well_shaped. rewrite !andb_true_iff.
  intros [[[H1 H2] H3] H4]. apply negb_true_iff in H1.
  unfold repair, and_then.
  rewrite (default_property_keeps "accuracy" bad_accuracy _ doc eq_refl H1).
  rewrite (default_property_keeps "feedback" _ _ doc eq_refl)
    by (rewrite H2; reflexivity).
  rewrite (default_property_keeps "suggestions" _ _ doc eq_refl)
    by (rewrite H3; reflexivity).
  apply default_property_keeps; [reflexivity|rewrite H4; reflexivity].
Qed.

(** X12.  The repair of a pronunciation document. When the repair returns,
    the result passes the four checks (accuracy a number from 0 to 1,
    feedback a string, suggestions and phonemes arrays); repairing it again
    changes nothing; every property but those four is the one of the
    document; and a document that passed the checks already is returned as
    it is. *)
Theorem repair_shapes_once (doc fb : value) :
  repair doc = Return fb ->
  well_shaped fb = true
  /\ repair fb = Return fb
  /\ (forall k,
        In k ["accuracy"; "feedback"; "suggestions"; "phonemes"] \/
        field fb k = field doc k)
  /\ (well_shaped doc = true -> fb = doc).
Proof.
  intros H. pose proof (repair_well_shaped doc fb H) as W.
  split; [exact W|]. split; [apply well_shaped_kept, W|]. split.
  - intros k.
    destruct (String.eqb k "accuracy") eqn:E1;
      [apply String.eqb_eq in E1; subst; simpl; tauto|].
    destruct (String.eqb k "feedback") eqn:E2;
      [apply String.eqb_eq in E2; subst; simpl; tauto|].
    destruct (String.eqb k "suggestions") eqn:E3;
      [apply String.eqb_eq in E3; subst; simpl; tauto|].
    destruct (String.eqb k "phonemes") eqn:E4;
      [apply String.eqb_eq in E4; subst; simpl; tauto|].
    right.
    destruct (repair_steps doc fb H) as (d1 & d2 & d3 & S1 & S2 & S3 & S4).
    rewrite (default_property_other k _ _ _ _ _ E4 S4).
    rewrite (default_property_other k _ _ _ _ _ E3 S3).
    rewrite (default_property_other k _ _ _ _ _ E2 S2).
    apply (default_property_other k _ _ _ _ _ E1 S1).
  - intros Wd. rewrite (well_shaped_kept doc Wd) in H. congruence.
Qed.

(** A document with an accuracy of 1.5 and a note. *)
Lemma repair_shapes_once_witness :
  let doc := JObj [("accuracy", JNum (Finite (3 # 2))); ("note", JStr "ok")] in
  let fb :=
    JObj [("accuracy", JNum n0_7); ("note", JStr "ok");
          ("feedback", JStr "Good attempt—keep practicing!");
          ("suggestions", JArray []); ("phonemes", JArray [])] in
  well_shaped fb = true
  /\ repair fb = Return fb
  /\ (forall k,
        In k ["accuracy"; "feedback"; "suggestions"; "phonemes"] \/
        field fb k = field doc k)
  /\ (well_shaped doc = true -> fb = doc).
Proof.
  intros doc fb. apply (repair_shapes_once doc fb). reflexivity.
Defined.

Lemma repair_needs_an_object (doc : value) :
  if object_like doc
  then exists fb, repair doc = Return fb
  else repair doc = Throw TypeError.
Proof.
  destruct (object_like doc) eqn:O.
  - unfold repair, and_then.
    destruct (default_property_object "accuracy" bad_accuracy (JNum n0_7)
                doc O) as (d1 & -> & O1).
    destruct (default_property_object "feedback"
                (fun v => negb (is_string v))
                (JStr "Good attempt—keep practicing!") d1 O1)
      as (d2 & -> & O2).
    destruct (default_property_object "suggestions"
                (fun v => negb (isArray v)) (JArray []) d2 O2)
      as (d3 & -> & O3).
    destruct (default_property_object "phonemes"
                (fun v => negb (isArray v)) (JArray []) d3 O3)
      as (d4 & -> & _).
    eauto.
  - unfold repair, and_then.
    rewrite (default_property_primitive "accuracy" bad_accuracy _ doc eq_refl O).
    reflexivity.
Qed.

Lemma split_space_no_space t :
  occurs " " t = false -> split_space t = [t].
Proof.
  induction t as [|c r IH]; simpl; [reflexivity|].
  intros H. apply orb_false_iff in H. destruct H as [Hc Hr].
  rewrite Hc, (IH Hr). reflexivity.
Qed.

Lemma split_space_word w r :
  occurs " " w = false ->
  split_space (w ++ String " " r) = w :: split_space r.
Proof.
  induction w as [|c w IH]; simpl; [reflexivity|].
  intros H. apply orb_false_iff in H. destruct H as [Hc Hr].
  rewrite Hc, (IH Hr). reflexivity.
Qed.

(** X13.  The sound of the fallback phoneme, [targetText.split(' ')[0] ||
    targetText]: a text without a space is taken whole; of a text that
    starts with a word and a space, the word; and a text that starts with a
    space is taken whole again, the first piece being empty. *)
Theorem first_word_cases :
  (forall t, occurs " " t = false -> first_word t = t)
  /\ (forall c w r,
        occurs " " (String c w) = false ->
        first_word (String c w ++ String " " r) = String c w)
  /\ (forall r, first_word (String " " r) = String " " r).
Proof.
  unfold first_word. split; [|split].
  - intros t H. rewrite (split_space_no_space t H). destruct t; reflexivity.
  - intros c w r H. rewrite (split_space_word _ r H). reflexivity.
  - intros r. reflexivity.
Qed.

(** One word, two words, and a word after a space. *)
Lemma first_word_cases_witness :
  first_word "Hola" = "Hola"
  /\ first_word "Hola amigo" = "Hola"
  /\ first_word " Hola" = " Hola".
Proof.
  destruct first_word_cases as (H1 & H2 & H3).
  split; [|split].
  - apply (H1 "Hola"). reflexivity.
  - apply (H2 "H"%char "ola" "amigo"). reflexivity.
  - apply (H3 "Hola").
Defined.

Lemma pronunciation_document_of E language level targetText d doc :
  result_of (callGeminiJSON E
               (CoachPrompt (language_name language) level targetText)
               1800 d) = Return doc ->
  pronunciation_document E language level targetText d
  = match repair doc with
    | Return fb =>
        (Return fb, d,
         events_of (callGeminiJSON E
                      (CoachPrompt (language_name language) level targetText)
                      1800 d))
    | Throw e =>
        (Return (pronunciation_fallback targetText), d,
         (events_of (callGeminiJSON E
                       (CoachPrompt (language_name language) level targetText)
                       1800 d)
            ++ [ConsoleError "Pronunciation JSON generation failed:" e])%list)
    end.
Proof.
  unfold pronunciation_document, try_catch, bind, lift, console_error, emit,
    ret, result_of, events_of.
  pose proof (callGeminiJSON_database E
                (CoachPrompt (language_name language) level targetText)
                1800 d) as Hd.
  unfold database_of in Hd.
  destruct (callGeminiJSON E _ 1800 d) as [[o d1] t1]. simpl in *. subst d1.
  intros ->. destruct (repair doc); simpl; rewrite ?app_nil_r; reflexivity.
Qed.

(** X14.  A reply that is JSON but carries no properties. When the
    extraction returns a document for the coach prompt: for an object or an
    array the feedback is the repaired document, again an object or an
    array; for anything else (null, a number, a string, a boolean) the
    repair throws a TypeError, which is logged, and the feedback is the
    fallback. *)
Theorem reply_must_be_an_object (E : env) (language : Language)
  (level : Level) (targetText : string) (d : database) (doc : value) :
  result_of (callGeminiJSON E
               (CoachPrompt (language_name language) level targetText)
               1800 d) = Return doc ->
  if object_like doc
  then exists fb,
         result_of (pronunciation_document E language level targetText d)
           = Return fb
         /\ repair doc = Return fb
         /\ object_like fb = true
  else result_of (pronunciation_document E language level targetText d)
         = Return (pronunciation_fallback targetText)
       /\ In (ConsoleError "Pronunciation JSON generation failed:" TypeError)
            (events_of (pronunciation_document E language level targetText d)).
Proof.
  intros H. rewrite (pronunciation_document_of E language level targetText d doc H).
  pose proof (repair_needs_an_object doc) as R.
  destruct (object_like doc) eqn:O.
  - destruct R as [fb Hfb]. rewrite Hfb. exists fb. repeat split.
    destruct (repair_steps doc fb Hfb) as (d1 & d2 & d3 & _ & _ & _ & S4).
    unfold default_property in S4.
    destruct (get d3 "phonemes") as [v|] eqn:G; [|discriminate].
    destruct (negb (isArray v)) eqn:B.
    + destruct d3; simpl in S4; try discriminate; injection S4 as <-; reflexivity.
    + injection S4 as <-. unfold negb in B. destruct (isArray v) eqn:I; [|discriminate].
      apply get_field in G. subst v.
      destruct d3; simpl in *; try discriminate; reflexivity.
  - rewrite R. split; [reflexivity|].
    unfold events_of. simpl. apply in_or_app. right. now left.
Qed.

(** The model answers [null]. *)
Lemma reply_must_be_an_object_witness :
  result_of (pronunciation_document
               (Sample.deployment true (Sample.always "null"))
               Sample.spanish BEGINNER "Hola amigo" Sample.empty)
  = Return (pronunciation_fallback "Hola amigo")
  /\ In (ConsoleError "Pronunciation JSON generation failed:" TypeError)
       (events_of (pronunciation_document
                     (Sample.deployment true (Sample.always "null"))
                     Sample.spanish BEGINNER "Hola amigo" Sample.empty)).
Proof.
  apply (reply_must_be_an_object
           (Sample.deployment true (Sample.always "null"))
           Sample.spanish BEGINNER "Hola amigo" Sample.empty JNull).
  vm_compute. reflexivity.
Defined.

(** X15.  The reply to a message. For a request that passes the checks of
    getConversationResponse: when the key is missing or the endpoint rejects
    the call, the answer is 500 and the database is as it was; when the
    model answers, the response carries the text of the model as it is, and
    the exchange is stored with the message and that text, or, when storing
    fails, the failure is logged and the response is the same. *)
Theorem conversation_reply (E : env) (req : MessageRequest.t) (user : User)
  (d : database) (languageId message userId : string) (language : Language) :
  message_request_admitted E req user d languageId message userId language ->
  let r := getConversationResponse E req (Some user) d in
  (GEMINI_API_KEY E = false
   \/ generateContent E (assistant_generation language message) = None ->
   status_of r = Some 500 /\ database_of r = d)
  /\ (forall text,
        GEMINI_API_KEY E = true ->
        generateContent E (assistant_generation language message)
          = Some text ->
        result_of r
          = Return (success [("data", JObj [("response", JStr text)])])
        /\ match rejects E (conversationExchange_create userId languageId),
                 fresh E TConversationExchange exchange_id (exchanges d) with
           | false, Some id =>
               database_of r
               = with_exchanges d
                   (exchanges d
                      ++ [exchange_row id userId languageId message text])%list
           | _, _ =>
               database_of r = d
               /\ In (ConsoleError "Error saving conversation:" PrismaError)
                    (events_of r)
           end).
Proof.
  intros [H0 N0 H1 N1 H2 N2 Hr Hl].
  destruct (nonempty_string _ N0) as (c0 & l0 & ->).
  destruct (nonempty_string _ N1) as (c1 & l1 & ->).
  destruct (nonempty_string _ N2) as (c2 & l2 & ->).
  cbv zeta. unfold status_of, result_of, database_of, events_of.
  unfold getConversationResponse, try_catch, bind, language_find, prisma,
    callGeminiText, generate, exchange_insert, console_error, emit, ret, throw.
  rewrite H0, H1. simpl. rewrite H2, Hr, Hl.
  fold (assistant_generation language (String c1 l1)).
  split.
  - intros [K|G].
    + rewrite K. simpl. split; reflexivity.
    + destruct (GEMINI_API_KEY E); simpl; [|split; reflexivity].
      rewrite G. simpl. split; reflexivity.
  - intros text K G. rewrite K. simpl. rewrite G. simpl.
    unfold prisma.
    destruct (rejects E (conversationExchange_create _ _)); simpl.
    + repeat split. auto.
    + destruct (fresh E TConversationExchange exchange_id (exchanges d));
        simpl; repeat split. auto.
Qed.

Lemma sample_message_request_admitted (reply : generation -> option string) :
  message_request_admitted (Sample.deployment true reply)
    Scenario.message_request Sample.ana Sample.empty "es" "Hola" "u1"
    Sample.spanish.
Proof. constructor; try reflexivity; discriminate. Qed.

(** Ana writes [Hola]; the model answers. *)
Lemma conversation_reply_witness :
  result_of (getConversationResponse
               (Sample.deployment true (Sample.always "Hola, que tal?"))
               Scenario.message_request (Some Sample.ana) Sample.empty)
  = Return (success [("data", JObj [("response", JStr "Hola, que tal?")])])
  /\ database_of (getConversationResponse
                    (Sample.deployment true (Sample.always "Hola, que tal?"))
                    Scenario.message_request (Some Sample.ana) Sample.empty)
     = with_exchanges Sample.empty
         [exchange_row "exchange-0" "u1" "es" "Hola" "Hola, que tal?"].
Proof.
  destruct (conversation_reply
              (Sample.deployment true (Sample.always "Hola, que tal?"))
              Scenario.message_request Sample.ana Sample.empty "es" "Hola"
              "u1" Sample.spanish
              (sample_message_request_admitted
                 (Sample.always "Hola, que tal?"))) as [_ H].
  exact (H "Hola, que tal?" eq_refl eq_refl).
Defined.

(** X16.  The conversation scenario. For a request that reaches the end of
    generateConversationPrompt, the practice row stored for the user holds
    the languageId, the level, the scenario of the request (or [General
    conversation]) and the content; the response carries the same record
    with the id of the row; and the content is the extracted document, or
    the fallback for the code of the language when generation or extraction
    fails. *)
Theorem conversation_scenario_stored (E : env) (req : ConversationRequest.t)
  (user : User) (d : database) (languageId userId : string) (lv : Level)
  (language : Language) (pid : string) :
  conversation_request_served E req user d languageId userId lv language pid ->
  exists c t,
    generateConversationPrompt E req (Some user) d
    = (Return (success
                 [("conversation",
                   JObj (("id", JStr pid)
                           :: conversation_record req languageId lv c))]),
       with_practices d
         (practices d
            ++ [{| practice_id := pid; practice_userId := userId;
                   transcript :=
                     JObj (conversation_record req languageId lv c) |}])%list,
       t)
    /\ c = match result_of (callGeminiJSON E
                              (conversation_prompt_of req lv language)
                              2400 d) with
           | Return doc => doc
           | Throw _ => conversation_fallback (language_code language)
           end.
Proof.
  intros [H0 N0 H1 H2 N2 Hr Hl Hc Hf].
  destruct (nonempty_string _ N0) as (c0 & l0 & ->).
  destruct (nonempty_string _ N2) as (c2 & l2 & ->).
  unfold generateConversationPrompt, try_catch. cbv zeta.
  rewrite H0, H1. cbn [option_map]. rewrite H2. cbv beta iota.
  unfold bind at 1. unfold language_find, prisma at 1. rewrite Hr, Hl.
  cbv beta iota. unfold bind at 1.
  fold (conversation_prompt_of req lv language).
  destruct (callGeminiJSON_run E (conversation_prompt_of req lv language)
              2400 d) as (o & t & Hrun & _).
  unfold try_catch. rewrite Hrun. unfold result_of. cbn [fst].
  unfold bind, console_error, emit, ret, practice_insert, prisma.
  destruct o as [doc|e]; cbv beta iota; rewrite Hc, Hf;
    eexists _, _; split; reflexivity.
Qed.

Lemma sample_conversation_request_served (reply : generation -> option string) :
  conversation_request_served (Sample.deployment true reply)
    Scenario.conversation_request Sample.ana Sample.empty "es" "u1" BEGINNER
    Sample.spanish "practice-0".
Proof. constructor; try reflexivity; discriminate. Qed.

(** A conversation at the market, the model refusing to answer in JSON. *)
Lemma conversation_scenario_stored_witness :
  exists c t,
    generateConversationPrompt
      (Sample.deployment true (Sample.always Sample.refusal))
      Scenario.conversation_request (Some Sample.ana) Sample.empty
    = (Return (success
                 [("conversation",
                   JObj (("id", JStr "practice-0")
                           :: conversation_record Scenario.conversation_request
                                "es" BEGINNER c))]),
       with_practices Sample.empty
         (practices Sample.empty
            ++ [{| practice_id := "practice-0"; practice_userId := "u1";
                   transcript :=
                     JObj (conversation_record Scenario.conversation_request
                             "es" BEGINNER c) |}])%list,
       t)
    /\ c = match result_of
                   (callGeminiJSON
                      (Sample.deployment true (Sample.always Sample.refusal))
                      (conversation_prompt_of Scenario.conversation_request
                         BEGINNER Sample.spanish)
                      2400 Sample.empty) with
           | Return doc => doc
           | Throw _ => conversation_fallback (language_code Sample.spanish)
           end.
Proof.
  exact (conversation_scenario_stored
           (Sample.deployment true (Sample.always Sample.refusal))
           Scenario.conversation_request Sample.ana Sample.empty "es" "u1"
           BEGINNER Sample.spanish "practice-0"
           (sample_conversation_request_served (Sample.always Sample.refusal))).
Defined.

Lemma filter_one_more {R} (p : R -> bool) (l : list R) (x : R) :
  filter p l = [] -> p x = true -> filter p (l ++ [x])%list = [x].
Proof. intros H Hx. rewrite filter_app, H. simpl. rewrite Hx. reflexivity. Qed.

(** X17.  A generated quiz is found by the next request. After a quiz
    request that generated and stored a quiz, the same request on the
    resulting database gets the same response, changes nothing, and consists
    of the lookup of the lesson alone: the model is not asked again. *)
Theorem generated_quiz_found_again (E : env) (req : QuizRequest.t)
  (d : database) (lessonId : string) (lesson : Lesson) (language : Language)
  (qid : string) :
  quiz_request_served E req d lessonId lesson language qid ->
  generateQuiz E req (database_of (generateQuiz E req d))
  = (result_of (generateQuiz E req d),
     database_of (generateQuiz E req d),
     [Db (lesson_findUnique lessonId true) true]).
Proof.
  intros Hs.
  destruct (generateQuiz_served E req d lessonId lesson language qid Hs)
    as (qs & t & Hrun & _).
  destruct Hs as [H0 N0 Hr0 Hr1 Hl Hlang Hq Hr2 Hf].
  rewrite Hrun. unfold result_of, database_of. cbn [fst snd].
  destruct (nonempty_string _ N0) as (c0 & l0 & ->).
  unfold generateQuiz, try_catch. unfold bind at 1.
  unfold lesson_find_quiz, prisma at 1.
  rewrite H0, Hr0. cbn [lessons languages quizzes with_quizzes].
  rewrite Hl, (filter_one_more _ _ _ Hq) by apply String.eqb_refl.
  reflexivity.
Qed.

(** The quiz request of the sample, twice. *)
Lemma generated_quiz_found_again_witness :
  let E := Sample.deployment true (Sample.always Sample.malformed_quiz) in
  generateQuiz E Sample.quiz_request
    (database_of (generateQuiz E Sample.quiz_request (Sample.with_lesson [])))
  = (result_of (generateQuiz E Sample.quiz_request (Sample.with_lesson [])),
     database_of (generateQuiz E Sample.quiz_request (Sample.with_lesson [])),
     [Db (lesson_findUnique "l1" true) true]).
Proof.
  intros E.
  exact (generated_quiz_found_again E Sample.quiz_request
           (Sample.with_lesson []) "l1" Sample.greetings Sample.spanish
           "quiz-0" (sample_quiz_request_served E eq_refl eq_refl)).
Defined.

Lemma fresh_is_new {R} E t (key : R -> string) rows id :
  fresh E t key rows = Some id -> by_id key id rows = None.
Proof.
  unfold fresh. destruct (by_id key (new_id E t (length rows)) rows) eqn:B;
    [discriminate|]. intros [= <-]. exact B.
Qed.

Lemma by_id_appended {R} (key : R -> string) rows row :
  by_id key (key row) rows = None ->
  by_id key (key row) (rows ++ [row])%list = Some row.
Proof.
  unfold by_id. induction rows as [|x r IH]; simpl.
  - rewrite String.eqb_refl. reflexivity.
  - destruct (String.eqb (key x) (key row)); [discriminate|]. exact IH.
Qed.

(** What [getLessonContent] answers for a lesson it finds. *)
Lemma getLessonContent_found E lessonId d lesson :
  rejects E (lesson_findUnique lessonId true) = false ->
  by_id lesson_id lessonId (lessons d) = Some lesson ->
  getLessonContent E lessonId d
  = (Return
       (success
          [("lesson",
            JObj [("id", JStr (lesson_id lesson));
                  ("title", JStr (title lesson));
                  ("description", JStr (description lesson));
                  ("level", JStr (level_name (Prisma.level lesson)));
                  ("languageId", JStr (lesson_languageId lesson));
                  ("language",
                   match by_id language_id (lesson_languageId lesson)
                           (languages d) with
                   | Some l => language_json l
                   | None => JNull
                   end);
                  ("content",
                   if truthy (Some (content lesson))
                   then content lesson else empty_content);
                  ("quiz",
                   match filter (fun q => String.eqb (quiz_lessonId q) lessonId)
                           (quizzes d) with
                   | q :: _ =>
                       quiz_json (or_str (Some (quiz_id q)) "")
                         (lesson_id lesson) (questions_or_empty (questions q))
                   | [] => quiz_json "" (lesson_id lesson) (JArray [])
                   end)])]),
     d,
     [Db (lesson_findUnique lessonId true) true]).
Proof.
  intros Hr Hl.
  unfold getLessonContent, try_catch, bind, lesson_find_quiz, prisma, ret.
  rewrite Hr, Hl.
  destruct (filter _ (quizzes d)); reflexivity.
Qed.

(** X18.  A generated lesson can be fetched. After a lesson request that
    reaches the end of generateLesson, getLessonContent for the id of the
    new lesson answers with that lesson: its id, title, level, languageId
    and language, and the content the lesson request returned (the empty
    content in place of a falsy one). *)
Theorem generated_lesson_fetched (E : env) (req : LessonRequest.t)
  (user : User) (d : database) (languageId userId : string) (lv : Level)
  (language : Language) (lid pid : string) :
  lesson_request_served E req user d languageId userId lv language lid pid ->
  rejects E (lesson_findUnique lid true) = false ->
  exists c doc,
    result_of (generateLesson E req (Some user) d)
      = Return (lesson_response
                  (lesson_row lid req languageId lv language c) c
                  (progress_row pid userId lid))
    /\ result_of (getLessonContent E lid
                    (database_of (generateLesson E req (Some user) d)))
       = Return (success [("lesson", doc)])
    /\ field doc "id" = Some (JStr lid)
    /\ field doc "title"
       = Some (JStr (lesson_title lv language (LessonRequest.topic req)))
    /\ field doc "level" = Some (JStr (level_name lv))
    /\ field doc "languageId" = Some (JStr languageId)
    /\ field doc "language" = Some (language_json language)
    /\ field doc "content"
       = Some (if truthy (Some c) then c else empty_content).
Proof.
  intros Hs Hr.
  destruct (generateLesson_served E req user d languageId userId lv language
              lid pid Hs) as (c & d' & t & Hrun & _ & Hl & _).
  pose proof (steady_generateLesson E req (Some user) d) as [G _].
  rewrite Hrun in *. unfold result_of, database_of in *. cbn [fst snd] in *.
  assert (Hrow : by_id lesson_id lid (lessons d')
                 = Some (lesson_row lid req languageId lv language c)).
  { rewrite Hl.
    apply (by_id_appended lesson_id (lessons d)
             (lesson_row lid req languageId lv language c)).
    apply (fresh_is_new E TLesson), (served_lesson_id _ _ _ _ _ _ _ _ _ _ Hs). }
  rewrite (getLessonContent_found E lid d' _ Hr Hrow).
  exists c. eexists. split; [reflexivity|]. split; [reflexivity|].
  cbn [fst]. repeat split.
  cbn. rewrite (grows_languages _ _ G).
  rewrite (served_language _ _ _ _ _ _ _ _ _ _ Hs). reflexivity.
Qed.

(** The lesson request of the sample, then the fetch of [lesson-0]. *)
Lemma generated_lesson_fetched_witness :
  let E := Sample.deployment true (Sample.always Sample.fenced_grammar) in
  exists c doc,
    result_of (generateLesson E Sample.lesson_request (Some Sample.ana)
                 Sample.empty)
      = Return (lesson_response
                  (lesson_row "lesson-0" Sample.lesson_request "es" BEGINNER
                     Sample.spanish c) c
                  (progress_row "progress-0" "u1" "lesson-0"))
    /\ result_of (getLessonContent E "lesson-0"
                    (database_of (generateLesson E Sample.lesson_request
                                    (Some Sample.ana) Sample.empty)))
       = Return (success [("lesson", doc)])
    /\ field doc "id" = Some (JStr "lesson-0")
    /\ field doc "title"
       = Some (JStr (lesson_title BEGINNER Sample.spanish
                       (LessonRequest.topic Sample.lesson_request)))
    /\ field doc "level" = Some (JStr (level_name BEGINNER))
    /\ field doc "languageId" = Some (JStr "es")
    /\ field doc "language" = Some (language_json Sample.spanish)
    /\ field doc "content"
       = Some (if truthy (Some c) then c else empty_content).
Proof.
  intros E.
  exact (generated_lesson_fetched E Sample.lesson_request Sample.ana
           Sample.empty "es" "u1" BEGINNER Sample.spanish "lesson-0"
           "progress-0" (sample_lesson_request_served E eq_refl eq_refl)
           eq_refl).
Defined.

Lemma auto_quiz_on_stored E lid c d1 l language :
  by_id lesson_id lid (lessons d1) = Some l ->
  by_id language_id (lesson_languageId l) (languages d1) = Some language ->
  (forall e,
     In (ConsoleError "Auto quiz generation failed:" e)
        (events_of (auto_quiz E lid c d1)) -> e = PrismaError)
  /\ (rejects E (lesson_findUnique lid false) = false ->
      GEMINI_API_KEY E = true ->
      In (Model (cascade_generation (Prisma.level l) language c))
         (events_of (auto_quiz E lid c d1)))
  /\ (forall qid,
        rejects E (lesson_findUnique lid false) = false ->
        rejects E (quiz_create lid) = false ->
        fresh E TQuiz quiz_id (quizzes d1) = Some qid ->
        quizzes (database_of (auto_quiz E lid c d1))
        = (quizzes d1
             ++ [{| quiz_id := qid; quiz_lessonId := lid;
                    questions :=
                      match generateContent E
                              (cascade_generation (Prisma.level l) language c)
                      with
                      | Some raw =>
                          if GEMINI_API_KEY E then
                            match safeJsonParse (JSON_parse E) raw with
                            | Return doc => doc
                            | Throw _ => JArray []
                            end
                          else JArray []
                      | None => JArray []
                      end |}])%list).
Proof.
  intros Hl Hlang.
  unfold auto_quiz, generateQuizInternal, cascade_generation.
  unfold try_catch, bind, lesson_find, quiz_insert, prisma, callGeminiJSON,
    generate, emit, throw, ret, lift, console_error, events_of, database_of.
  rewrite Hl, Hlang.
  destruct (rejects E (lesson_findUnique lid false)); simpl.
  { split; [|split; intros; discriminate].
    intros e H. repeat (destruct H as [H|H]; try congruence). contradiction. }
  destruct (GEMINI_API_KEY E); simpl;
    (destruct (generateContent E _) as [raw|]; simpl);
    try (destruct (safeJsonParse (JSON_parse E) raw) as [doc|e0]; simpl);
    (destruct (rejects E (quiz_create lid)); simpl);
    try (destruct (fresh E TQuiz quiz_id (quizzes d1)); simpl);
    (split; [intros e H; repeat (destruct H as [H|H]; try congruence);
             try contradiction
            |split; [intros; try discriminate; tauto
                    |intros qid ? ? ?; try discriminate; congruence]]).
Qed.

Lemma generateLesson_run_exact E req user d c0 l0 lv c1 l1 language lid pid :
  LessonRequest.languageId req = Some (String c0 l0) ->
  LessonRequest.level req = Some lv ->
  user_id user = String c1 l1 ->
  rejects E (language_findUnique (String c0 l0)) = false ->
  by_id language_id (String c0 l0) (languages d) = Some language ->
  rejects E (lesson_create (String c0 l0)
               (lesson_title lv language (LessonRequest.topic req))) = false ->
  fresh E TLesson lesson_id (lessons d) = Some lid ->
  rejects E (learningProgress_create (String c1 l1) lid) = false ->
  fresh E TLearningProgress progress_id (progress d) = Some pid ->
  let c := lesson_content_of E req lv language d in
  let row := lesson_row lid req (String c0 l0) lv language c in
  let d1 := with_lessons d (lessons d ++ [row]) in
  generateLesson E req (Some user) d
  = (Return (lesson_response row c (progress_row pid (String c1 l1) lid)),
     with_progress (database_of (auto_quiz E lid c d1))
       (progress d ++ [progress_row pid (String c1 l1) lid])%list,
     ((Db (language_findUnique (String c0 l0)) true
         :: events_of (lesson_document E lv language
                         (LessonRequest.topic req) d))
        ++ Db (lesson_create (String c0 l0)
                 (lesson_title lv language (LessonRequest.topic req))) true
        :: events_of (auto_quiz E lid c d1)
        ++ [Db (learningProgress_create (String c1 l1) lid) true])%list).
Proof.
  intros H0 H1 H2 Hr0 Hf0 Hr1 Hf1 Hr2 Hf2 c row d1.
  unfold generateLesson, try_catch, bind, ret.
  rewrite H0, H1. simpl. rewrite H2.
  unfold language_find, prisma at 1. rewrite Hr0, Hf0.
  unfold events_of, database_of.
  destruct (lesson_document_run E lv language (LessonRequest.topic req) d)
    as (c' & t & -> & Hc & Ht).
  change (LessonPrompt lv (language_name language)
            (nonempty (LessonRequest.topic req)))
    with (lesson_prompt req lv language) in Hc.
  fold (lesson_content_of E req lv language d) in Hc. fold c in Hc. subst c'.
  unfold lesson_insert, prisma at 1. rewrite Hr1, Hf1.
  cbn [lesson_id].
  fold (lesson_row lid req (String c0 l0) lv language c). fold row. fold d1.
  destruct (auto_quiz_run E lid c d1) as (d2 & t2 & Ha & Hs & _).
  rewrite Ha.
  destruct Hs as (_ & _ & Hl & Hp & _).
  unfold progress_insert, prisma. rewrite Hr2, Hp. cbn [progress d1 with_lessons].
  rewrite Hf2. cbn [fst snd app]. rewrite ?app_nil_r. reflexivity.
Qed.

(** X19.  The cascade works on the lesson just stored. In a lesson request
    that reaches the end of the handler, the cascade finds the new lesson
    and its language: the only error it can log is one of the persistence
    calls; with a key, and the lookup going through, the model is asked for
    5 questions at the level and in the language of the request, about the
    content just stored; and when the quiz can be stored it is the one row
    added to the quizzes, for the new lesson. *)
Theorem cascade_on_new_lesson (E : env) (req : LessonRequest.t) (user : User)
  (d : database) (languageId userId : string) (lv : Level)
  (language : Language) (lid pid : string) :
  lesson_request_served E req user d languageId userId lv language lid pid ->
  let r := generateLesson E req (Some user) d in
  let c := lesson_content_of E req lv language d in
  (forall e,
     In (ConsoleError "Auto quiz generation failed:" e) (events_of r) ->
     e = PrismaError)
  /\ (rejects E (lesson_findUnique lid false) = false ->
      GEMINI_API_KEY E = true ->
      In (Model (cascade_generation lv language c)) (events_of r))
  /\ (forall qid,
        rejects E (lesson_findUnique lid false) = false ->
        rejects E (quiz_create lid) = false ->
        fresh E TQuiz quiz_id (quizzes d) = Some qid ->
        exists qs,
          quizzes (database_of r)
          = (quizzes d ++ [{| quiz_id := qid; quiz_lessonId := lid;
                              questions := qs |}])%list).
Proof.
  intros [H0 N0 H1 H2 N2 Hr0 Hf0 Hr1 Hf1 Hr2 Hf2].
  destruct (nonempty_string _ N0) as (c0 & l0 & ->).
  destruct (nonempty_string _ N2) as (c2 & l2 & ->).
  intros r c.
  pose proof (generateLesson_run_exact E req user d c0 l0 lv c2 l2 language
                lid pid H0 H1 H2 Hr0 Hf0 Hr1 Hf1 Hr2 Hf2) as Hrun.
  cbv zeta in Hrun. fold c in Hrun. fold r in Hrun.
  set (row := lesson_row lid req (String c0 l0) lv language c) in *.
  set (d1 := with_lessons d (lessons d ++ [row])) in *.
  assert (Hdb : database_of r = with_progress (database_of (auto_quiz E lid c d1))
                  (progress d ++ [progress_row pid (String c2 l2) lid])%list)
    by (rewrite Hrun; reflexivity).
  assert (Hev : events_of r
                = ((Db (language_findUnique (String c0 l0)) true
                      :: events_of (lesson_document E lv language
                                      (LessonRequest.topic req) d))
                     ++ Db (lesson_create (String c0 l0)
                              (lesson_title lv language
                                 (LessonRequest.topic req))) true
                     :: events_of (auto_quiz E lid c d1)
                     ++ [Db (learningProgress_create (String c2 l2) lid)
                           true])%list)
    by (rewrite Hrun; reflexivity).
  clearbody r.
  assert (Hrow : by_id lesson_id lid (lessons d1) = Some row).
  { apply (by_id_appended lesson_id (lessons d) row).
    apply (fresh_is_new E TLesson), Hf1. }
  assert (Hlang : by_id language_id (lesson_languageId row) (languages d1)
                  = Some language) by exact Hf0.
  destruct (auto_quiz_on_stored E lid c d1 row language Hrow Hlang)
    as (Ha & Hb & Hc).
  split; [|split].
  - intros e. rewrite Hev. intros Hin.
    apply in_app_or in Hin. destruct Hin as [Hin|Hin].
    + exfalso. destruct Hin as [Hin|Hin]; [discriminate|].
      destruct (lesson_document_run E lv language (LessonRequest.topic req) d)
        as (c' & t & Hdoc & _ & Hq).
      unfold events_of in Hin. rewrite Hdoc in Hin. cbn [snd] in Hin.
      rewrite Forall_forall in Hq. destruct (Hq _ Hin) as [Hq1 _].
      discriminate.
    + destruct Hin as [Hin|Hin]; [discriminate|].
      apply in_app_or in Hin. destruct Hin as [Hin|Hin]; [exact (Ha e Hin)|].
      destruct Hin as [Hin|[]]. discriminate.
  - intros R K. rewrite Hev. apply in_or_app. right. right.
    apply in_or_app. left. exact (Hb R K).
  - intros qid R1 R2 F. rewrite Hdb. cbn [quizzes with_progress].
    eexists. exact (Hc qid R1 R2 F).
Qed.

(** The lesson request of the sample on a deployment that stores no quiz. *)
Lemma cascade_on_new_lesson_witness :
  let E := Sample.deployment_rejecting Sample.quiz_table_down true
             (Sample.always Sample.fenced_grammar) in
  let r := generateLesson E Sample.lesson_request (Some Sample.ana)
             Sample.empty in
  (forall e,
     In (ConsoleError "Auto quiz generation failed:" e) (events_of r) ->
     e = PrismaError)
  /\ In (Model (cascade_generation BEGINNER Sample.spanish
                  (JObj [("grammar", JStr "ok")])))
       (events_of r).
Proof.
  intros E r.
  assert (S : lesson_request_served E Sample.lesson_request Sample.ana
                Sample.empty "es" "u1" BEGINNER Sample.spanish "lesson-0"
                "progress-0")
    by (constructor; try reflexivity; discriminate).
  destruct (cascade_on_new_lesson E Sample.lesson_request Sample.ana
              Sample.empty "es" "u1" BEGINNER Sample.spanish "lesson-0"
              "progress-0" S) as (H1 & H2 & _).
  split; [exact H1|]. exact (H2 eq_refl eq_refl).
Defined.

Lemma by_id_key {R} (key : R -> string) id rows row :
  by_id key id rows = Some row -> key row = id.
Proof.
  unfold by_id. intros H. apply find_some in H. destruct H as [_ H].
  apply String.eqb_eq, H.
Qed.

Lemma authenticateToken_passes E auth d u d' t :
  authenticateToken E auth d = (Return (inr u), d', t) ->
  exists token,
    bearer_token auth = Some token
    /\ jwt_verify E token = Return (user_id u)
    /\ by_id user_id (user_id u) (users d) = Some u
    /\ d' = d
    /\ t = [Db (user_findUnique (user_id u)) true].
Proof.
  unfold authenticateToken, bearer_token, try_catch, bind, lift, user_find,
    prisma, ret, console_error, emit.
  destruct auth as [[|c h]|]; try discriminate.
  destruct (nth_error (split_space (String c h)) 1) as [[|c' tk]|];
    try discriminate.
  destruct (jwt_verify E (String c' tk)) as [uid|e] eqn:V; simpl.
  - destruct (rejects E (user_findUnique uid)); simpl; [discriminate|].
    destruct (by_id user_id uid (users d)) as [u'|] eqn:B; simpl;
      [|discriminate].
    intros [= <- <- <-]. pose proof (by_id_key _ _ _ _ B) as K. subst uid.
    exists (String c' tk). auto.
  - destruct e; simpl; discriminate.
Qed.

(** X20.  Only verified users get through. When the router answers 200, the
    request carried a token, the token verified to the id of a stored user,
    and the rest of the run is the run of the handler of the route with that
    user attached, after the lookup of the user. *)
Theorem router_admits_only_verified_users (E : env)
  (authorization : option string) (r : route) (d : database)
  (resp : response) :
  result_of (router E authorization r d) = Return resp ->
  status resp = 200 ->
  exists token u,
    bearer_token authorization = Some token
    /\ jwt_verify E token = Return (user_id u)
    /\ by_id user_id (user_id u) (users d) = Some u
    /\ result_of (handler E r (Some u) d) = Return resp
    /\ events_of (router E authorization r d)
       = Db (user_findUnique (user_id u)) true
           :: events_of (handler E r (Some u) d)
    /\ database_of (router E authorization r d)
       = database_of (handler E r (Some u) d).
Proof.
  intros H Hs.
  pose proof (yields_authenticateToken E authorization d) as Y.
  unfold router, bind, result_of, events_of, database_of in *.
  destruct (authenticateToken E authorization d) as [[[[resp'|u]|e] d1] t1]
    eqn:A; simpl in *; try discriminate.
  - injection H as <-. specialize (Y _ eq_refl). simpl in Y.
    rewrite Hs in Y. intuition discriminate.
  - destruct (authenticateToken_passes E authorization d u d1 t1 A)
      as (token & Hb & Hv & Hu & -> & ->).
    exists token, u.
    fold (handler E r (Some u)) in *.
    destruct (handler E r (Some u) d) as [[o d2] t2]. simpl in *.
    auto 10.
Qed.

(** Ana fetches a lesson. *)
Lemma router_admits_only_verified_users_witness :
  exists token u,
    bearer_token Scenario.bearer = Some token
    /\ jwt_verify (Sample.deployment true Sample.unreachable) token
       = Return (user_id u)
    /\ by_id user_id (user_id u) (users (Sample.with_lesson [])) = Some u
    /\ result_of (handler (Sample.deployment true Sample.unreachable)
                    (lesson_by_id "l1") (Some u) (Sample.with_lesson []))
       = Return (success
                   [("lesson",
                     JObj [("id", JStr "l1"); ("title", JStr "Greetings");
                           ("description", JStr "AI-generated lesson");
                           ("level", JStr "BEGINNER");
                           ("languageId", JStr "es");
                           ("language", language_json Sample.spanish);
                           ("content", empty_content);
                           ("quiz", quiz_json "" "l1" (JArray []))])])
    /\ events_of (router (Sample.deployment true Sample.unreachable)
                    Scenario.bearer (lesson_by_id "l1") (Sample.with_lesson []))
       = Db (user_findUnique (user_id u)) true
           :: events_of (handler (Sample.deployment true Sample.unreachable)
                           (lesson_by_id "l1") (Some u) (Sample.with_lesson []))
    /\ database_of (router (Sample.deployment true Sample.unreachable)
                      Scenario.bearer (lesson_by_id "l1") (Sample.with_lesson []))
       = database_of (handler (Sample.deployment true Sample.unreachable)
                        (lesson_by_id "l1") (Some u) (Sample.with_lesson [])).
Proof.
  apply (router_admits_only_verified_users
           (Sample.deployment true Sample.unreachable) Scenario.bearer
           (lesson_by_id "l1") (Sample.with_lesson [])).
  - vm_compute. reflexivity.
  - reflexivity.
Defined.

(** X21.  Behind the router the pronunciation handler has its user. For a
    request with a token that verifies to a stored user, and whose fields
    and language are there, the router answers with the feedback of the
    document, whose accuracy is a number, and stores one row for that user
    with the target text, that accuracy and the feedback. *)
Theorem pronunciation_behind_router (E : env) (authorization : option string)
  (req : PronunciationFeedbackRequest.t) (d : database) (token : string)
  (u : User) (languageId targetText : string) (lv : Level)
  (language : Language) (fid : string) :
  pronunciation_request_served E authorization req d token u languageId
    targetText lv language fid ->
  exists fb a,
    result_of (pronunciation_document E language lv targetText d) = Return fb
    /\ field fb "accuracy" = Some (JNum a)
    /\ result_of (router E authorization (pronunciation_feedback req) d)
       = Return (success [("feedback", fb)])
    /\ database_of (router E authorization (pronunciation_feedback req) d)
       = with_pronunciations d
           (pronunciations d
              ++ [{| feedback_id := fid; feedback_userId := user_id u;
                     sentence := targetText; accuracy := a;
                     feedback_document := fb |}])%list.
Proof.
  intros [Ht Hv Hl Hu H0 N0 H1 H2 N2 H3 Hr Hf Hc Hi].
  destruct (nonempty_string _ N0) as (c0 & l0 & ->).
  destruct (nonempty_string _ N2) as (c2 & l2 & ->).
  destruct (pronunciation_document_accuracy E language lv (String c2 l2) d)
    as (fb & a & Hp & Ha & _).
  pose proof (pronunciation_document_database E language lv (String c2 l2) d)
    as Hd.
  exists fb, a. split; [exact Hp|]. split; [exact Ha|].
  assert (Hauth : authenticateToken E authorization d
                  = (Return (inr u), d, [Db (user_findUnique (user_id u)) true])).
  { unfold bearer_token in Ht.
    unfold authenticateToken, try_catch, bind, lift, user_find, prisma, ret.
    destruct authorization as [[|c h]|]; try discriminate.
    destruct (nth_error (split_space (String c h)) 1) as [[|c' tk]|];
      try discriminate.
    injection Ht as <-. rewrite Hv. simpl. rewrite Hl, Hu. reflexivity. }
  unfold router, bind. rewrite Hauth.
  unfold getPronunciationFeedback, try_catch, bind, language_find, prisma,
    lift, ret.
  rewrite H0, H2, H3.
  destruct (PronunciationFeedbackRequest.audioData req) as [[|c1 l1]|];
    try discriminate.
  rewrite Hr, Hf.
  unfold result_of, database_of in Hp, Hd.
  destruct (pronunciation_document E language lv (String c2 l2) d)
    as [[o d1] t1].
  simpl in Hp, Hd. subst o d1.
  rewrite Ha. unfold pronunciation_insert, prisma. rewrite Hc, Hi.
  split; reflexivity.
Qed.

Lemma sample_pronunciation_request_served (reply : generation -> option string) :
  pronunciation_request_served (Sample.deployment true reply) Scenario.bearer
    Sample.hola_request Sample.empty "token-of-ana" Sample.ana "es"
    "Hola amigo" BEGINNER Sample.spanish "feedback-0".
Proof. constructor; try reflexivity; discriminate. Qed.

(** The request of Ana for [Hola amigo], the model rating it 1.5. *)
Lemma pronunciation_behind_router_witness :
  exists fb a,
    result_of (pronunciation_document
                 (Sample.deployment true (Sample.always Sample.off_scale))
                 Sample.spanish BEGINNER "Hola amigo" Sample.empty) = Return fb
    /\ field fb "accuracy" = Some (JNum a)
    /\ result_of (router
                    (Sample.deployment true (Sample.always Sample.off_scale))
                    Scenario.bearer
                    (pronunciation_feedback Sample.hola_request) Sample.empty)
       = Return (success [("feedback", fb)])
    /\ database_of (router
                      (Sample.deployment true (Sample.always Sample.off_scale))
                      Scenario.bearer
                      (pronunciation_feedback Sample.hola_request) Sample.empty)
       = with_pronunciations Sample.empty
           (pronunciations Sample.empty
              ++ [{| feedback_id := "feedback-0";
                     feedback_userId := user_id Sample.ana;
                     sentence := "Hola amigo"; accuracy := a;
                     feedback_document := fb |}])%list.
Proof.
  exact (pronunciation_behind_router
           (Sample.deployment true (Sample.always Sample.off_scale))
           Scenario.bearer Sample.hola_request Sample.empty "token-of-ana"
           Sample.ana "es" "Hola amigo" BEGINNER Sample.spanish "feedback-0"
           (sample_pronunciation_request_served
              (Sample.always Sample.off_scale))).
Defined.

(** X22.  Fetching a lesson reads only. getLessonContent leaves the database
    as it was and never calls the model; and for a lesson that has stored
    quizzes it answers with the first of them, the questions replaced by the
    empty array when they are not an array, and with the content of the
    lesson, the empty content in place of a falsy one. *)
Theorem lesson_fetch (E : env) (lessonId : string) (d : database) :
  database_of (getLessonContent E lessonId d) = d
  /\ forallb (fun e => negb (is_model e))
       (events_of (getLessonContent E lessonId d)) = true
  /\ (forall lesson q others,
        rejects E (lesson_findUnique lessonId true) = false ->
        by_id lesson_id lessonId (lessons d) = Some lesson ->
        filter (fun q => String.eqb (quiz_lessonId q) lessonId) (quizzes d)
          = q :: others ->
        exists doc,
          result_of (getLessonContent E lessonId d)
            = Return (success [("lesson", doc)])
          /\ field doc "quiz"
             = Some (quiz_json (quiz_id q) (lesson_id lesson)
                       (questions_or_empty (questions q)))
          /\ field doc "content"
             = Some (if truthy (Some (content lesson))
                     then content lesson else empty_content)).
Proof.
  split; [|split].
  - unfold getLessonContent, try_catch, bind, lesson_find_quiz, prisma, ret,
      console_error, emit, database_of.
    destruct (rejects E _); [reflexivity|].
    destruct (by_id lesson_id lessonId (lessons d)); reflexivity.
  - unfold getLessonContent, try_catch, bind, lesson_find_quiz, prisma, ret,
      console_error, emit, events_of.
    destruct (rejects E _); [reflexivity|].
    destruct (by_id lesson_id lessonId (lessons d)); reflexivity.
  - intros lesson q others Hr Hl Hq.
    rewrite (getLessonContent_found E lessonId d lesson Hr Hl), Hq.
    eexists. split; [reflexivity|]. split; [|reflexivity].
    cbn. destruct (quiz_id q); reflexivity.
Qed.

(** The lesson of the sample, whose content is null, with a quiz whose
    stored questions are an object. *)
Lemma lesson_fetch_witness :
  exists doc,
    result_of (getLessonContent (Sample.deployment true Sample.unreachable)
                 "l1" (Sample.with_lesson [Scenario.wrapped_quiz]))
      = Return (success [("lesson", doc)])
    /\ field doc "quiz" = Some (quiz_json "q1" "l1" (JArray []))
    /\ field doc "content" = Some empty_content.
Proof.
  destruct (lesson_fetch (Sample.deployment true Sample.unreachable) "l1"
              (Sample.with_lesson [Scenario.wrapped_quiz])) as (_ & _ & H).
  apply (H Sample.greetings Scenario.wrapped_quiz []); reflexivity.
Defined.

(* ------------------------------------------------------------------ *)
(** ** Partial failure, and the middleware *)

Lemma generateLesson_progress_rejected E req user d c0 l0 lv c1 l1 language
  lid :
  LessonRequest.languageId req = Some (String c0 l0) ->
  LessonRequest.level req = Some lv ->
  user_id user = String c1 l1 ->
  rejects E (language_findUnique (String c0 l0)) = false ->
  by_id language_id (String c0 l0) (languages d) = Some language ->
  rejects E (lesson_create (String c0 l0)
               (lesson_title lv language (LessonRequest.topic req))) = false ->
  fresh E TLesson lesson_id (lessons d) = Some lid ->
  rejects E (learningProgress_create (String c1 l1) lid) = true ->
  let c := lesson_content_of E req lv language d in
  let row := lesson_row lid req (String c0 l0) lv language c in
  let d1 := with_lessons d (lessons d ++ [row]) in
  generateLesson E req (Some user) d
  = (Return (failure 500 "message" "Error generating lesson"),
     database_of (auto_quiz E lid c d1),
     (((Db (language_findUnique (String c0 l0)) true
          :: events_of (lesson_document E lv language
                          (LessonRequest.topic req) d))
         ++ Db (lesson_create (String c0 l0)
                  (lesson_title lv language (LessonRequest.topic req))) true
         :: events_of (auto_quiz E lid c d1))
        ++ [Db (learningProgress_create (String c1 l1) lid) false;
            ConsoleError "Error generating lesson:" PrismaError])%list).
Proof.
  intros H0 H1 H2 Hr0 Hf0 Hr1 Hf1 Hr2 c row d1.
  unfold generateLesson, try_catch, bind, ret, console_error, emit.
  rewrite H0, H1. simpl. rewrite H2.
  unfold language_find, prisma at 1. rewrite Hr0, Hf0.
  unfold events_of, database_of.
  destruct (lesson_document_run E lv language (LessonRequest.topic req) d)
    as (c' & t & -> & Hc & Ht).
  change (LessonPrompt lv (language_name language)
            (nonempty (LessonRequest.topic req)))
    with (lesson_prompt req lv language) in Hc.
  fold (lesson_content_of E req lv language d) in Hc. fold c in Hc. subst c'.
  unfold lesson_insert, prisma at 1. rewrite Hr1, Hf1.
  cbn [lesson_id].
  fold (lesson_row lid req (String c0 l0) lv language c). fold row. fold d1.
  destruct (auto_quiz_run E lid c d1) as (d2 & t2 & Ha & _).
  rewrite Ha.
  unfold progress_insert, prisma. rewrite Hr2. cbn [fst snd].
  rewrite ?app_nil_r. f_equal.
  cbn [app]. rewrite <- !app_assoc. cbn [app]. rewrite <- ?app_assoc.
  reflexivity.
Qed.

(** X23.  Nothing is rolled back. When the lesson of a lesson request has
    been stored and the progress row is then rejected, the answer is 500,
    logged under the label of the handler after the rejected call, and yet
    the new lesson stays in the database, with no progress row beside it. *)
Theorem lesson_kept_when_progress_fails (E : env) (req : LessonRequest.t)
  (user : User) (d : database) (languageId userId : string) (lv : Level)
  (language : Language) (lid : string) :
  LessonRequest.languageId req = Some languageId -> languageId <> "" ->
  LessonRequest.level req = Some lv ->
  user_id user = userId -> userId <> "" ->
  rejects E (language_findUnique languageId) = false ->
  by_id language_id languageId (languages d) = Some language ->
  rejects E (lesson_create languageId
               (lesson_title lv language (LessonRequest.topic req))) = false ->
  fresh E TLesson lesson_id (lessons d) = Some lid ->
  rejects E (learningProgress_create userId lid) = true ->
  let r := generateLesson E req (Some user) d in
  result_of r = Return (failure 500 "message" "Error generating lesson")
  /\ lessons (database_of r)
     = (lessons d
          ++ [lesson_row lid req languageId lv language
                (lesson_content_of E req lv language d)])%list
  /\ progress (database_of r) = progress d
  /\ exists t,
       events_of r
       = (t ++ [Db (learningProgress_create userId lid) false;
                ConsoleError "Error generating lesson:" PrismaError])%list.
Proof.
  intros H0 N0 H1 H2 N2 Hr0 Hf0 Hr1 Hf1 Hr2.
  destruct (nonempty_string _ N0) as (c0 & l0 & ->).
  destruct (nonempty_string _ N2) as (c2 & l2 & ->).
  intros r.
  pose proof (generateLesson_progress_rejected E req user d c0 l0 lv c2 l2
                language lid H0 H1 H2 Hr0 Hf0 Hr1 Hf1 Hr2) as Hrun.
  cbv zeta in Hrun. fold r in Hrun.
  match type of Hrun with
  | context [auto_quiz E lid ?c ?d1] =>
      destruct (auto_quiz_run E lid c d1) as (d2 & t2 & Ha & Hs & _);
      rewrite Ha in Hrun
  end.
  destruct Hs as (_ & _ & Hl & Hp & _).
  rewrite Hrun. unfold result_of, database_of, events_of. cbn [fst snd].
  split; [reflexivity|]. split; [exact Hl|]. split; [exact Hp|].
  eexists. reflexivity.
Qed.

(** The lesson request of the sample on a deployment that stores no progress
    row. *)
Lemma lesson_kept_when_progress_fails_witness :
  let E := Sample.deployment_rejecting Scenario.progress_table_down true
             (Sample.always Sample.fenced_grammar) in
  let r := generateLesson E Sample.lesson_request (Some Sample.ana)
             Sample.empty in
  result_of r = Return (failure 500 "message" "Error generating lesson")
  /\ lessons (database_of r)
     = (lessons Sample.empty
          ++ [lesson_row "lesson-0" Sample.lesson_request "es" BEGINNER
                Sample.spanish
                (lesson_content_of E Sample.lesson_request BEGINNER
                   Sample.spanish Sample.empty)])%list
  /\ progress (database_of r) = progress Sample.empty
  /\ exists t,
       events_of r
       = (t ++ [Db (learningProgress_create "u1" "lesson-0") false;
                ConsoleError "Error generating lesson:" PrismaError])%list.
Proof.
  intros E.
  apply (lesson_kept_when_progress_fails E Sample.lesson_request Sample.ana
           Sample.empty "es" "u1" BEGINNER Sample.spanish "lesson-0");
    try reflexivity; discriminate.
Defined.

(** X24.  The router is the middleware, then the handler. Without a header,
    or with a header without a second piece between single spaces, the
    answer is 401 and nothing is done; with a token that jwt.verify refuses
    with a JsonWebTokenError the answer is 403 and nothing is done, with any
    other error 500 and the error is logged; with a verified id the user is
    looked up, and the answer is 500 when the lookup is rejected, 401 when
    there is no such user, and otherwise the run of the handler with that
    user. *)
Theorem middleware_decides (E : env) (authorization : option string)
  (r : route) (d : database) :
  router E authorization r d
  = match bearer_token authorization with
    | None =>
        (Return (failure 401 "message" "Access token is required"), d, [])
    | Some token =>
        match jwt_verify E token with
        | Throw JsonWebTokenError =>
            (Return (failure 403 "message" "Invalid or expired token"), d, [])
        | Throw e =>
            (Return (failure 500 "message"
                       "Internal server error during authentication"),
             d, [ConsoleError "Authentication error:" e])
        | Return userId =>
            if rejects E (user_findUnique userId)
            then (Return (failure 500 "message"
                            "Internal server error during authentication"),
                  d,
                  [Db (user_findUnique userId) false;
                   ConsoleError "Authentication error:" PrismaError])
            else match by_id user_id userId (users d) with
                 | None =>
                     (Return (failure 401 "message" "User not found"), d,
                      [Db (user_findUnique userId) true])
                 | Some user =>
                     (result_of (handler E r (Some user) d),
                      database_of (handler E r (Some user) d),
                      Db (user_findUnique userId) true
                        :: events_of (handler E r (Some user) d))
                 end
        end
    end.
Proof.
  unfold router, authenticateToken, bearer_token, try_catch, bind, lift,
    user_find, prisma, ret, console_error, emit.
  destruct authorization as [[|c h]|]; try reflexivity.
  destruct (nth_error (split_space (String c h)) 1) as [[|c' tk]|];
    try reflexivity.
  destruct (jwt_verify E (String c' tk)) as [uid|e]; simpl.
  - destruct (rejects E (user_findUnique uid)); simpl; [reflexivity|].
    destruct (by_id user_id uid (users d)) as [u|]; simpl; [|reflexivity].
    fold (handler E r (Some u)).
    unfold result_of, database_of, events_of.
    destruct (handler E r (Some u) d) as [[o d2] t2]. reflexivity.
  - destruct e; reflexivity.
Qed.
